(** * Oil-field production analytics pipeline: a shallow embedding

  The development follows the layout of the repository:
  - [Py]        : the few Python values the scripts manipulate
                  (strings as code-point sequences, exceptions, results);
  - [Frame]     : the fragment of pandas the scripts rely on
                  (columns with nulls, label lookup, assignment, masks);
  - [Utils]     : [scripts/utils.py]      ([load_data], [clean_column_names], [save_dataframe]);
  - [Cleaning]  : [scripts/cleaning.py]   ([handle_missing_values], [handle_outliers], [main]);
  - [Modeling]  : [scripts/modeling.py]   ([preprocess_for_modeling], [main]);
  - [Dashboard] : [scripts/dashboard.py]  ([update_dashboard], [create_kpis], [create_insights]);
  - [Eda]       : [scripts/eda.py]        ([main]);
  - [Orchestrator] : [main.py]            ([get_latest_cleaned_file], [main]).

  Numbers are rationals: every float operation of the scripts is read in
  exact arithmetic and NaN is the null of a numeric column ([None]).  A
  numeric cell is thus a finite number or a null: the tables of the
  model hold no infinity (a CSV cell reading inf is outside it), and
  int64 and float64 are one kind of column.

  Labels may repeat: [pd.read_csv] renames repeated headers, but
  [clean_column_names] can send two headers to one name.  Where the
  Cleaner writes [df[col]], a repeated label gives a sub-frame instead
  of a Series, and the model follows pandas 2 there.  The Modeler, the
  Analyzer and the Dashboard read files loaded by [pd.read_csv], whose
  labels are distinct. *)

From Stdlib Require Import String Ascii.
From Stdlib Require Import List Bool Arith ZArith NArith QArith Qround Qminmax.
From Stdlib Require Import Lia Lqa.
From Stdlib Require Import Sorting.Mergesort Sorting.Sorted Sorting.Permutation Orders.
Import ListNotations.

(* ================================================================== *)
(** * Python values *)

Module Py.

(** A Python [str] is a sequence of Unicode code points. *)
Definition str := list N.

(** ASCII literals of the scripts. *)
Definition lit (s : string) : str := map N_of_ascii (list_ascii_of_string s).

Fixpoint str_eqb (a b : str) : bool :=
  match a, b with
  | [], [] => true
  | x :: a', y :: b' => N.eqb x y && str_eqb a' b'
  | _, _ => false
  end.

(** [x in xs] on a list of strings. *)
Definition str_in (x : str) (xs : list str) : bool := existsb (str_eqb x) xs.

(** The exception classes the scripts raise or meet; all derive from
    [Exception].  [detail] is the variable part of the message. *)
Inductive exc_kind := FileNotFoundError | ValueError | TypeError | KeyError | OtherException.

Record exc := Exc { kind : exc_kind; detail : str }.

(** A call either returns a value or raises. *)
Inductive result (A : Type) :=
| Ok (a : A)
| Raise (e : exc).
Arguments Ok {A} a.
Arguments Raise {A} e.

Definition bind {A B} (m : result A) (k : A -> result B) : result B :=
  match m with
  | Ok a => k a
  | Raise e => Raise e
  end.

Definition is_ok {A} (m : result A) : bool :=
  match m with Ok _ => true | Raise _ => false end.

End Py.
Import Py.

Declare Scope py_scope.
Delimit Scope py_scope with py.
Notation "x <- m ;; k" := (Py.bind m (fun x => k))
(at level 61, m at next level, right associativity) : py_scope.
Notation "''' s" := (Py.lit s%string) (at level 1, format "''' s") : py_scope.
Open Scope py_scope.

(* ================================================================== *)
(** * The pandas fragment used by the scripts *)

Module QOrder <: TotalLeBool.
Definition t := Q.
Definition leb (x y : Q) : bool := Qle_bool x y.
Lemma leb_total (x y : Q) : leb x y = true \/ leb y x = true.
Proof.
  unfold leb. rewrite !Qle_bool_iff. destruct (Qlt_le_dec x y) as [H|H]; [left; lra | right; lra].
Qed.
End QOrder.

Module QSort := Sort QOrder.

Module Frame.

(** A column (a pandas Series) by kind of dtype.  [None] is the null of
    the kind: NaN for numbers, None/NaN for text, NaT for dates. *)
Inductive column :=
| NumCol (v : list (option Q))      (* int64 or float64, not told apart *)
| ObjCol (v : list (option str))    (* object (str) *)
| DateCol (v : list (option Z)).    (* datetime64[ns] *)

(** A DataFrame: labelled columns, in order. *)
Definition DataFrame := list (str * column).

(** [df.columns] *)
Definition columns (df : DataFrame) : list str := map fst df.

(** [col in df.columns] *)
Definition has_col (n : str) (df : DataFrame) : bool := str_in n (columns df).

(** [df[col]] as pandas builds it: every column carrying the label, in
    order.  One column is a Series, two or more are a sub-frame, none
    is a KeyError. *)
Definition get_cols (n : str) (df : DataFrame) : list column :=
  map snd (filter (fun kc => str_eqb (fst kc) n) df).

(** [df[col]] where one column carries the label (the first one is
    taken); [None] stands for KeyError. *)
Fixpoint get_col (n : str) (df : DataFrame) : option column :=
  match df with
  | [] => None
  | (k, c) :: df' => if str_eqb k n then Some c else get_col n df'
  end.

(** [df[col] = series]: every column carrying the label is replaced
    (pandas broadcasts over a repeated label), a new label is appended. *)
Definition set_col (n : str) (c : column) (df : DataFrame) : DataFrame :=
  if has_col n df
  then map (fun kc => if str_eqb (fst kc) n then (fst kc, c) else kc) df
  else df ++ [(n, c)].

(** [df[col] = frame] on a repeated label: the columns carrying the
    label are replaced position by position. *)
Fixpoint set_cols (n : str) (new : list column) (df : DataFrame) : DataFrame :=
  match df with
  | [] => []
  | (k, c) :: df' =>
      if str_eqb k n
      then match new with
           | c' :: new' => (k, c') :: set_cols n new' df'
           | [] => (k, c) :: set_cols n [] df'
           end
      else (k, c) :: set_cols n new df'
  end.

(** [df.columns = names] *)
Definition rename_columns (names : list str) (df : DataFrame) : DataFrame :=
  combine names (map snd df).

Definition is_number (c : column) : bool :=
  match c with NumCol _ => true | _ => false end.

Definition is_text (c : column) : bool :=
  match c with ObjCol _ => true | _ => false end.

(** [df.select_dtypes(include=[np.number]).columns] *)
Definition select_dtypes_include_number (df : DataFrame) : list str :=
  columns (filter (fun kc => is_number (snd kc)) df).

(** [df.select_dtypes(exclude=[np.number]).columns] *)
Definition select_dtypes_exclude_number (df : DataFrame) : list str :=
  columns (filter (fun kc => negb (is_number (snd kc))) df).

Definition isnull {A} (v : list (option A)) : list bool :=
  map (fun o => match o with None => true | Some _ => false end) v.

(** [series.isnull()] *)
Definition col_isnull (c : column) : list bool :=
  match c with
  | NumCol v => isnull v
  | ObjCol v => isnull v
  | DateCol v => isnull v
  end.

(** [series.isnull().any()] *)
Definition has_null (c : column) : bool := existsb (fun b => b) (col_isnull c).

Definition col_len (c : column) : nat := length (col_isnull c).

(** [len(df)] *)
Definition nrows (df : DataFrame) : nat :=
  match df with
  | [] => 0
  | (_, c) :: _ => col_len c
  end.

(** The non-null values of a column, in order. *)
Fixpoint non_null {A} (v : list (option A)) : list A :=
  match v with
  | [] => []
  | Some x :: v' => x :: non_null v'
  | None :: v' => non_null v'
  end.

(** Boolean-mask selection [series[mask]]. *)
Fixpoint take {A} (mask : list bool) (v : list A) : list A :=
  match mask, v with
  | true :: m, x :: v' => x :: take m v'
  | false :: m, _ :: v' => take m v'
  | _, _ => []
  end.

Definition col_take (mask : list bool) (c : column) : column :=
  match c with
  | NumCol v => NumCol (take mask v)
  | ObjCol v => ObjCol (take mask v)
  | DateCol v => DateCol (take mask v)
  end.

(** [df[mask]] *)
Definition df_take (mask : list bool) (df : DataFrame) : DataFrame :=
  map (fun kc => (fst kc, col_take mask (snd kc))) df.

Fixpoint sumQ (xs : list Q) : Q :=
  match xs with
  | [] => 0
  | x :: xs' => x + sumQ xs'
  end.

Definition Qlen {A} (xs : list A) : Q := inject_Z (Z.of_nat (length xs)).

(** [series.sum()]: nulls skipped, 0 on an empty selection. *)
Definition sum (v : list (option Q)) : Q := sumQ (non_null v).

(** [series.mean()]: nulls skipped; NaN when nothing is left.  (With
    both infinities in a column the float mean is NaN as well; the
    tables of the model hold none.) *)
Definition mean (v : list (option Q)) : option Q :=
  match non_null v with
  | [] => None
  | xs => Some (sumQ xs / Qlen xs)
  end.

(** [series.fillna(value)]; filling with NaN changes nothing. *)
Definition fillna (v : list (option Q)) (value : option Q) : list (option Q) :=
  match value with
  | None => v
  | Some x => map (fun o => match o with None => Some x | Some y => Some y end) v
  end.

(** The [k]-th order statistic of a sorted sample, the index taken in
    range as numpy takes it. *)
Definition order_stat (xs : list Q) (d : Q) (k : nat) : Q :=
  nth (Nat.min k (length xs - 1)) xs d.

(** Linear interpolation at the virtual index [h]:
    [a + (b - a) * gamma] between the two neighbouring order statistics. *)
Definition lerp_at (xs : list Q) (d : Q) (h : Q) : Q :=
  let i := Z.to_nat (Qfloor h) in
  let g := h - inject_Z (Qfloor h) in
  let a := order_stat xs d i in
  let b := order_stat xs d (S i) in
  a + (b - a) * g.

(** [series.quantile(q)], linear interpolation at position
    [q * (n - 1)] of the sorted non-null values; NaN when nothing is left. *)
Definition quantile (v : list (option Q)) (q : Q) : option Q :=
  match QSort.sort (non_null v) with
  | [] => None
  | (x0 :: _) as xs => Some (lerp_at xs x0 (q * (Qlen xs - 1)))
  end.

Definition clip1 (lo hi x : Q) : Q :=
  if Qlt_le_dec x lo then lo else if Qlt_le_dec hi x then hi else x.

(** [series.clip(lower, upper)] with scalar thresholds: a NaN threshold
    does not clip, two thresholds are put in order, nulls stay null. *)
Definition clip (v : list (option Q)) (lower upper : option Q) : list (option Q) :=
  match lower, upper with
  | Some l, Some u => map (option_map (clip1 (Qmin l u) (Qmax l u))) v
  | Some l, None => map (option_map (fun x => if Qlt_le_dec x l then l else x)) v
  | None, Some u => map (option_map (fun x => if Qlt_le_dec u x then u else x)) v
  | None, None => v
  end.

End Frame.
Import Frame.

(* ================================================================== *)
(** * scripts/utils.py *)

Module Utils.

(** [str.isspace()] of one code point: what [str.strip()] removes. *)
Definition is_space (c : N) : bool :=
  ((9 <=? c) && (c <=? 13) || (28 <=? c) && (c <=? 32)
   || (c =? 133) || (c =? 160) || (c =? 5760)
   || (8192 <=? c) && (c <=? 8202)
   || (c =? 8232) || (c =? 8233) || (c =? 8239) || (c =? 8287) || (c =? 12288))%N.

Fixpoint lstrip (s : str) : str :=
  match s with
  | c :: s' => if is_space c then lstrip s' else s
  | [] => []
  end.

Definition rstrip (s : str) : str := rev (lstrip (rev s)).

(** [s.strip()] *)
Definition strip (s : str) : str := rstrip (lstrip s).

Definition is_ascii_upper (c : N) : bool := ((65 <=? c) && (c <=? 90))%N.
Definition is_ascii_lower (c : N) : bool := ((97 <=? c) && (c <=? 122))%N.
Definition is_ascii_digit (c : N) : bool := ((48 <=? c) && (c <=? 57))%N.

(** The ASCII part of the case table. *)
Definition ascii_lower (c : N) : N := if is_ascii_upper c then (c + 32)%N else c.

(** The character class [[a-zA-Z0-9_]]. *)
Definition in_class (c : N) : bool :=
  is_ascii_lower c || is_ascii_upper c || is_ascii_digit c || N.eqb c 95.

(** [re.sub(r'[^a-zA-Z0-9_]', '_', s)] *)
Definition re_sub_underscore (s : str) : str :=
  map (fun c => if in_class c then c else 95%N) s.

(** POSIX [os.path.join(a, b)] *)
Definition path_join (a b : str) : str :=
  match b with
  | 47%N :: _ => b
  | _ => match rev a with
         | [] => b
         | 47%N :: _ => a ++ b
         | _ => a ++ 47%N :: b
         end
  end.

Section Defs.

(** [str.lower()].  The Unicode case table is not part of the
    repository; it is a parameter of the model. *)
Variable str_lower : str -> str.

(** [pd.read_csv] on the current file system: the loaded table, or the
    exception it raises. *)
Variable read_csv : str -> result DataFrame.

(** [datetime.now().strftime("%Y%m%d")] *)
Variable date_suffix : str.

(** [os.makedirs(path, exist_ok=True)] and [df.to_csv(path, index=False)]
    on the current file system: done, or the exception raised. *)
Variable makedirs : str -> result unit.
Variable to_csv : DataFrame -> str -> result unit.

(** [load_data]: both handlers print and re-raise. *)
Definition load_data (file_path : str) : result DataFrame :=
  match read_csv file_path with
  | Ok df => Ok df
  | Raise e =>
      match kind e with
      | FileNotFoundError => Raise e
      | _ => Raise e
      end
  end.

(** The comprehension body of [clean_column_names]. *)
Definition clean_name (col : str) : str :=
  re_sub_underscore (strip (str_lower col)).

Definition clean_column_names (df : DataFrame) : DataFrame :=
  rename_columns (map clean_name (columns df)) df.

(** [save_dataframe]: the file written, as (path, table); what
    [os.makedirs] or [to_csv] raises is passed on. *)
Definition save_dataframe (df : DataFrame) (filename output_dir : str)
  : result (str * DataFrame) :=
  _ <- makedirs output_dir ;;
  let output_path := path_join output_dir (filename ++ '"_" ++ date_suffix ++ '".csv") in
  _ <- to_csv df output_path ;;
  Ok (output_path, df).

End Defs.

End Utils.

(* ================================================================== *)
(** * scripts/cleaning.py *)

Module Cleaning.

(** NaN-propagating float arithmetic on scalars. *)
Definition fsub (a b : option Q) : option Q :=
  match a, b with Some x, Some y => Some (x - y) | _, _ => None end.
Definition fadd (a b : option Q) : option Q :=
  match a, b with Some x, Some y => Some (x + y) | _, _ => None end.
Definition fscale (k : Q) (a : option Q) : option Q := option_map (Qmult k) a.

(** What [series.fillna(series.mean())] does to a column of the numeric
    selection. *)
Definition fill_col (c : column) : column :=
  match c with
  | NumCol v => NumCol (fillna v (mean v))
  | _ => c
  end.

(** One entry of [frame.mean()]. *)
Definition col_mean (c : column) : option Q :=
  match c with
  | NumCol v => mean v
  | _ => None
  end.

(** [frame.fillna(value)] with a scalar, on one column of the frame. *)
Definition fill_with (value : option Q) (c : column) : column :=
  match c with
  | NumCol v => NumCol (fillna v value)
  | _ => c
  end.

(** [frame.fillna(frame.mean())] on a sub-frame of number columns that
    share a label: pandas goes through the means one by one and, the
    label being the same, fills every column of the sub-frame with each
    of them. *)
Definition fill_frame (piece : list column) : list column :=
  fold_left (fun acc value => map (fill_with value) acc) (map col_mean piece) piece.

(** Body of the first loop: [df[col] = df[col].fillna(df[col].mean())].
    A sub-frame holding a column that is not a number has no mean. *)
Definition fill_step (acc : result DataFrame) (col : str) : result DataFrame :=
  df <- acc ;;
  match get_cols col df with
  | [] => Raise (Exc KeyError col)
  | [c] => Ok (set_col col (fill_col c) df)
  | piece =>
      if forallb is_number piece
      then Ok (set_cols col (fill_frame piece) df)
      else Raise (Exc TypeError col)
  end.

(** Row [i] has no null in the columns that carry a label of [subset]. *)
Definition row_complete (df : DataFrame) (subset : list str) (i : nat) : bool :=
  forallb (fun kc => negb (str_in (fst kc) subset)
                     || negb (nth i (col_isnull (snd kc)) false)) df.

(** [df.dropna(subset=subset)] *)
Definition dropna (subset : list str) (df : DataFrame) : DataFrame :=
  df_take (map (row_complete df subset) (seq 0 (nrows df))) df.

Definition handle_missing_values (df : DataFrame) : result DataFrame :=
  let numeric_cols := select_dtypes_include_number df in
  df <- fold_left fill_step numeric_cols (Ok df) ;;
  let non_numeric_cols := select_dtypes_exclude_number df in
  Ok (dropna non_numeric_cols df).

(** The Tukey fences of a column: [(lower_bound, upper_bound)]. *)
Definition iqr_bounds (v : list (option Q)) : option Q * option Q :=
  let Q1 := quantile v (1 # 4) in
  let Q3 := quantile v (3 # 4) in
  let IQR := fsub Q3 Q1 in
  let lower_bound := fsub Q1 (fscale (3 # 2) IQR) in
  let upper_bound := fadd Q3 (fscale (3 # 2) IQR) in
  (lower_bound, upper_bound).

(** The IQR branch on the values of one numeric column. *)
Definition iqr_clip (v : list (option Q)) : list (option Q) :=
  clip v (fst (iqr_bounds v)) (snd (iqr_bounds v)).

(** [np.abs(stats.zscore(x)) < 3], elementwise.  [zscore] propagates
    NaN (one null makes every score NaN) and divides by the population
    standard deviation; with [s > 0], [|x - m| / s < 3] is
    [(x - m)^2 < 9 * s^2]; a NaN score compares false. *)
Definition zscore_lt3 (v : list (option Q)) : list bool :=
  if existsb (fun b => b) (isnull v) then map (fun _ => false) v
  else
    let xs := non_null v in
    let m := sumQ xs / Qlen xs in
    let var := sumQ (map (fun x => (x - m) * (x - m)) xs) / Qlen xs in
    map (fun x => if Qeq_bool var 0 then false
                  else if Qlt_le_dec ((x - m) * (x - m)) (9 * var) then true else false) xs.

(** [series.where(cond, other)] *)
Fixpoint where_ (v : list (option Q)) (cond : list bool) (other : option Q) : list (option Q) :=
  match v, cond with
  | x :: v', c :: cond' => (if c then x else other) :: where_ v' cond' other
  | _, _ => []
  end.

(** What pandas raises where the scripts take [df[col]] for a Series
    and the label is repeated: a text column in the sub-frame has no
    quantile and no score (TypeError, as for a Series); otherwise
    aligning the sub-frame with a Series of thresholds or means fails
    (ValueError). *)
Definition on_frame (col : str) (piece : list column) : exc :=
  Exc (if existsb is_text piece then TypeError else ValueError) col.

(** [df.describe()]: refused on a table without columns. *)
Definition describe (df : DataFrame) : result unit :=
  match df with
  | [] => Raise (Exc ValueError '"Cannot describe a DataFrame without columns")
  | _ :: _ => Ok tt
  end.

Section Defs.

Variable str_lower : str -> str.
Variable read_csv : str -> result DataFrame.
Variable date_suffix : str.
Variable makedirs : str -> result unit.
Variable to_csv : DataFrame -> str -> result unit.

(** [pd.to_datetime(series, errors='coerce')]: the parsed dates, NaT
    where a value does not parse.  The parser belongs to pandas. *)
Variable to_datetime : column -> list (option Z).

(** Timestamps are whole nanoseconds: how pandas rounds an interpolated
    or scaled one. *)
Variable round_ns : Q -> Z.

(** Directory of the package, from [__file__]. *)
Variable base_dir : str.

Definition input_path : str :=
  Utils.path_join (Utils.path_join (Utils.path_join base_dir '"data") '"raw")
                  '"oil_field_production_data.csv".

(** One iteration of [handle_outliers] with [method == "IQR"]. *)
Definition iqr_step (df : DataFrame) (col : str) : result DataFrame :=
  match get_cols col df with
  | [] => Raise (Exc KeyError col)
  | [NumCol v] => Ok (set_col col (NumCol (iqr_clip v)) df)
  | [ObjCol _] => Raise (Exc TypeError col)
  | [DateCol d] =>
      let v := map (option_map inject_Z) d in
      let ts := option_map (fun x => inject_Z (round_ns x)) in
      let Q1 := ts (quantile v (1 # 4)) in
      let Q3 := ts (quantile v (3 # 4)) in
      let IQR := fsub Q3 Q1 in
      let lower_bound := fsub Q1 (ts (fscale (3 # 2) IQR)) in
      let upper_bound := fadd Q3 (ts (fscale (3 # 2) IQR)) in
      Ok (set_col col (DateCol (map (option_map round_ns) (clip v lower_bound upper_bound))) df)
  | piece => Raise (on_frame col piece)
  end.

(** One iteration with [method == "zscore"]. *)
Definition zscore_step (df : DataFrame) (col : str) : result DataFrame :=
  match get_cols col df with
  | [] => Raise (Exc KeyError col)
  | [NumCol v] => Ok (set_col col (NumCol (where_ v (zscore_lt3 v) (mean v))) df)
  | [_] => Raise (Exc TypeError col)
  | piece => Raise (on_frame col piece)
  end.

(** The loop body of [handle_outliers]; an exception ends the loop. *)
Definition outlier_step (method : str) (acc : result DataFrame) (col : str)
  : result DataFrame :=
  df <- acc ;;
  if str_eqb method '"IQR" then iqr_step df col
  else if str_eqb method '"zscore" then zscore_step df col
  else Ok df.

Definition handle_outliers (df : DataFrame) (columns : list str) (method : str)
  : result DataFrame :=
  fold_left (outlier_step method) columns (Ok df).

Definition outlier_columns : list str :=
  [ '"oil_production_bbl"; '"gas_production_mcf"; '"water_production_bbl";
    '"wellhead_pressure_psi"; '"tubing_pressure_psi"; '"choke_size_in";
    '"pump_efficiency__" ].

(** [df['date'] = pd.to_datetime(df['date'], errors='coerce')], run
    when the label is present.  Handed a sub-frame, [to_datetime] tries
    to assemble dates from its columns and refuses a repeated label. *)
Definition parse_date (df : DataFrame) : result DataFrame :=
  if has_col '"date" df
  then match get_cols '"date" df with
       | [c] => Ok (set_col '"date" (DateCol (to_datetime c)) df)
       | _ => Raise (Exc ValueError '"cannot assemble with duplicate keys")
       end
  else Ok df.

(** [main]: the cleaned file written, as (path, table). *)
Definition main : result (str * DataFrame) :=
  df <- Utils.load_data read_csv input_path ;;
  _ <- describe df ;;
  let df := Utils.clean_column_names str_lower df in
  df <- parse_date df ;;
  df <- handle_missing_values df ;;
  let numeric_cols := filter (fun col => has_col col df) outlier_columns in
  df <- handle_outliers df numeric_cols '"IQR" ;;
  _ <- describe df ;;
  let output_dir := Utils.path_join (Utils.path_join base_dir '"data") '"processed" in
  Utils.save_dataframe date_suffix makedirs to_csv df
    '"cleaned_oil_field_production_data" output_dir.

End Defs.

End Cleaning.

(* ================================================================== *)
(** * scripts/modeling.py *)

Module Modeling.

(** Calls into scikit-learn, plotly and reportlab, in the order made. *)
Inductive event :=
| TrainTestSplit
| Fit
| Predict
| MeanSquaredError
| R2Score
| SaveFigure (filename : str)
| SaveReport (filename : str).

(** A computation that logs its library calls and may raise. *)
Definition M (A : Type) : Type := list event * result A.

Definition ret {A} (a : A) : M A := ([], Ok a).

Definition bindM {A B} (m : M A) (k : A -> M B) : M B :=
  match m with
  | (t, Ok a) => let (t', r) := k a in (t ++ t', r)
  | (t, Raise e) => (t, Raise e)
  end.

(** A library call: logged, then its outcome. *)
Definition call {A} (ev : event) (r : result A) : M A := ([ev], r).

(** A step without library calls. *)
Definition pure_step {A} (r : result A) : M A := ([], r).

Definition features_list : list str :=
  [ '"gas_production_mcf"; '"water_production_bbl"; '"wellhead_pressure_psi";
    '"tubing_pressure_psi"; '"choke_size_in"; '"pump_efficiency__"; '"field_name" ].

Definition target_name : str := '"oil_production_bbl".

(** [df[names]] for labels known to be present. *)
Definition select_columns (names : list str) (df : DataFrame) : result DataFrame :=
  fold_right
    (fun n acc =>
       rest <- acc ;;
       match get_col n df with
       | Some c => Ok ((n, c) :: rest)
       | None => Raise (Exc KeyError n)
       end)
    (Ok []) names.

(** [oil / (water + 1e-6)], elementwise on two float columns; a null on
    either side gives a null, and so does a zero denominator here, the
    infinities being left out. *)
Fixpoint ratio (oil water : list (option Q)) : list (option Q) :=
  match oil, water with
  | o :: oil', w :: water' =>
      match o, w with
      | Some x, Some y =>
          if Qeq_bool (y + (1 # 1000000)) 0 then None
          else Some (x / (y + (1 # 1000000)))
      | _, _ => None
      end :: ratio oil' water'
  | _, _ => []
  end.

(** [df.drop(columns=[label])] *)
Definition drop_column (label : str) (df : DataFrame) : result DataFrame :=
  if has_col label df
  then Ok (filter (fun kc => negb (str_eqb (fst kc) label)) df)
  else Raise (Exc KeyError label).

(** What a figure is made from. *)
Inductive figure :=
| PredictionsPlot (y_test y_pred : column)
| FeatureImportancePlot (feature_names : list str) (importances : list Q).

Section Defs.

Variable read_csv : str -> result DataFrame.
Variable base_dir : str.

(** [pd.get_dummies(df, columns=['field_name'], drop_first=True)] *)
Variable get_dummies : DataFrame -> DataFrame.

(** scikit-learn: the fitted regressor and the calls made on it, each
    of which may raise (the split on fewer than two rows, the others on
    nulls or on shapes that do not agree). *)
Variable Model : Type.
Variable train_test_split
  : DataFrame -> column -> result ((DataFrame * DataFrame) * (column * column)).
Variable fit : DataFrame -> column -> result Model.
Variable predict : Model -> DataFrame -> result column.
Variable feature_importances : Model -> list Q.
Variable mean_squared_error : column -> column -> result Q.
Variable r2_score : column -> column -> result Q.

(** [utils.save_figure] and [utils.save_report] on the current file system. *)
Variable save_figure : figure -> str -> result str.
Variable save_report : list figure -> str -> result unit.

Definition preprocess_for_modeling (df : DataFrame) : result (DataFrame * str) :=
  let features := features_list in
  let target := target_name in
  let features := filter (fun col => has_col col df) features in
  if negb (has_col target df) then Raise (Exc ValueError target)
  else
    df_model <- select_columns (features ++ [target]) df ;;
    df_model <-
      (if has_col '"water_production_bbl" df_model
       then match get_col '"oil_production_bbl" df_model,
                  get_col '"water_production_bbl" df_model with
            | Some (NumCol oil), Some (NumCol water) =>
                Ok (set_col '"oil_to_water_ratio" (NumCol (ratio oil water)) df_model)
            | _, _ => Raise (Exc TypeError '"oil_to_water_ratio")
            end
       else Ok df_model) ;;
    let df_model := if str_in '"field_name" features then get_dummies df_model else df_model in
    Ok (df_model, target).

Definition train_model (X : DataFrame) (y : column)
  : M (Model * DataFrame * column * column * (Q * Q)) :=
  bindM (call TrainTestSplit (train_test_split X y)) (fun s =>
  let '((X_train, X_test), (y_train, y_test)) := s in
  bindM (call Fit (fit X_train y_train)) (fun model =>
  bindM (call Predict (predict model X_test)) (fun y_pred =>
  bindM (call MeanSquaredError (mean_squared_error y_test y_pred)) (fun mse =>
  bindM (call R2Score (r2_score y_test y_pred)) (fun r2 =>
  ret (model, X_test, y_test, y_pred, (mse, r2))))))).

Definition create_predictions_plot (y_test y_pred : column) : figure :=
  PredictionsPlot y_test y_pred.

Definition create_feature_importance_plot (model : Model) (feature_names : list str) : figure :=
  FeatureImportancePlot feature_names (feature_importances model).

(** [if input_path is None: input_path = os.path.join(...)] *)
Definition default_input_path (input_path : option str) : str :=
  match input_path with
  | Some p => p
  | None =>
      Utils.path_join (Utils.path_join (Utils.path_join base_dir '"data") '"processed")
                      '"cleaned_oil_field_production_data_20250731.csv"
  end.

Definition main (input_path : option str) : M unit :=
  let input_path := default_input_path input_path in
  bindM (pure_step (Utils.load_data read_csv input_path)) (fun df =>
  bindM (pure_step (preprocess_for_modeling df)) (fun pm =>
  let '(df_model, target) := pm in
  bindM (pure_step (drop_column target df_model)) (fun X =>
  bindM (pure_step (match get_col target df_model with
                    | Some y => Ok y
                    | None => Raise (Exc KeyError target)
                    end)) (fun y =>
  bindM (train_model X y) (fun tm =>
  let '(model, X_test, y_test, y_pred, metrics) := tm in
  let fig_predictions := create_predictions_plot y_test y_pred in
  bindM (call (SaveFigure '"predictions_vs_actual")
              (save_figure fig_predictions '"predictions_vs_actual")) (fun _ =>
  let fig_importance := create_feature_importance_plot model (columns X) in
  bindM (call (SaveFigure '"feature_importance")
              (save_figure fig_importance '"feature_importance")) (fun _ =>
  let figures := [fig_predictions; fig_importance] in
  call (SaveReport '"modeling_report") (save_report figures '"modeling_report")))))))).

End Defs.

End Modeling.

(* ================================================================== *)
(** * scripts/dashboard.py *)

Module Dashboard.

Definition numeric_cols : list str :=
  [ '"oil_production_bbl"; '"gas_production_mcf"; '"water_production_bbl";
    '"wellhead_pressure_psi"; '"tubing_pressure_psi"; '"choke_size_in";
    '"pump_efficiency__" ].

(** The dashboard reads each column at the dtype the cleaned file gives
    it: numbers for the measurements, text for [field_name] and
    [status], dates for [date].  A missing label is a KeyError; a column
    stored at another dtype is reported as a TypeError. *)
Definition get_num (n : str) (df : DataFrame) : result (list (option Q)) :=
  match get_col n df with
  | Some (NumCol v) => Ok v
  | Some _ => Raise (Exc TypeError n)
  | None => Raise (Exc KeyError n)
  end.

Definition get_obj (n : str) (df : DataFrame) : result (list (option str)) :=
  match get_col n df with
  | Some (ObjCol v) => Ok v
  | Some _ => Raise (Exc TypeError n)
  | None => Raise (Exc KeyError n)
  end.

Definition get_date (n : str) (df : DataFrame) : result (list (option Z)) :=
  match get_col n df with
  | Some (DateCol v) => Ok v
  | Some _ => Raise (Exc TypeError n)
  | None => Raise (Exc KeyError n)
  end.

Definition get_any (n : str) (df : DataFrame) : result column :=
  match get_col n df with
  | Some c => Ok c
  | None => Raise (Exc KeyError n)
  end.

(** A column handed to plotly express by name: ValueError when absent. *)
Definition px_col (n : str) (df : DataFrame) : result column :=
  match get_col n df with
  | Some c => Ok c
  | None => Raise (Exc ValueError n)
  end.

(** [series == value], elementwise; a null equals nothing. *)
Definition eq_mask (v : list (option str)) (x : option str) : list bool :=
  map (fun o => match o, x with
                | Some s, Some t => str_eqb s t
                | _, _ => false
                end) v.

(** [(series >= start) & (series <= end)], elementwise; NaT compares false. *)
Definition between_mask (d : list (option Z)) (start_date end_date : Z) : list bool :=
  map (fun o => match o with
                | Some t => (start_date <=? t)%Z && (t <=? end_date)%Z
                | None => false
                end) d.

(** The distinct elements, in order of first appearance. *)
Fixpoint unique {A} (eqb : A -> A -> bool) (xs : list A) : list A :=
  match xs with
  | [] => []
  | x :: xs' => x :: filter (fun y => negb (eqb x y)) (unique eqb xs')
  end.

(** [series.nunique()]: distinct non-null values. *)
Definition nunique (c : column) : nat :=
  match c with
  | NumCol v => length (unique Qeq_bool (non_null v))
  | ObjCol v => length (unique str_eqb (non_null v))
  | DateCol v => length (unique Z.eqb (non_null v))
  end.

(** Python's order on [str]: lexicographic on code points. *)
Fixpoint str_leb (a b : str) : bool :=
  match a, b with
  | [], _ => true
  | _ :: _, [] => false
  | x :: a', y :: b' => if N.ltb x y then true else if N.eqb x y then str_leb a' b' else false
  end.

Fixpoint insert_sorted (k : str) (ks : list str) : list str :=
  match ks with
  | [] => [k]
  | k' :: ks' => if str_leb k k' then k :: ks else k' :: insert_sorted k ks'
  end.

Definition sort_keys (ks : list str) : list str := fold_right insert_sorted [] ks.

(** The sum of one group of [groupby(key)[value].sum()]. *)
Fixpoint group_sum (keys : list (option str)) (vals : list (option Q)) (k : str) : Q :=
  match keys, vals with
  | key :: keys', x :: vals' =>
      match key, x with
      | Some k', Some y => if str_eqb k' k then y + group_sum keys' vals' k
                           else group_sum keys' vals' k
      | _, _ => group_sum keys' vals' k
      end
  | _, _ => 0
  end.

(** [df.groupby(key)[value].sum()]: one entry per non-null key, keys sorted. *)
Definition groupby_sum (keys : list (option str)) (vals : list (option Q)) : list (str * Q) :=
  map (fun k => (k, group_sum keys vals k)) (sort_keys (unique str_eqb (non_null keys))).

(** [series.idxmax()]: the label of the first maximum; raises
    ValueError on an empty series. *)
Definition idxmax (s : list (str * Q)) : result str :=
  match s with
  | [] => Raise (Exc ValueError '"attempt to get argmax of an empty sequence")
  | first :: rest =>
      Ok (fst (fold_left (fun best kv => if Qlt_le_dec (snd best) (snd kv) then kv else best)
                         rest first))
  end.

(** The data a chart is drawn from. *)
Inductive figure :=
| Histogram (x : column)
| Scatter (x y : column) (color : option column)
| Box (x : option column) (y : column)
| Heatmap (labels : list str) (z : list (list (option Q)))
| Line (x y : column).

Record kpis := Kpis {
  total_oil : Q;
  avg_daily_oil : option Q;
  active_wells : nat }.

Record insights := Insights {
  insight_total : Q;
  insight_average : option Q;
  insight_active : nat;
  insight_top_field : str;
  insight_correlation : option Q }.

Record outputs := Outputs {
  fig_hist : figure;
  fig_scatter : figure;
  fig_box : figure;
  fig_heatmap : figure;
  fig_timeseries : figure;
  out_kpis : kpis;
  out_insights : insights }.

Definition all_numeric (df : DataFrame) : bool := forallb (fun kc => is_number (snd kc)) df.

Section Defs.

Variable read_csv : str -> result DataFrame.
Variable to_datetime : column -> list (option Z).
Variable base_dir : str.

(** [df.corr()] and [series.corr(other)] (Pearson), from pandas. *)
Variable corr_matrix : DataFrame -> list (list (option Q)).
Variable pearson : list (option Q) -> list (option Q) -> option Q.

(** The chart builders of [scripts/utils.py]. *)
Definition create_histogram (df : DataFrame) (column : str) : result figure :=
  x <- px_col column df ;; Ok (Histogram x).

Definition opt_px_col (n : option str) (df : DataFrame) : result (option column) :=
  match n with
  | Some n => c <- px_col n df ;; Ok (Some c)
  | None => Ok None
  end.

Definition create_scatter (df : DataFrame) (x_col y_col : str) (color_col : option str)
  : result figure :=
  x <- px_col x_col df ;;
  y <- px_col y_col df ;;
  color <- opt_px_col color_col df ;;
  Ok (Scatter x y color).

Definition create_boxplot (df : DataFrame) (column : str) (group_by : option str)
  : result figure :=
  x <- opt_px_col group_by df ;;
  y <- px_col column df ;;
  Ok (Box x y).

Definition create_heatmap (df : DataFrame) (numeric_cols : list str) : result figure :=
  sub <- Modeling.select_columns numeric_cols df ;;
  if all_numeric sub then Ok (Heatmap (columns sub) (corr_matrix sub))
  else Raise (Exc ValueError '"could not convert string to float").

Definition create_timeseries (df : DataFrame) (date_col value_col : str) : result figure :=
  x <- px_col date_col df ;;
  y <- px_col value_col df ;;
  Ok (Line x y).

(** [df_filtered[df_filtered['status'] == 'Active']['well_id'].nunique()] *)
Definition active_well_count (df_filtered : DataFrame) : result nat :=
  status <- get_obj '"status" df_filtered ;;
  wells <- get_any '"well_id" (df_take (eq_mask status (Some '"Active")) df_filtered) ;;
  Ok (nunique wells).

Definition create_kpis (df_filtered : DataFrame) : result kpis :=
  oil <- get_num '"oil_production_bbl" df_filtered ;;
  let total_oil := Frame.sum oil in
  let avg_daily_oil := mean oil in
  active_wells <- active_well_count df_filtered ;;
  Ok (Kpis total_oil avg_daily_oil active_wells).

Definition create_insights (df_filtered : DataFrame) : result insights :=
  oil <- get_num '"oil_production_bbl" df_filtered ;;
  active <- active_well_count df_filtered ;;
  fields <- get_obj '"field_name" df_filtered ;;
  top <- idxmax (groupby_sum fields oil) ;;
  pressure <- get_num '"wellhead_pressure_psi" df_filtered ;;
  Ok (Insights (Frame.sum oil) (mean oil) active top (pearson pressure oil)).

(** What [main] does before serving: [Ok None] when the load fails
    (printed, then return), otherwise the table with parsed dates. *)
Definition startup (input_path : option str) : result (option DataFrame) :=
  let input_path := Modeling.default_input_path base_dir input_path in
  match Utils.load_data read_csv input_path with
  | Raise _ => Ok None
  | Ok df =>
      date <- get_any '"date" df ;;
      let df := set_col '"date" (DateCol (to_datetime date)) df in
      _ <- get_any '"field_name" df ;;
      (* pd.date_range(start=min, end=max) refuses NaT bounds *)
      match non_null (to_datetime date) with
      | [] => Raise (Exc ValueError '"date")
      | _ :: _ => Ok (Some df)
      end
  end.

(** The filtering at the head of [update_dashboard].  [field] is the
    dropdown value ([None] when cleared); the two dates are the picker's
    ISO strings as pandas reads them. *)
Definition filter_table (df : DataFrame) (field : option str) (start_date end_date : Z)
  : result DataFrame :=
  df_filtered <-
    (match field with
     | Some f =>
         if str_eqb f '"all" then Ok df
         else (names <- get_obj '"field_name" df ;; Ok (df_take (eq_mask names field) df))
     | None => names <- get_obj '"field_name" df ;; Ok (df_take (eq_mask names field) df)
     end) ;;
  date <- get_date '"date" df_filtered ;;
  Ok (df_take (between_mask date start_date end_date) df_filtered).

(** The callback, on the table held by the application. *)
Definition update_dashboard (df : DataFrame) (field : option str) (start_date end_date : Z)
  : result outputs :=
  df_filtered <- filter_table df field start_date end_date ;;
  fig_hist <- create_histogram df_filtered '"oil_production_bbl" ;;
  fig_scatter <- create_scatter df_filtered '"wellhead_pressure_psi" '"oil_production_bbl"
                                (Some '"field_name") ;;
  fig_box <- create_boxplot df_filtered '"oil_production_bbl" (Some '"field_name") ;;
  fig_heatmap <- create_heatmap df_filtered numeric_cols ;;
  fig_timeseries <- create_timeseries df_filtered '"date" '"oil_production_bbl" ;;
  kpis <- create_kpis df_filtered ;;
  insights <- create_insights df_filtered ;;
  Ok (Outputs fig_hist fig_scatter fig_box fig_heatmap fig_timeseries kpis insights).

End Defs.

End Dashboard.

(* ================================================================== *)
(** * scripts/eda.py *)

Module Eda.

(** What is handed to [save_figure]: one chart, or the 3x2 grid made of
    the first trace of each chart. *)
Inductive saved :=
| Chart (f : Dashboard.figure)
| Grid (traces : list Dashboard.figure).

Section Defs.

Variable read_csv : str -> result DataFrame.
Variable base_dir : str.

(** [df.corr()], from pandas. *)
Variable corr_matrix : DataFrame -> list (list (option Q)).

(** [utils.save_figure] on the current file system. *)
Variable save_figure : saved -> str -> result str.

(** [fig.data[0]]: the first trace of a chart; IndexError when plotly
    made none. *)
Variable first_trace : Dashboard.figure -> result Dashboard.figure.

(** Build a chart, then save it under [name]. *)
Definition chart (name : str) (fig : result Dashboard.figure) : Modeling.M Dashboard.figure :=
  Modeling.bindM (Modeling.pure_step fig) (fun f =>
  Modeling.bindM (Modeling.call (Modeling.SaveFigure name) (save_figure (Chart f) name))
    (fun _ => Modeling.ret f)).

Definition main (input_path : option str) : Modeling.M unit :=
  let input_path := Modeling.default_input_path base_dir input_path in
  Modeling.bindM (Modeling.pure_step (Utils.load_data read_csv input_path)) (fun df =>
  let numeric_cols := filter (fun col => has_col col df) Dashboard.numeric_cols in
  Modeling.bindM (chart '"histogram"
    (Dashboard.create_histogram df '"oil_production_bbl")) (fun fig_hist =>
  Modeling.bindM (chart '"scatter"
    (Dashboard.create_scatter df '"wellhead_pressure_psi" '"oil_production_bbl"
       (Some '"field_name"))) (fun fig_scatter =>
  Modeling.bindM (chart '"boxplot"
    (Dashboard.create_boxplot df '"oil_production_bbl" (Some '"field_name"))) (fun fig_box =>
  Modeling.bindM (chart '"heatmap"
    (Dashboard.create_heatmap corr_matrix df numeric_cols)) (fun fig_heatmap =>
  Modeling.bindM
    (if has_col '"date" df
     then Modeling.bindM (chart '"timeseries"
            (Dashboard.create_timeseries df '"date" '"oil_production_bbl"))
            (fun f => Modeling.ret [f])
     else Modeling.ret []) (fun fig_timeseries =>
  Modeling.bindM (Modeling.pure_step
    (t1 <- first_trace fig_hist ;;
     t2 <- first_trace fig_scatter ;;
     t3 <- first_trace fig_box ;;
     t4 <- first_trace fig_heatmap ;;
     t5 <- match fig_timeseries with
           | f :: _ => (t <- first_trace f ;; Ok [t])
           | [] => Ok []
           end ;;
     Ok (Grid ([t1; t2; t3; t4] ++ t5)))) (fun dashboard =>
  Modeling.bindM (Modeling.call (Modeling.SaveFigure '"dashboard")
                    (save_figure dashboard '"dashboard")) (fun _ =>
  Modeling.ret tt)))))))).

End Defs.

End Eda.

(* ================================================================== *)
(** * main.py *)

Module Orchestrator.

(** The part of the file system the orchestrator looks at: the names
    each directory lists, in listing order, with their modification
    times.  A name whose time cannot be read (a link to a file that is
    gone) has none.  Paths are POSIX paths. *)
Record file := File { file_dir : str; file_name : str; file_mtime : option Q }.

Definition FS := list file.

Definition file_path (f : file) : str := Utils.path_join (file_dir f) (file_name f).

Fixpoint starts_with (prefix s : str) : bool :=
  match prefix, s with
  | [], _ => true
  | p :: prefix', c :: s' => N.eqb p c && starts_with prefix' s'
  | _ :: _, [] => false
  end.

(** [fnmatch(name, prefix + "*" + suffix)] *)
Definition fnmatch_star (prefix suffix name : str) : bool :=
  (length prefix + length suffix <=? length name)%nat
  && starts_with prefix name
  && starts_with (rev suffix) (rev name).

(** [glob.has_magic]: the path holds one of [*], [?], [[]. *)
Definition has_magic (s : str) : bool :=
  existsb (fun c => (c =? 42) || (c =? 63) || (c =? 91))%N s.

(** The names of [directory] matching [prefix + "*" + suffix]. *)
Definition listed (fs : FS) (directory prefix suffix : str) : list file :=
  filter (fun f => str_eqb (file_dir f) directory
                   && fnmatch_star prefix suffix (file_name f)) fs.

(** [os.path.getmtime(path)] *)
Definition getmtime (fs : FS) (path : str) : result Q :=
  match find (fun f => str_eqb (file_path f) path) fs with
  | Some f => match file_mtime f with
              | Some t => Ok t
              | None => Raise (Exc FileNotFoundError path)
              end
  | None => Raise (Exc FileNotFoundError path)
  end.

(** [max(items, key=key)]: the first item whose key is greatest. *)
Fixpoint max_from (key : str -> result Q) (best : str) (best_key : Q) (items : list str)
  : result str :=
  match items with
  | [] => Ok best
  | x :: items' =>
      k <- key x ;;
      if Qlt_le_dec best_key k then max_from key x k items'
      else max_from key best best_key items'
  end.

Definition py_max (items : list str) (key : str -> result Q) : result str :=
  match items with
  | [] => Raise (Exc ValueError '"max() arg is an empty sequence")
  | x :: items' => k <- key x ;; max_from key x k items'
  end.

Section Lookup.

(** [glob.glob] reads the whole path as a pattern.  When the directory
    part holds [*], [?] or [[], the library first expands it against the
    directories that exist; that expansion is left to the library. *)
Variable glob_pattern_dirs : FS -> str -> list str.

(** [glob.glob(os.path.join(directory, prefix + "*" + suffix))] *)
Definition glob (fs : FS) (directory prefix suffix : str) : list str :=
  if has_magic directory
  then glob_pattern_dirs fs (Utils.path_join directory (prefix ++ '"*" ++ suffix))
  else map file_path (listed fs directory prefix suffix).

(** [get_latest_cleaned_file]; any exception is caught and gives [None]. *)
Definition get_latest_cleaned_file (fs : FS) (base_dir : str) : option str :=
  let data_dir := Utils.path_join (Utils.path_join base_dir '"data") '"processed" in
  let files := glob fs data_dir '"cleaned_oil_field_production_data_" '".csv" in
  match files with
  | [] => None
  | _ :: _ =>
      match py_max files (getmtime fs) with
      | Ok latest_file => Some latest_file
      | Raise _ => None
      end
  end.

End Lookup.

(** What [main] does that can be observed: the steps it calls, with
    their outcome, and what it prints about them. *)
Inductive event :=
| Run (step : str) (outcome : result unit)
| PrintError (step : str) (e : exc)
| PrintSkip
| PrintDone.

(** A block of [main]: it threads the file system, logs events, and
    either falls through ([Some]) or executes [return] ([None]). *)
Definition Prog (A : Type) : Type := FS -> FS * list event * option A.

Definition ret {A} (a : A) : Prog A := fun fs => (fs, [], Some a).

Definition seq {A B} (p : Prog A) (k : A -> Prog B) : Prog B :=
  fun fs =>
    match p fs with
    | (fs1, t1, Some a) =>
        match k a fs1 with
        | (fs2, t2, r) => (fs2, t1 ++ t2, r)
        end
    | (fs1, t1, None) => (fs1, t1, None)
    end.

Definition emit (ev : event) : Prog unit := fun fs => (fs, [ev], Some tt).

Definition return_ {A} : Prog A := fun fs => (fs, [], None).

Definition when (b : bool) (p : Prog unit) : Prog unit := if b then p else ret tt.

(** [try: step() except Exception as e: print(...); return] *)
Definition try_step (name : str) (step : FS -> FS * result unit) : Prog unit :=
  fun fs =>
    match step fs with
    | (fs1, Ok _) => (fs1, [Run name (Ok tt)], Some tt)
    | (fs1, Raise e) => (fs1, [Run name (Raise e); PrintError name e], None)
    end.

Section Defs.

Variable glob_pattern_dirs : FS -> str -> list str.

(** The four step functions imported by [main.py], as they act on the
    file system.  An outcome [Raise e] is an exception derived from
    [Exception], which the handlers of [main] catch. *)
Variable clean_data : FS -> FS * result unit.
Variable perform_eda : str -> FS -> FS * result unit.
Variable train_model : str -> FS -> FS * result unit.
Variable run_dashboard : str -> FS -> FS * result unit.

(** Directory of [main.py]. *)
Variable base_dir : str.

(** The body of [main] after argument parsing; [steps] is [args.steps]. *)
Definition main (steps : list str) : Prog unit :=
  seq (when (str_in '"clean" steps) (try_step '"clean" clean_data)) (fun _ =>
  seq (when (existsb (fun step => str_in step steps) ['"eda"; '"model"; '"dashboard"])
    (seq (fun fs => (fs, [], Some (get_latest_cleaned_file glob_pattern_dirs fs base_dir)))
       (fun latest_file =>
     match latest_file with
     | None | Some [] => seq (emit PrintSkip) (fun _ => return_)
     | Some latest_file =>
         seq (when (str_in '"eda" steps)
                (try_step '"eda" (perform_eda latest_file))) (fun _ =>
         seq (when (str_in '"model" steps)
                (try_step '"model" (train_model latest_file))) (fun _ =>
         when (str_in '"dashboard" steps)
                (try_step '"dashboard" (run_dashboard latest_file))))
     end))) (fun _ =>
  emit PrintDone)).

End Defs.

(** The steps called, in order. *)
Fixpoint ran (t : list event) : list str :=
  match t with
  | Run step _ :: t' => step :: ran t'
  | _ :: t' => ran t'
  | [] => []
  end.

(** The selected steps in the fixed order. *)
Definition selected (steps : list str) : list str :=
  filter (fun step => str_in step steps) ['"clean"; '"eda"; '"model"; '"dashboard"].

(** After a step that raised, the log holds the printed error and ends. *)
Fixpoint stops_at_failure (t : list event) : Prop :=
  match t with
  | Run step (Raise e) :: t' => t' = [PrintError step e]
  | _ :: t' => stops_at_failure t'
  | [] => True
  end.

Definition trace_of (r : FS * list event * option unit) : list event := snd (fst r).

End Orchestrator.

(* ================================================================== *)
(** * Predicates used in the statements *)




Definition field_matches (field : option str) (o : option str) : Prop :=
  exists f, o = Some f /\ field = Some f.

Definition date_within (start_date end_date : Z) (o : option Z) : Prop :=
  exists t, o = Some t /\ (start_date <= t <= end_date)%Z.

(** Every column has as many entries as the table has rows. *)
Definition aligned (df : DataFrame) : Prop :=
  forall kc, In kc df -> col_len (snd kc) = nrows df.

(** The three kinds of column of the model.  A number column is int64
    or float64: clipping an int64 column to fractional fences gives
    float64, which is still a number column. *)
Inductive kind_of_column := numbers | text | dates.

Definition col_kind (c : column) : kind_of_column :=
  match c with
  | NumCol _ => numbers
  | ObjCol _ => text
  | DateCol _ => dates
  end.

(** The row test of the dashboard filter, on the field name and the
    date of a row. *)
Definition field_ok (field : option str) (name : option str) : bool :=
  match field with
  | Some f => if str_eqb f '"all" then true
              else match name with Some s => str_eqb s f | None => false end
  | None => false
  end.

Definition date_ok (start_date end_date : Z) (date : option Z) : bool :=
  match date with
  | Some t => (start_date <=? t)%Z && (t <=? end_date)%Z
  | None => false
  end.

Definition row_selected (field : option str) (start_date end_date : Z)
  (row : option str * option Z) : bool :=
  field_ok field (fst row) && date_ok start_date end_date (snd row).


(** The first mean of a list that is a number. *)
Fixpoint first_mean (means : list (option Q)) : option Q :=
  match means with
  | [] => None
  | Some m :: _ => Some m
  | None :: means' => first_mean means'
  end.

(** Changing, one by one, the columns that carry a label. *)
Definition on_label (n : str) (g : column -> column) (df : DataFrame) : DataFrame :=
  map (fun kc => if str_eqb (fst kc) n then (fst kc, g (snd kc)) else kc) df.

(** The fill step as a pass over the table: every column carrying the
    label is filled with the first mean, among the columns carrying it,
    that is a number. *)
Definition fill_label (df : DataFrame) (col : str) : DataFrame :=
  on_label col
    (Cleaning.fill_with (first_mean (map Cleaning.col_mean (get_cols col df)))) df.

(** No label is carried both by a number column and by a column that
    is not a number: every sub-frame the fill loop meets has a mean. *)
Definition numeric_labels_pure (df : DataFrame) : bool :=
  forallb (fun n => forallb is_number (get_cols n df)) (select_dtypes_include_number df).

(** The fill step on a table whose labels are distinct. *)
Definition fill_one (df : DataFrame) (col : str) : DataFrame :=
  match get_col col df with
  | Some c => set_col col (Cleaning.fill_col c) df
  | None => df
  end.

(** Running steps in order: each step of [todo] is called on the file
    system the previous one left; a step that raises is followed by the
    printed exception and nothing else is called.  The flag tells
    whether every step returned. *)
Fixpoint run_in_order
  (todo : list (str * (Orchestrator.FS -> Orchestrator.FS * result unit)))
  (fs : Orchestrator.FS) : Orchestrator.FS * list Orchestrator.event * bool :=
  match todo with
  | [] => (fs, [], true)
  | (name, step) :: todo' =>
      match step fs with
      | (fs1, Ok _) =>
          match run_in_order todo' fs1 with
          | (fs2, t, ok) => (fs2, Orchestrator.Run name (Ok tt) :: t, ok)
          end
      | (fs1, Raise e) =>
          (fs1, [Orchestrator.Run name (Raise e); Orchestrator.PrintError name e], false)
      end
  end.

(** The row mask computed by the [dropna] of [handle_missing_values]. *)
Definition kept_rows (df : DataFrame) : list bool :=
  map (Cleaning.row_complete df (select_dtypes_exclude_number df)) (seq 0 (nrows df)).

(* ================================================================== *)
(** * Sample tables, directories and step functions *)

Module Samples.

(** A Unicode-agnostic instance of the case table: ASCII capitals only. *)
Definition lower_ascii_only (s : str) : str := map Utils.ascii_lower s.

(** Dates as day numbers written in decimal digits, for the samples. *)
Fixpoint digits_value (acc : Z) (s : str) : option Z :=
  match s with
  | [] => Some acc
  | c :: s' => if Utils.is_ascii_digit c
               then digits_value (10 * acc + (Z.of_N c - 48)) s'
               else None
  end.

Definition parse_day (s : str) : option Z :=
  match s with [] => None | _ => digits_value 0 s end.

Definition to_datetime (c : column) : list (option Z) :=
  match c with
  | ObjCol v => map (fun o => match o with Some s => parse_day s | None => None end) v
  | NumCol v => map (option_map Qfloor) v
  | DateCol v => v
  end.

Definition raw_table : DataFrame :=
  [ ('"Date", ObjCol [Some '"1"; Some '"2"; Some '"n/a"; Some '"4"; Some '"5"]);
    ('" Field Name ", ObjCol [Some '"North"; Some '"South"; Some '"North"; None; Some '"South"]);
    ('"Oil_Production_BBL", NumCol [Some 100; None; Some 120; Some 90; Some 5000]);
    ('"Pump_Efficiency_%", NumCol [None; None; None; None; None]) ].

Definition read_raw (path : str) : result DataFrame :=
  if str_eqb path '"/srv/oil_project/data/raw/oil_field_production_data.csv"
  then Ok raw_table
  else Raise (Exc FileNotFoundError path).

(** A file system on which the directory can be made and the file written. *)
Definition makedirs_ok (_ : str) : result unit := Ok tt.

Definition to_csv_ok (_ : DataFrame) (_ : str) : result unit := Ok tt.

Definition cleaned : result (str * DataFrame) :=
  Cleaning.main lower_ascii_only read_raw '"20250731" makedirs_ok to_csv_ok to_datetime Qfloor
    '"/srv/oil_project".

End Samples.

Definition cleaned_path : str :=
  match Samples.cleaned with Ok (p, _) => p | Raise _ => [] end.

Definition cleaned_table : DataFrame :=
  match Samples.cleaned with Ok (_, df) => df | Raise _ => [] end.

(** One well far above the others. *)
Definition skewed_oil : list (option Q) := [Some 0; Some 0; Some 0; Some 100].

Definition skewed_table : DataFrame := [('"oil_production_bbl", NumCol skewed_oil)].



Definition dashboard_csv : DataFrame :=
  [ ('"date", ObjCol [Some '"1"; Some '"2"]);
    ('"field_name", ObjCol [Some '"North"; Some '"South"]);
    ('"well_id", ObjCol [Some '"W-1"; Some '"W-2"]);
    ('"status", ObjCol [Some '"Active"; Some '"Active"]);
    ('"oil_production_bbl", NumCol [Some 100; Some 200]);
    ('"gas_production_mcf", NumCol [Some 10; Some 20]);
    ('"water_production_bbl", NumCol [Some 5; Some 6]);
    ('"wellhead_pressure_psi", NumCol [Some 900; Some 950]);
    ('"tubing_pressure_psi", NumCol [Some 400; Some 410]);
    ('"choke_size_in", NumCol [Some 1; Some 1]);
    ('"pump_efficiency__", NumCol [Some 80; Some 85]) ].

(** The table the application holds after [startup]. *)
Definition dashboard_table : DataFrame :=
  set_col '"date" (DateCol [Some 1%Z; Some 2%Z]) dashboard_csv.

Definition no_corr_matrix (_ : DataFrame) : list (list (option Q)) := [].

Definition no_pearson (_ _ : list (option Q)) : option Q := None.

Definition project_dir : str := '"/srv/oil_project".

Definition processed_dir : str := '"/srv/oil_project/data/processed".

Definition january_file : str := '"cleaned_oil_field_production_data_20250101.csv".

Definition july_file : str := '"cleaned_oil_field_production_data_20250731.csv".

Definition january_path : str :=
  '"/srv/oil_project/data/processed/cleaned_oil_field_production_data_20250101.csv".

Definition july_path : str :=
  '"/srv/oil_project/data/processed/cleaned_oil_field_production_data_20250731.csv".

(** A processed-data directory holding exactly the two files, with the
    modification times given. *)
Definition two_files (mtime_january mtime_july : Q) : Orchestrator.FS :=
  [ Orchestrator.File processed_dir january_file (Some mtime_january);
    Orchestrator.File processed_dir july_file (Some mtime_july) ].

(** No directory pattern is expanded in the samples. *)
Definition no_pattern_dirs (_ : Orchestrator.FS) (_ : str) : list str := [].

(** A run of the orchestrator where cleaning works and the modeler raises. *)
Definition clean_ok (fs : Orchestrator.FS) : Orchestrator.FS * result unit :=
  (fs ++ [Orchestrator.File processed_dir july_file (Some 300)], Ok tt).

Definition step_ok (_ : str) (fs : Orchestrator.FS) : Orchestrator.FS * result unit := (fs, Ok tt).

Definition model_fails (_ : str) (fs : Orchestrator.FS) : Orchestrator.FS * result unit :=
  (fs, Raise (Exc ValueError '"oil_production_bbl")).

(** A cleaned file that lost its target column. *)
Definition no_target_table : DataFrame :=
  [ ('"field_name", ObjCol [Some '"North"; Some '"South"]);
    ('"gas_production_mcf", NumCol [Some 10; Some 20]);
    ('"water_production_bbl", NumCol [Some 5; Some 6]) ].

Definition identity_split (X : DataFrame) (y : column)
  : result ((DataFrame * DataFrame) * (column * column)) := Ok ((X, X), (y, y)).




(** A column with a missing value. *)
Definition gappy_table : DataFrame :=
  [ ('"oil_production_bbl", NumCol [Some 10; None; Some 30]) ].

Definition dashboard_insights : Dashboard.insights :=
  match Dashboard.create_insights no_pearson dashboard_table with
  | Ok ins => ins
  | Raise _ => Dashboard.Insights 0 None 0 [] None
  end.

Definition dashboard_outputs : result Dashboard.outputs :=
  Dashboard.update_dashboard no_corr_matrix no_pearson dashboard_table (Some '"all") 1 2.

(** Saving always works, and every chart has a first trace. *)
Definition save_ok (_ : Eda.saved) (name : str) : result str := Ok name.

Definition whole_chart (f : Dashboard.figure) : result Dashboard.figure := Ok f.

(* ================================================================== *)
(** * Facts about strings *)

Lemma str_eqb_eq (a b : str) : str_eqb a b = true <-> a = b.
Proof.
  revert b; induction a as [|x a IH]; intros [|y b]; simpl; split; try congruence; try easy.
  - rewrite andb_true_iff, N.eqb_eq, IH. intros [-> ->]; reflexivity.
  - intros H; injection H as -> ->. rewrite andb_true_iff, N.eqb_eq, IH. auto.
Qed.

Lemma str_eqb_refl (a : str) : str_eqb a a = true.
Proof. apply str_eqb_eq; reflexivity. Qed.

Lemma str_eqb_neq (a b : str) : str_eqb a b = false <-> a <> b.
Proof.
  rewrite <- str_eqb_eq. destruct (str_eqb a b); split; congruence.
Qed.

Lemma str_eqb_sym (a b : str) : str_eqb a b = str_eqb b a.
Proof.
  destruct (str_eqb a b) eqn:E.
  - apply str_eqb_eq in E; subst; symmetry; apply str_eqb_refl.
  - symmetry; apply str_eqb_neq; apply str_eqb_neq in E; congruence.
Qed.

Lemma str_in_In (x : str) (xs : list str) : str_in x xs = true <-> In x xs.
Proof.
  unfold str_in. rewrite existsb_exists. split.
  - intros (y & Hy & E). apply str_eqb_eq in E; subst; assumption.
  - intros H; exists x; split; [assumption | apply str_eqb_refl].
Qed.

(* ================================================================== *)
(** * Facts about scripts/utils.py *)

Section UtilsFacts.

Variable str_lower : str -> str.

(** On an ASCII string [lower] is the ASCII case table, letter by letter. *)
Hypothesis lower_ascii :
  forall s, Forall (fun c => (c < 128)%N) s -> str_lower s = map Utils.ascii_lower s.

(** No lowercase mapping produces an ASCII capital. *)
Hypothesis lower_no_upper :
  forall s, Forall (fun c => Utils.is_ascii_upper c = false) (str_lower s).

Let word_char (c : N) : Prop := Utils.in_class c = true /\ Utils.is_ascii_upper c = false.

Lemma lstrip_incl (P : N -> Prop) (s : str) : Forall P s -> Forall P (Utils.lstrip s).
Proof.
  induction 1 as [|c s Hc Hs IH]; simpl; [constructor|].
  destruct (Utils.is_space c); [assumption | constructor; assumption].
Qed.

Lemma strip_incl (P : N -> Prop) (s : str) : Forall P s -> Forall P (Utils.strip s).
Proof.
  intros H. unfold Utils.strip, Utils.rstrip.
  apply Forall_rev, lstrip_incl, Forall_rev, lstrip_incl, H.
Qed.

Lemma in_class_not_space (c : N) : Utils.in_class c = true -> Utils.is_space c = false.
Proof.
  unfold Utils.in_class, Utils.is_ascii_lower, Utils.is_ascii_upper, Utils.is_ascii_digit.
  rewrite !orb_true_iff, !andb_true_iff, !N.leb_le, N.eqb_eq.
  intros H. apply not_true_iff_false. unfold Utils.is_space.
  rewrite !orb_true_iff, !andb_true_iff, !N.leb_le, !N.eqb_eq. lia.
Qed.

Lemma lstrip_id (s : str) : Forall (fun c => Utils.is_space c = false) s -> Utils.lstrip s = s.
Proof.
  intros H; destruct H as [|c s Hc Hs]; simpl; [reflexivity|]. rewrite Hc; reflexivity.
Qed.

Lemma strip_id (s : str) : Forall (fun c => Utils.is_space c = false) s -> Utils.strip s = s.
Proof.
  intros H. unfold Utils.strip, Utils.rstrip.
  rewrite (@lstrip_id s H), lstrip_id by (apply Forall_rev, H).
  apply rev_involutive.
Qed.

Lemma re_sub_word (s : str) :
  Forall (fun c => Utils.is_ascii_upper c = false) s ->
  Forall word_char (Utils.re_sub_underscore s).
Proof.
  induction 1 as [|c s Hc Hs IH]; simpl; constructor; try assumption.
  destruct (Utils.in_class c) eqn:E; split; try assumption; reflexivity.
Qed.

Lemma re_sub_id (s : str) :
  Forall (fun c => Utils.in_class c = true) s -> Utils.re_sub_underscore s = s.
Proof.
  induction 1 as [|c s Hc Hs IH]; simpl; [reflexivity|]. rewrite Hc, IH; reflexivity.
Qed.

Lemma in_class_ascii (c : N) : Utils.in_class c = true -> (c < 128)%N.
Proof.
  unfold Utils.in_class, Utils.is_ascii_lower, Utils.is_ascii_upper, Utils.is_ascii_digit.
  rewrite !orb_true_iff, !andb_true_iff, !N.leb_le, N.eqb_eq. lia.
Qed.

Lemma clean_name_word (s : str) : Forall word_char (Utils.clean_name str_lower s).
Proof.
  unfold Utils.clean_name. apply re_sub_word, strip_incl, lower_no_upper.
Qed.

Lemma clean_name_fixed (s : str) : Forall word_char s -> Utils.clean_name str_lower s = s.
Proof.
  intros H. unfold Utils.clean_name.
  assert (Hl : str_lower s = s).
  { rewrite lower_ascii.
    - clear lower_ascii lower_no_upper. induction H as [|c s [_ Hc] Hs IH]; simpl; [reflexivity|].
      unfold Utils.ascii_lower at 1. rewrite Hc, IH; reflexivity.
    - eapply Forall_impl; [|exact H]. intros c [Hc _]. apply in_class_ascii, Hc. }
  rewrite Hl, strip_id.
  - apply re_sub_id. eapply Forall_impl; [|exact H]. intros c [Hc _]; exact Hc.
  - eapply Forall_impl; [|exact H]. intros c [Hc _]. apply in_class_not_space, Hc.
Qed.

Lemma clean_name_idempotent (s : str) :
  Utils.clean_name str_lower (Utils.clean_name str_lower s) = Utils.clean_name str_lower s.
Proof. apply clean_name_fixed, clean_name_word. Qed.

Lemma columns_rename (names : list str) (df : DataFrame) :
  length names = length df -> columns (rename_columns names df) = names.
Proof.
  unfold columns, rename_columns. revert df.
  induction names as [|n names IH]; intros [|kc df]; simpl; try congruence; try reflexivity.
  intros H. f_equal. apply IH. congruence.
Qed.

Lemma columns_clean (df : DataFrame) :
  columns (Utils.clean_column_names str_lower df) = map (Utils.clean_name str_lower) (columns df).
Proof.
  unfold Utils.clean_column_names. apply columns_rename.
  unfold columns. rewrite !length_map. reflexivity.
Qed.

(** C9.  Column-name normalization is idempotent: the column names after
    two applications of [clean_column_names] are the column names after
    one, for every table (so for every list of column names). *)
Theorem clean_column_names_idempotent (df : DataFrame) :
  columns (Utils.clean_column_names str_lower (Utils.clean_column_names str_lower df))
  = columns (Utils.clean_column_names str_lower df).
Proof.
  rewrite !columns_clean, map_map.
  apply map_ext. intros s. apply clean_name_idempotent.
Qed.

End UtilsFacts.

(* ================================================================== *)
(** * Facts about the pandas fragment *)

Section FrameFacts.

Lemma get_col_app (n : str) (df1 df2 : DataFrame) :
  get_col n (df1 ++ df2) =
  match get_col n df1 with Some c => Some c | None => get_col n df2 end.
Proof.
  induction df1 as [|[k c] df1 IH]; simpl; [reflexivity|].
  destruct (str_eqb k n); [reflexivity | exact IH].
Qed.

Lemma get_col_None (n : str) (df : DataFrame) :
  has_col n df = false -> get_col n df = None.
Proof.
  unfold has_col, columns. induction df as [|[k c] df IH]; simpl; [reflexivity|].
  rewrite (str_eqb_sym n k). destruct (str_eqb k n); simpl; [discriminate | exact IH].
Qed.

Lemma get_col_Some (n : str) (df : DataFrame) :
  has_col n df = true -> exists c, get_col n df = Some c.
Proof.
  unfold has_col, columns. induction df as [|[k c] df IH]; simpl; [discriminate|].
  rewrite (str_eqb_sym n k). destruct (str_eqb k n); simpl; [exists c; reflexivity | exact IH].
Qed.

Lemma get_col_has (n : str) (df : DataFrame) (c : column) :
  get_col n df = Some c -> has_col n df = true.
Proof.
  intros H. destruct (has_col n df) eqn:E; [reflexivity|].
  rewrite (get_col_None _ _ E) in H. discriminate.
Qed.

(** Reading back after an assignment. *)
Lemma get_col_set_col (n m : str) (c : column) (df : DataFrame) :
  get_col n (set_col m c df) = if str_eqb m n then Some c else get_col n df.
Proof.
  unfold set_col. destruct (has_col m df) eqn:Hm.
  - destruct (str_eqb m n) eqn:E.
    + apply str_eqb_eq in E; subst m.
      unfold has_col, columns in Hm. induction df as [|[k c0] df IH]; simpl in *; [discriminate|].
      rewrite (str_eqb_sym n k) in Hm.
      destruct (str_eqb k n) eqn:E; simpl in *; [rewrite E; reflexivity|].
      rewrite E. apply IH, Hm.
    + clear Hm. induction df as [|[k c0] df IH]; simpl; [reflexivity|].
      destruct (str_eqb k m) eqn:E1; simpl.
      * destruct (str_eqb k n) eqn:E2; [|exact IH].
        apply str_eqb_eq in E1, E2; subst. rewrite str_eqb_refl in E; discriminate.
      * destruct (str_eqb k n); [reflexivity | exact IH].
  - rewrite get_col_app; simpl. destruct (str_eqb m n) eqn:E.
    + apply str_eqb_eq in E; subst m. rewrite (get_col_None _ _ Hm). reflexivity.
    + destruct (get_col n df); reflexivity.
Qed.

Lemma columns_set_col (n : str) (c : column) (df : DataFrame) :
  has_col n df = true -> columns (set_col n c df) = columns df.
Proof.
  intros H. unfold set_col, columns. rewrite H, map_map. apply map_ext.
  intros [k c0]; simpl. destruct (str_eqb k n); reflexivity.
Qed.

(** With distinct labels, [df[col]] is the column stored under [col]. *)
Lemma get_col_In (n : str) (c : column) (df : DataFrame) :
  NoDup (columns df) -> In (n, c) df -> get_col n df = Some c.
Proof.
  unfold columns. induction df as [|[k c0] df IH]; simpl; [easy|].
  intros Hnd [H|H].
  - injection H as -> ->. rewrite str_eqb_refl. reflexivity.
  - inversion Hnd as [|? ? Hk Hnd']; subst.
    destruct (str_eqb k n) eqn:E; [|apply IH; assumption].
    apply str_eqb_eq in E; subst k. exfalso; apply Hk.
    apply (in_map fst) in H. exact H.
Qed.

Lemma get_col_df_take (n : str) (mask : list bool) (df : DataFrame) :
  get_col n (df_take mask df) = option_map (col_take mask) (get_col n df).
Proof.
  unfold df_take. induction df as [|[k c] df IH]; simpl; [reflexivity|].
  destruct (str_eqb k n); [reflexivity | exact IH].
Qed.

Lemma non_null_isnull {A} (v : list (option A)) :
  existsb (fun b => b) (isnull v) = false <-> length (non_null v) = length v.
Proof.
  induction v as [|[x|] v IH]; simpl; [tauto| |].
  - rewrite IH. split; intros H; [f_equal; exact H | injection H; trivial].
  - split; [discriminate|]. intros H.
    assert (Hle : (length (non_null v) <= length v)%nat).
    { clear. induction v as [|[x|] v IH]; simpl; lia. }
    lia.
Qed.

Lemma isnull_all_null {A} (v : list (option A)) :
  non_null v = [] <-> Forall (eq None) v.
Proof.
  induction v as [|[x|] v IH]; simpl; split; intros H; try constructor; try discriminate;
    try reflexivity.
  - inversion H; discriminate.
  - apply IH, H.
  - inversion H; subst. apply IH; assumption.
Qed.

Lemma take_Forall {A} (P : A -> Prop) (mask : list bool) (v : list A) :
  Forall P v -> Forall P (take mask v).
Proof.
  intros H. revert mask. induction H as [|x v Hx Hv IH]; intros [|[|] mask]; simpl;
    try constructor; auto.
Qed.

(** A mask that is false wherever the column is null selects no null. *)
Lemma take_drops_nulls {A} (mask : list bool) (v : list (option A)) :
  (forall i, nth i mask false = true -> nth i (isnull v) false = false) ->
  existsb (fun b => b) (isnull (take mask v)) = false.
Proof.
  revert v. induction mask as [|b mask IH]; intros [|o v] H; simpl; try reflexivity.
  - destruct b; reflexivity.
  - destruct b; simpl.
    + rewrite IH by (intros i Hi; apply (H (S i)), Hi).
      specialize (H 0%nat eq_refl). simpl in H. rewrite H. reflexivity.
    + apply IH. intros i Hi. apply (H (S i)), Hi.
Qed.

Lemma fillna_no_null (v : list (option Q)) (x : Q) :
  existsb (fun b => b) (isnull (fillna v (Some x))) = false.
Proof. induction v as [|[y|] v IH]; simpl; auto. Qed.

Lemma fillna_all_null_mean (v : list (option Q)) :
  Forall (eq None) v -> fillna v (mean v) = v.
Proof.
  intros H. apply isnull_all_null in H. unfold mean. rewrite H. reflexivity.
Qed.

Lemma fillna_full (v : list (option Q)) (m : option Q) :
  existsb (fun b => b) (isnull v) = false -> fillna v m = v.
Proof.
  destruct m as [x|]; [|reflexivity]. simpl.
  induction v as [|[y|] v IH]; simpl; intros H; try reflexivity; try discriminate.
  rewrite IH by exact H. reflexivity.
Qed.

Lemma mean_Some (v : list (option Q)) :
  non_null v <> [] -> exists m, mean v = Some m.
Proof.
  unfold mean. destruct (non_null v); [congruence|]. eexists; reflexivity.
Qed.

Lemma clip_isnull (v : list (option Q)) (lo hi : option Q) :
  isnull (clip v lo hi) = isnull v.
Proof.
  unfold clip, isnull. destruct lo, hi; try reflexivity; rewrite map_map; apply map_ext;
    intros [x|]; reflexivity.
Qed.

(** *** Repeated labels *)

Lemma get_cols_In (n : str) (c : column) (df : DataFrame) :
  In c (get_cols n df) <-> In (n, c) df.
Proof.
  unfold get_cols. rewrite in_map_iff. split.
  - intros ([k c0] & <- & H). apply filter_In in H. destruct H as [H E].
    simpl in E. apply str_eqb_eq in E. subst k. exact H.
  - intros H. exists (n, c). split; [reflexivity|]. apply filter_In.
    split; [exact H | apply str_eqb_refl].
Qed.

Lemma get_col_get_cols (n : str) (df : DataFrame) :
  get_col n df = match get_cols n df with c :: _ => Some c | [] => None end.
Proof.
  unfold get_cols. induction df as [|[k c] df IH]; simpl; [reflexivity|].
  destruct (str_eqb k n); [reflexivity | exact IH].
Qed.

Lemma has_col_get_cols (n : str) (df : DataFrame) :
  has_col n df = match get_cols n df with _ :: _ => true | [] => false end.
Proof.
  destruct (has_col n df) eqn:E.
  - destruct (get_col_Some _ _ E) as [c Hc]. rewrite get_col_get_cols in Hc.
    destruct (get_cols n df); [discriminate | reflexivity].
  - pose proof (get_col_None _ _ E) as Hc. rewrite get_col_get_cols in Hc.
    destruct (get_cols n df); [reflexivity | discriminate].
Qed.

(** With distinct labels [df[col]] is never a sub-frame. *)
Lemma get_cols_NoDup (n : str) (df : DataFrame) :
  NoDup (columns df) ->
  get_cols n df = match get_col n df with Some c => [c] | None => [] end.
Proof.
  unfold columns, get_cols. induction df as [|[k c] df IH]; simpl; [reflexivity|].
  intros Hnd. inversion Hnd as [|? ? Hk Hnd']; subst.
  destruct (str_eqb k n) eqn:E; [|apply IH, Hnd'].
  apply str_eqb_eq in E. subst k. simpl. f_equal.
  destruct (filter (fun kc => str_eqb (fst kc) n) df) as [|[k' c'] l] eqn:F; [reflexivity|].
  exfalso. apply Hk.
  assert (Hin : In (k', c') (filter (fun kc => str_eqb (fst kc) n) df))
    by (rewrite F; left; reflexivity).
  apply filter_In in Hin. destruct Hin as [Hin E']. simpl in E'.
  apply str_eqb_eq in E'. subst k'. apply (in_map fst) in Hin. exact Hin.
Qed.


Lemma get_cols_single (n k : str) (c c0 : column) (df : DataFrame) :
  get_cols n df = [c] -> In (k, c0) df -> str_eqb k n = true -> c0 = c.
Proof.
  intros H Hin E. apply str_eqb_eq in E. subst k.
  apply get_cols_In in Hin. rewrite H in Hin. destruct Hin as [<-|[]]. reflexivity.
Qed.

Lemma columns_on_label (n : str) (g : column -> column) (df : DataFrame) :
  columns (on_label n g df) = columns df.
Proof.
  unfold on_label, columns. rewrite map_map. apply map_ext.
  intros [k c]; simpl. destruct (str_eqb k n); reflexivity.
Qed.

Lemma nth_error_on_label (n : str) (g : column -> column) (df : DataFrame) (i : nat) :
  nth_error (on_label n g df) i
  = option_map (fun kc => if str_eqb (fst kc) n then (fst kc, g (snd kc)) else kc)
               (nth_error df i).
Proof. unfold on_label. apply nth_error_map. Qed.


(** [df[col] = series] as a pass over the table. *)
Lemma set_col_on_label (n : str) (c : column) (df : DataFrame) :
  has_col n df = true -> set_col n c df = on_label n (fun _ => c) df.
Proof. intros H. unfold set_col, on_label. rewrite H. reflexivity. Qed.

(** [df[col] = frame] as a pass over the table. *)
Lemma set_cols_on_label (n : str) (g : column -> column) (df : DataFrame) :
  set_cols n (map g (get_cols n df)) df = on_label n g df.
Proof.
  unfold get_cols, on_label. induction df as [|[k c] df IH]; simpl; [reflexivity|].
  destruct (str_eqb k n); simpl; rewrite IH; reflexivity.
Qed.

Lemma on_label_ext (n : str) (g h : column -> column) (df : DataFrame) :
  (forall c, In (n, c) df -> g c = h c) -> on_label n g df = on_label n h df.
Proof.
  intros H. unfold on_label. apply map_ext_in. intros [k c] Hin. simpl.
  destruct (str_eqb k n) eqn:E; [|reflexivity].
  apply str_eqb_eq in E. subst k. rewrite (H c Hin). reflexivity.
Qed.

End FrameFacts.

(* ================================================================== *)
(** * Facts about scripts/cleaning.py *)

Section CleaningFacts.

Lemma fill_col_idempotent (c : column) :
  Cleaning.fill_col (Cleaning.fill_col c) = Cleaning.fill_col c.
Proof.
  destruct c as [v| |]; simpl; try reflexivity. f_equal.
  destruct (mean v) as [x|] eqn:E; simpl.
  - apply (fillna_full (fillna v (Some x))), fillna_no_null.
  - simpl. rewrite E. reflexivity.
Qed.

Lemma fill_col_is_number (c : column) :
  is_number (Cleaning.fill_col c) = is_number c.
Proof. destruct c; reflexivity. Qed.


Lemma fill_with_None (c : column) : Cleaning.fill_with None c = c.
Proof. destruct c; reflexivity. Qed.

(** A column filled with a number has nothing left to fill. *)
Lemma fill_with_filled (x : Q) (m : option Q) (c : column) :
  Cleaning.fill_with m (Cleaning.fill_with (Some x) c) = Cleaning.fill_with (Some x) c.
Proof.
  destruct c as [v| |]; try reflexivity. cbn [Cleaning.fill_with]. f_equal.
  apply fillna_full, fillna_no_null.
Qed.

Lemma fill_col_fill_with (c : column) :
  Cleaning.fill_col c = Cleaning.fill_with (first_mean [Cleaning.col_mean c]) c.
Proof. destruct c as [v| |]; try reflexivity. simpl. destruct (mean v); reflexivity. Qed.

(** Filling a sub-frame with each of its means in turn is filling it
    with the first mean that is a number. *)
Lemma fill_means_first (means : list (option Q)) :
  forall piece : list column,
  fold_left (fun acc value => map (Cleaning.fill_with value) acc) means piece
  = map (Cleaning.fill_with (first_mean means)) piece.
Proof.
  induction means as [|[x|] means IH]; intros piece; cbn [fold_left first_mean].
  - rewrite <- (map_id piece) at 1. apply map_ext. intros c. symmetry. apply fill_with_None.
  - rewrite IH, map_map. apply map_ext. intros c. apply fill_with_filled.
  - rewrite <- IH. f_equal. rewrite <- (map_id piece) at 2. apply map_ext.
    intros c. apply fill_with_None.
Qed.

Lemma first_mean_In (means : list (option Q)) (x : Q) :
  In (Some x) means -> exists m, first_mean means = Some m.
Proof.
  induction means as [|[y|] means IH]; simpl; [easy | eauto |].
  intros [H|H]; [discriminate | apply IH, H].
Qed.

(** One turn of the fill loop, when it returns, is a pass over the table. *)
Lemma fill_step_Ok (df df' : DataFrame) (col : str) :
  Cleaning.fill_step (Ok df) col = Ok df' -> df' = fill_label df col.
Proof.
  unfold Cleaning.fill_step, fill_label. cbn [bind].
  destruct (get_cols col df) as [|c [|c2 rest]] eqn:E; [discriminate | |].
  - intros H. injection H as <-.
    rewrite set_col_on_label by (rewrite has_col_get_cols, E; reflexivity).
    apply on_label_ext. intros c0 Hin. apply get_cols_In in Hin. rewrite E in Hin.
    destruct Hin as [<-|[]]. apply fill_col_fill_with.
  - destruct (forallb is_number (c :: c2 :: rest)); [|discriminate].
    intros H. injection H as <-. unfold Cleaning.fill_frame.
    rewrite fill_means_first, <- E. apply set_cols_on_label.
Qed.



Lemma fill_loop_Raise (ns : list str) (e : exc) :
  fold_left Cleaning.fill_step ns (Raise e) = Raise e.
Proof. induction ns as [|n ns IH]; simpl; [reflexivity | exact IH]. Qed.

Lemma fill_loop_Ok (ns : list str) :
  forall df df' : DataFrame,
  fold_left Cleaning.fill_step ns (Ok df) = Ok df' -> df' = fold_left fill_label ns df.
Proof.
  induction ns as [|n ns IH]; intros df df' H; cbn [fold_left] in *.
  - injection H as <-. reflexivity.
  - destruct (Cleaning.fill_step (Ok df) n) as [df1|e] eqn:E.
    + rewrite (IH _ _ H). f_equal. apply fill_step_Ok, E.
    + rewrite fill_loop_Raise in H. discriminate.
Qed.







Lemma get_col_In_inv (n : str) (c : column) (df : DataFrame) :
  get_col n df = Some c -> In (n, c) df.
Proof.
  induction df as [|[k c0] df IH]; simpl; [discriminate|].
  destruct (str_eqb k n) eqn:E.
  - apply str_eqb_eq in E; subst. intros H; injection H as ->. left; reflexivity.
  - intros H; right; apply IH, H.
Qed.

Lemma select_include_In (n : str) (c : column) (df : DataFrame) :
  In (n, c) df -> is_number c = true -> In n (select_dtypes_include_number df).
Proof.
  intros H Hc. unfold select_dtypes_include_number, columns.
  apply (in_map fst _ (n, c)), filter_In. split; assumption.
Qed.

Lemma select_exclude_In (n : str) (c : column) (df : DataFrame) :
  In (n, c) df -> is_number c = false -> In n (select_dtypes_exclude_number df).
Proof.
  intros H Hc. unfold select_dtypes_exclude_number, columns.
  apply (in_map fst _ (n, c)), filter_In. split; [assumption | simpl; rewrite Hc; reflexivity].
Qed.

Lemma select_include_has (n : str) (df : DataFrame) :
  In n (select_dtypes_include_number df) -> has_col n df = true.
Proof.
  unfold select_dtypes_include_number, columns. rewrite in_map_iff.
  intros ([k c] & <- & H). apply filter_In in H. destruct H as [H _].
  apply str_in_In. apply (in_map fst) in H. exact H.
Qed.


Lemma nth_mask (f : nat -> bool) (n i : nat) :
  nth i (map f (seq 0 n)) false = true -> f i = true.
Proof.
  intros H. destruct (Nat.lt_ge_cases i n) as [Hi|Hi].
  - rewrite (nth_indep _ false (f 0%nat)) in H by (rewrite length_map, length_seq; exact Hi).
    rewrite map_nth, seq_nth in H by exact Hi. exact H.
  - rewrite nth_overflow in H by (rewrite length_map, length_seq; exact Hi). discriminate.
Qed.

(** [dropna] keeps no row that is null in a column carrying a label of
    the subset. *)
Lemma dropna_complete (subset : list str) (df : DataFrame) (n : str) (c : column) :
  In (n, c) df -> In n subset ->
  has_null (col_take (map (Cleaning.row_complete df subset) (seq 0 (nrows df))) c) = false.
Proof.
  intros Hc Hn.
  assert (Hmask : forall i,
    nth i (map (Cleaning.row_complete df subset) (seq 0 (nrows df))) false = true ->
    nth i (col_isnull c) false = false).
  { intros i Hi. apply nth_mask in Hi. unfold Cleaning.row_complete in Hi.
    rewrite forallb_forall in Hi. specialize (Hi (n, c) Hc). cbn [fst snd] in Hi.
    apply (proj2 (str_in_In n subset)) in Hn. rewrite Hn in Hi. cbn [negb orb] in Hi.
    apply negb_true_iff in Hi. exact Hi. }
  destruct c as [v|v|v]; unfold has_null; simpl in *; apply take_drops_nulls, Hmask.
Qed.

Lemma dropna_drops_nulls (subset : list str) (df : DataFrame) (n : str) (c : column) :
  get_col n df = Some c -> In n subset ->
  exists c', get_col n (Cleaning.dropna subset df) = Some c' /\ has_null c' = false.
Proof.
  intros Hc Hn. unfold Cleaning.dropna. rewrite get_col_df_take, Hc; simpl.
  eexists; split; [reflexivity|].
  apply (dropna_complete subset df n c); [apply get_col_In_inv, Hc | exact Hn].
Qed.

Lemma col_take_no_null (mask : list bool) (c : column) :
  has_null c = false -> has_null (col_take mask c) = false.
Proof.
  assert (G : forall A (v : list (option A)),
    existsb (fun b => b) (isnull v) = false ->
    existsb (fun b => b) (isnull (take mask v)) = false).
  { intros A v H. apply take_drops_nulls. intros i _. revert i.
    induction v as [|[x|] v IH]; intros [|i]; simpl in *; try reflexivity; try discriminate.
    apply IH, H. }
  destruct c as [v|v|v]; unfold has_null; simpl; apply G.
Qed.

(** *** The fill loop, column by column *)

Lemma mean_None (v : list (option Q)) : mean v = None <-> non_null v = [].
Proof. unfold mean. destruct (non_null v); split; congruence. Qed.

Lemma mean_fillna (v : list (option Q)) (x : Q) :
  mean v <> None -> mean (fillna v (Some x)) <> None.
Proof.
  rewrite !mean_None. intros H H'. apply H.
  destruct v as [|[y|] v]; simpl in *; [reflexivity | discriminate | discriminate].
Qed.

(** A number column with a mean: one turn of the loop keeps it so, and
    the turn for its own label leaves it without a null. *)
Lemma fill_label_numeric (df : DataFrame) (col : str) (i : nat) (k : str)
  (v : list (option Q)) :
  nth_error df i = Some (k, NumCol v) -> mean v <> None ->
  exists w, nth_error (fill_label df col) i = Some (k, NumCol w)
            /\ mean w <> None
            /\ (str_eqb k col = true -> has_null (NumCol w) = false)
            /\ (has_null (NumCol v) = false -> has_null (NumCol w) = false).
Proof.
  intros Hi Hv. unfold fill_label. rewrite nth_error_on_label, Hi. cbn [option_map fst snd].
  destruct (str_eqb k col) eqn:E.
  - apply str_eqb_eq in E. subst k.
    destruct (mean v) as [x|] eqn:Em; [|congruence].
    destruct (first_mean_In (map Cleaning.col_mean (get_cols col df)) x) as [m Hm].
    { apply in_map_iff. exists (NumCol v). split; [exact Em|].
      apply get_cols_In. eapply nth_error_In, Hi. }
    rewrite Hm. cbn [Cleaning.fill_with]. eexists. split; [reflexivity|].
    split; [apply mean_fillna; congruence|].
    split; intros _; apply (fillna_no_null v m).
  - exists v. split; [reflexivity|]. split; [exact Hv|]. split; [discriminate | tauto].
Qed.

Lemma fill_labels_numeric (ns : list str) :
  forall (df : DataFrame) (i : nat) (k : str) (v : list (option Q)),
  nth_error df i = Some (k, NumCol v) -> mean v <> None ->
  exists w, nth_error (fold_left fill_label ns df) i = Some (k, NumCol w)
            /\ mean w <> None
            /\ (In k ns \/ has_null (NumCol v) = false -> has_null (NumCol w) = false).
Proof.
  induction ns as [|n ns IH]; intros df i k v Hi Hv; cbn [fold_left].
  - exists v. split; [exact Hi|]. split; [exact Hv|]. intros [[]|H]; exact H.
  - destruct (fill_label_numeric df n i k v Hi Hv) as (w1 & Hi1 & Hv1 & Hown & Hkeep).
    destruct (IH _ _ _ _ Hi1 Hv1) as (w & Hiw & Hvw & Hw).
    exists w. split; [exact Hiw|]. split; [exact Hvw|].
    intros [[<-|Hin]|Hnull].
    + apply Hw. right. apply Hown, str_eqb_refl.
    + apply Hw. left. exact Hin.
    + apply Hw. right. apply Hkeep, Hnull.
Qed.

(** The loop leaves the other columns as they are. *)
Lemma fill_labels_other (ns : list str) :
  forall (df : DataFrame) (i : nat) (k : str) (c : column),
  nth_error df i = Some (k, c) -> is_number c = false ->
  nth_error (fold_left fill_label ns df) i = Some (k, c).
Proof.
  induction ns as [|n ns IH]; intros df i k c Hi Hc; cbn [fold_left]; [exact Hi|].
  apply IH; [|exact Hc]. unfold fill_label. rewrite nth_error_on_label, Hi.
  cbn [option_map fst snd]. destruct (str_eqb k n); [|reflexivity].
  destruct c; try discriminate; reflexivity.
Qed.

Lemma nth_error_df_take (mask : list bool) (df : DataFrame) (i : nat) :
  nth_error (df_take mask df) i
  = option_map (fun kc => (fst kc, col_take mask (snd kc))) (nth_error df i).
Proof. unfold df_take. apply nth_error_map. Qed.

(** After [handle_missing_values], column by column: a column has a null
    only if it is a number column without a mean. *)
Lemma handle_missing_values_no_null (df out : DataFrame) (i : nat) (k : str) (c : column) :
  Cleaning.handle_missing_values df = Ok out ->
  nth_error df i = Some (k, c) ->
  match c with NumCol v => mean v <> None | _ => True end ->
  exists c', nth_error out i = Some (k, c') /\ has_null c' = false.
Proof.
  unfold Cleaning.handle_missing_values. intros Hout Hi Hc.
  destruct (fold_left Cleaning.fill_step _ (Ok df)) as [filled|e] eqn:El; [|discriminate].
  cbn [bind] in Hout. injection Hout as <-. apply fill_loop_Ok in El.
  unfold Cleaning.dropna. rewrite nth_error_df_take.
  destruct c as [v|s|d].
  - destruct (fill_labels_numeric (select_dtypes_include_number df) df i k v Hi Hc)
      as (w & Hw & _ & Hnull).
    rewrite <- El in Hw. rewrite Hw. cbn [option_map fst snd].
    eexists. split; [reflexivity|]. apply col_take_no_null, Hnull. left.
    eapply select_include_In; [eapply nth_error_In, Hi | reflexivity].
  - pose proof (fill_labels_other (select_dtypes_include_number df) df i k _ Hi eq_refl) as Hw.
    rewrite <- El in Hw. rewrite Hw. cbn [option_map fst snd].
    eexists. split; [reflexivity|].
    apply (dropna_complete _ _ k); [eapply nth_error_In, Hw|].
    eapply select_exclude_In; [eapply nth_error_In, Hw | reflexivity].
  - pose proof (fill_labels_other (select_dtypes_include_number df) df i k _ Hi eq_refl) as Hw.
    rewrite <- El in Hw. rewrite Hw. cbn [option_map fst snd].
    eexists. split; [reflexivity|].
    apply (dropna_complete _ _ k); [eapply nth_error_In, Hw|].
    eapply select_exclude_In; [eapply nth_error_In, Hw | reflexivity].
Qed.

(** *** A column that is null throughout *)






End CleaningFacts.

(* ================================================================== *)
(** * Mean imputation and the Tukey fences, value by value *)

Section ColumnFacts.

Lemma Qlen_cons {A} (x : A) (xs : list A) : Qlen (x :: xs) == Qlen xs + 1.
Proof.
  unfold Qlen. cbn [length]. rewrite Nat2Z.inj_succ, <- Z.add_1_r, inject_Z_plus. reflexivity.
Qed.

Lemma Qlen_nonneg {A} (xs : list A) : 0 <= Qlen xs.
Proof. unfold Qlen. change 0 with (inject_Z 0). rewrite <- Zle_Qle. lia. Qed.

Lemma sum_fillna (v : list (option Q)) (x : Q) :
  sumQ (non_null (fillna v (Some x)))
  == sumQ (non_null v) + (Qlen v - Qlen (non_null v)) * x.
Proof.
  induction v as [|[y|] v IH]; cbn [fillna map non_null sumQ] in *.
  - unfold Qlen; simpl. ring.
  - rewrite IH, !Qlen_cons. ring.
  - rewrite IH, !Qlen_cons. ring.
Qed.

Lemma length_fillna (v : list (option Q)) (x : Q) :
  length (non_null (fillna v (Some x))) = length v.
Proof. induction v as [|[y|] v IH]; simpl; auto. Qed.

Lemma length_non_null_le {A} (v : list (option A)) : Qlen (non_null v) <= Qlen v.
Proof.
  unfold Qlen. rewrite <- Zle_Qle. apply inj_le.
  induction v as [|[x|] v IH]; simpl; lia.
Qed.

(** C10.  Filling the nulls of a numeric column that has a non-null
    value with the column mean, as the fill loop of
    [handle_missing_values] does, keeps the mean: the mean of the filled
    column equals the mean of the original non-null values. *)
Theorem mean_fill_preserves_mean (v : list (option Q)) (m : Q) :
  mean v = Some m ->
  exists v' m',
    Cleaning.fill_col (NumCol v) = NumCol v'
    /\ mean v' = Some m'
    /\ m' == m.
Proof.
  intros Hm. exists (fillna v (Some m)).
  assert (Hfill : Cleaning.fill_col (NumCol v) = NumCol (fillna v (Some m))).
  { unfold Cleaning.fill_col. rewrite Hm. reflexivity. }
  unfold mean in *.
  destruct (non_null v) as [|y ys] eqn:Ev; [discriminate|]. injection Hm as Hm.
  pose proof (sum_fillna v m) as Hs. pose proof (length_fillna v m) as Hl.
  pose proof (length_non_null_le v) as Hle. rewrite Ev in Hs, Hle.
  assert (Hk : 1 <= Qlen (y :: ys)) by (rewrite Qlen_cons; pose proof (Qlen_nonneg ys); lra).
  destruct (non_null (fillna v (Some m))) as [|z zs] eqn:Ef.
  { simpl in Hl. destruct v; [discriminate Ev | discriminate Hl]. }
  eexists; split; [exact Hfill | split; [reflexivity|]].
  assert (Hn : Qlen (z :: zs) == Qlen v) by (unfold Qlen; rewrite Hl; reflexivity).
  rewrite Hs, Hn. rewrite <- Hm. change (sumQ (y :: ys)) with (y + sumQ ys).
  clear Hs Hn Hm Hfill Hl.
  set (k := Qlen (y :: ys)) in *. set (n := Qlen v) in *. set (s := y + sumQ ys).
  clearbody k n s. field. split; lra.
Qed.

(** *** Order statistics of a sorted sample *)








End ColumnFacts.

Section TukeyFacts.

Lemma clip1_range (lo hi x : Q) : lo <= hi -> lo <= clip1 lo hi x /\ clip1 lo hi x <= hi.
Proof.
  intros H. unfold clip1.
  destruct (Qlt_le_dec x lo); [split; lra|]. destruct (Qlt_le_dec hi x); split; lra.
Qed.

Lemma clip1_fixed (lo hi x : Q) : lo <= x -> x <= hi -> clip1 lo hi x = x.
Proof.
  intros H1 H2. unfold clip1.
  destruct (Qlt_le_dec x lo); [lra|]. destruct (Qlt_le_dec hi x); [lra | reflexivity].
Qed.

Lemma clip1_moved (lo hi x : Q) : clip1 lo hi x = x -> lo <= hi -> lo <= x /\ x <= hi.
Proof. intros E H. rewrite <- E. apply clip1_range, H. Qed.


Lemma iqr_bounds_of_quartiles (v : list (option Q)) (q1 q3 : Q) :
  quantile v (1 # 4) = Some q1 -> quantile v (3 # 4) = Some q3 ->
  Cleaning.iqr_bounds v
  = (Some (q1 - (3 # 2) * (q3 - q1)), Some (q3 + (3 # 2) * (q3 - q1))).
Proof. intros H1 H3. unfold Cleaning.iqr_bounds. rewrite H1, H3. reflexivity. Qed.

Lemma Forall_non_null_map (P : Q -> Prop) (f : Q -> Q) (v : list (option Q)) :
  (forall x, P (f x)) -> Forall P (non_null (map (option_map f) v)).
Proof. intros H. induction v as [|[x|] v IH]; simpl; auto. Qed.


(** A column without a non-null value has NaN fences and is not touched. *)
Lemma iqr_clip_all_null (v : list (option Q)) :
  Forall (eq None) v -> Cleaning.iqr_clip v = v.
Proof.
  intros H. apply isnull_all_null in H.
  unfold Cleaning.iqr_clip, Cleaning.iqr_bounds, quantile. rewrite H. reflexivity.
Qed.

Lemma Forall_non_null_fixed (f : Q -> Q) (v : list (option Q)) :
  Forall (fun x => f x = x) (non_null v) <-> map (option_map f) v = v.
Proof.
  induction v as [|[x|] v IH]; simpl.
  - split; auto.
  - split.
    + intros H; inversion H; subst. f_equal; [f_equal; assumption | apply IH; assumption].
    + intros H; injection H as Hx Hv. constructor; [assumption | apply IH; assumption].
  - split.
    + intros H. f_equal. apply IH, H.
    + intros H; injection H as Hv. apply IH, Hv.
Qed.

(** With a zero interquartile range both fences are Q1. *)
Lemma iqr_zero_fences (v : list (option Q)) (q1 q3 : Q) :
  quantile v (1 # 4) = Some q1 ->
  quantile v (3 # 4) = Some q3 ->
  q3 - q1 == 0 ->
  exists lo hi,
    Cleaning.iqr_clip v = map (option_map (clip1 lo hi)) v /\ lo == q1 /\ hi == q1.
Proof.
  intros H1 H3 Hz.
  pose proof (iqr_bounds_of_quartiles _ _ _ H1 H3) as Hb.
  set (lo := q1 - (3 # 2) * (q3 - q1)) in *. set (hi := q3 + (3 # 2) * (q3 - q1)) in *.
  assert (Elo : lo == q1) by (unfold lo; lra). assert (Ehi : hi == q1) by (unfold hi; lra).
  assert (Hle : lo <= hi) by lra.
  pose proof (Q.min_l _ _ Hle) as Emin. pose proof (Q.max_r _ _ Hle) as Emax.
  exists (Qmin lo hi), (Qmax lo hi).
  unfold Cleaning.iqr_clip. rewrite Hb. cbn [fst snd clip].
  split; [reflexivity | split; lra].
Qed.

Lemma clip_to_point (lo hi q : Q) (v : list (option Q)) :
  lo == q -> hi == q ->
  Forall (fun x => x == q) (non_null (map (option_map (clip1 lo hi)) v))
  /\ (map (option_map (clip1 lo hi)) v = v <-> Forall (fun x => x == q) (non_null v)).
Proof.
  intros Elo Ehi. assert (Hle : lo <= hi) by lra.
  assert (Hall : Forall (fun x => x == q) (non_null (map (option_map (clip1 lo hi)) v))).
  { apply Forall_non_null_map. intros x.
    destruct (clip1_range lo hi x Hle). apply Qle_antisym; lra. }
  split; [exact Hall | split].
  - intros E. rewrite E in Hall. exact Hall.
  - intros Hv. apply Forall_non_null_fixed.
    eapply Forall_impl; [|exact Hv]. intros x Hx. simpl in Hx. apply clip1_fixed; lra.
Qed.


Lemma sort_Forall (P : Q -> Prop) (xs : list Q) : Forall P xs -> Forall P (QSort.sort xs).
Proof. apply Permutation_Forall, QSort.Permuted_sort. Qed.

Lemma quantile_constant (v : list (option Q)) (c q r : Q) :
  Forall (fun x => x == c) (non_null v) -> quantile v q = Some r -> r == c.
Proof.
  intros Hc. apply sort_Forall in Hc. unfold quantile.
  destruct (QSort.sort (non_null v)) as [|x0 xs] eqn:E; [discriminate|].
  intros H; injection H as <-. unfold lerp_at.
  assert (Hos : forall k, order_stat (x0 :: xs) x0 k == c).
  { intros k. unfold order_stat. rewrite Forall_forall in Hc. apply Hc, nth_In. simpl. lia. }
  rewrite !Hos. ring.
Qed.

(** On a constant column the interquartile range is zero and the IQR
    step is the identity. *)
Lemma iqr_clip_constant (v : list (option Q)) (c : Q) :
  Forall (fun x => x == c) (non_null v) -> Cleaning.iqr_clip v = v.
Proof.
  intros Hc.
  destruct (quantile v (1 # 4)) as [q1|] eqn:H1, (quantile v (3 # 4)) as [q3|] eqn:H3;
    try (unfold Cleaning.iqr_clip, Cleaning.iqr_bounds; rewrite H1, H3; reflexivity).
  pose proof (quantile_constant _ _ _ _ Hc H1) as E1.
  pose proof (quantile_constant _ _ _ _ Hc H3) as E3.
  assert (Hz : q3 - q1 == 0) by lra.
  destruct (iqr_zero_fences _ _ _ H1 H3 Hz) as (lo & hi & -> & Elo & Ehi).
  apply (clip_to_point lo hi q1 v Elo Ehi).
  eapply Forall_impl; [|exact Hc]. intros x Hx; simpl in Hx. lra.
Qed.

End TukeyFacts.

(* ================================================================== *)
(** * The cleaning pipeline end to end *)

Section PipelineFacts.

Variable str_lower : str -> str.
Variable read_csv : str -> result DataFrame.
Variable date_suffix : str.
Variable makedirs : str -> result unit.
Variable to_csv : DataFrame -> str -> result unit.
Variable to_datetime : column -> list (option Z).
Variable round_ns : Q -> Z.
Variable base_dir : str.

Lemma isnull_option_map {A B} (f : A -> B) (v : list (option A)) :
  isnull (map (option_map f) v) = isnull v.
Proof. unfold isnull. rewrite map_map. apply map_ext. intros [x|]; reflexivity. Qed.

(** One IQR iteration, when it returns, is a pass over the table that
    changes the one column carrying the label, and only its values. *)
Lemma iqr_step_pass (df df' : DataFrame) (col : str) :
  Cleaning.iqr_step round_ns df col = Ok df' ->
  exists c c',
    get_cols col df = [c] /\ is_text c = false
    /\ df' = on_label col (fun _ => c') df
    /\ col_isnull c' = col_isnull c /\ col_kind c' = col_kind c.
Proof.
  unfold Cleaning.iqr_step.
  destruct (get_cols col df) as [|[v|s|d] [|c2 rest]] eqn:E; try discriminate;
    intros H; injection H as <-; do 2 eexists;
    (split; [reflexivity|]); (split; [reflexivity|]);
    (split; [apply set_col_on_label; rewrite has_col_get_cols, E; reflexivity|]);
    (split; [|reflexivity]); cbn [col_isnull].
  - unfold Cleaning.iqr_clip. apply clip_isnull.
  - rewrite isnull_option_map, clip_isnull, isnull_option_map. reflexivity.
Qed.

Lemma iqr_step_nth (df df' : DataFrame) (col : str) (i : nat) (k : str) (c : column) :
  Cleaning.iqr_step round_ns df col = Ok df' ->
  nth_error df i = Some (k, c) ->
  exists c', nth_error df' i = Some (k, c')
             /\ col_isnull c' = col_isnull c /\ col_kind c' = col_kind c
             /\ (str_eqb k col = false -> c' = c).
Proof.
  intros Hs Hi. destruct (iqr_step_pass _ _ _ Hs) as (c0 & c1 & Hg & _ & -> & Hn & Hk).
  rewrite nth_error_on_label, Hi. cbn [option_map fst snd].
  destruct (str_eqb k col) eqn:E.
  - assert (c = c0) as -> by (eapply get_cols_single; [exact Hg | eapply nth_error_In, Hi | exact E]).
    exists c1. repeat split; try assumption. discriminate.
  - exists c. repeat split.
Qed.

Lemma iqr_step_columns (df df' : DataFrame) (col : str) :
  Cleaning.iqr_step round_ns df col = Ok df' -> columns df' = columns df.
Proof.
  intros Hs. destruct (iqr_step_pass _ _ _ Hs) as (c0 & c1 & _ & _ & -> & _).
  apply columns_on_label.
Qed.

Lemma fold_outliers_raise (method : str) (cols : list str) (e : exc) :
  fold_left (Cleaning.outlier_step round_ns method) cols (Raise e) = Raise e.
Proof. induction cols as [|col cols IH]; simpl; [reflexivity | exact IH]. Qed.

Lemma outlier_step_IQR (df : DataFrame) (col : str) :
  Cleaning.outlier_step round_ns '"IQR" (Ok df) col = Cleaning.iqr_step round_ns df col.
Proof. reflexivity. Qed.

Lemma handle_outliers_cons (df : DataFrame) (col : str) (cols : list str) :
  Cleaning.handle_outliers round_ns df (col :: cols) '"IQR"
  = (df' <- Cleaning.iqr_step round_ns df col ;;
     Cleaning.handle_outliers round_ns df' cols '"IQR").
Proof.
  unfold Cleaning.handle_outliers. cbn [fold_left]. rewrite outlier_step_IQR.
  destruct (Cleaning.iqr_step round_ns df col); [reflexivity | apply fold_outliers_raise].
Qed.

(** [handle_outliers] with the IQR method, column by column: labels and
    positions stay, and so do the nulls and the kind of every column;
    a column whose label is not listed is untouched. *)
Lemma handle_outliers_nth (cols : list str) :
  forall (df out : DataFrame) (i : nat) (k : str) (c : column),
  Cleaning.handle_outliers round_ns df cols '"IQR" = Ok out ->
  nth_error df i = Some (k, c) ->
  exists c', nth_error out i = Some (k, c')
             /\ col_isnull c' = col_isnull c /\ col_kind c' = col_kind c
             /\ (~ In k cols -> c' = c).
Proof.
  induction cols as [|col cols IH]; intros df out i k c Hout Hi.
  - injection Hout as <-. exists c. repeat split. exact Hi.
  - rewrite handle_outliers_cons in Hout.
    destruct (Cleaning.iqr_step round_ns df col) as [df1|e] eqn:Es; [|discriminate].
    cbn [bind] in Hout.
    destruct (iqr_step_nth _ _ _ _ _ _ Es Hi) as (c1 & Hi1 & Hn1 & Hk1 & Hsame1).
    destruct (IH _ _ _ _ _ Hout Hi1) as (c2 & Hi2 & Hn2 & Hk2 & Hsame2).
    exists c2. split; [exact Hi2|]. split; [congruence|]. split; [congruence|].
    intros Hnot. rewrite Hsame2, Hsame1; [reflexivity | |].
    + apply str_eqb_neq. intros ->. apply Hnot. left. reflexivity.
    + intros Hin. apply Hnot. right. exact Hin.
Qed.

Lemma handle_outliers_columns (cols : list str) :
  forall df out : DataFrame,
  Cleaning.handle_outliers round_ns df cols '"IQR" = Ok out -> columns out = columns df.
Proof.
  induction cols as [|col cols IH]; intros df out Hout.
  - injection Hout as <-. reflexivity.
  - rewrite handle_outliers_cons in Hout.
    destruct (Cleaning.iqr_step round_ns df col) as [df1|e] eqn:Es; [|discriminate].
    cbn [bind] in Hout. rewrite (IH _ _ Hout). apply (iqr_step_columns _ _ _ Es).
Qed.

(** [df.columns = [...]] renames position by position. *)
Lemma rename_map (f : str -> str) (df : DataFrame) :
  rename_columns (map f (columns df)) df = map (fun kc => (f (fst kc), snd kc)) df.
Proof.
  unfold rename_columns, columns. induction df as [|[k c] df IH]; simpl; [reflexivity|].
  rewrite IH. reflexivity.
Qed.

Lemma In_rename (f : str -> str) (df : DataFrame) (k : str) (c : column) :
  In (k, c) df -> In (f k, c) (rename_columns (map f (columns df)) df).
Proof.
  intros H. rewrite rename_map. apply (in_map (fun kc => (f (fst kc), snd kc)) _ _ H).
Qed.

Lemma clean_column_names_nth (df : DataFrame) (i : nat) (k : str) (c : column) :
  nth_error df i = Some (k, c) ->
  nth_error (Utils.clean_column_names str_lower df) i
  = Some (Utils.clean_name str_lower k, c).
Proof.
  intros H. unfold Utils.clean_column_names. rewrite rename_map, nth_error_map, H. reflexivity.
Qed.

(** The date parse, column by column: a column stays as it is or
    becomes a column of dates. *)
Lemma parse_date_nth (df df' : DataFrame) (i : nat) (k : str) (c : column) :
  Cleaning.parse_date to_datetime df = Ok df' ->
  nth_error df i = Some (k, c) ->
  exists c', nth_error df' i = Some (k, c') /\ (c' = c \/ is_number c' = false).
Proof.
  unfold Cleaning.parse_date. intros H Hi.
  destruct (has_col '"date" df) eqn:Eh.
  - destruct (get_cols '"date" df) as [|c0 [|c1 rest]]; try discriminate.
    injection H as <-. rewrite (set_col_on_label _ _ _ Eh), nth_error_on_label, Hi.
    cbn [option_map fst snd]. destruct (str_eqb k '"date").
    + eexists. split; [reflexivity|]. right. reflexivity.
    + exists c. split; [reflexivity|]. left. reflexivity.
  - injection H as <-. exists c. split; [exact Hi|]. left. reflexivity.
Qed.


(** C1.  In every cleaned table written by the Cleaner's pipeline, a
    column that was a number column in the raw table and whose mean over
    its non-null values is a number has no null left.  Columns keep
    their position, and the label is the normalized one. *)
Theorem cleaned_numeric_column_has_no_null
  (raw out : DataFrame) (path : str) (i : nat) (name : str) (v : list (option Q)) (m : Q) :
  read_csv (Cleaning.input_path base_dir) = Ok raw ->
  Cleaning.main str_lower read_csv date_suffix makedirs to_csv to_datetime round_ns base_dir
  = Ok (path, out) ->
  nth_error raw i = Some (name, NumCol v) ->
  mean v = Some m ->
  exists c, nth_error out i = Some (Utils.clean_name str_lower name, c) /\ has_null c = false.
Proof.
  intros Hread Hmain Hi Hv.
  unfold Cleaning.main, Utils.load_data in Hmain. rewrite Hread in Hmain. cbn [bind] in Hmain.
  destruct (Cleaning.describe raw); [|discriminate]. cbn [bind] in Hmain.
  pose proof (clean_column_names_nth raw i name _ Hi) as H1.
  destruct (Cleaning.parse_date to_datetime _) as [df2|] eqn:E2; [|discriminate].
  cbn [bind] in Hmain.
  destruct (parse_date_nth _ _ _ _ _ E2 H1) as (c2 & H2 & Hc2).
  destruct (Cleaning.handle_missing_values df2) as [df3|] eqn:E3; [|discriminate].
  cbn [bind] in Hmain.
  destruct (handle_missing_values_no_null _ _ _ _ _ E3 H2) as (c3 & H3 & Hnull3).
  { destruct Hc2 as [->|Hc2]; [congruence|]. destruct c2; [discriminate | exact I | exact I]. }
  destruct (Cleaning.handle_outliers round_ns df3 _ _) as [df4|] eqn:E4; [|discriminate].
  cbn [bind] in Hmain.
  destruct (handle_outliers_nth _ _ _ _ _ _ E4 H3) as (c4 & H4 & Hn4 & _).
  destruct (Cleaning.describe df4); [|discriminate]. cbn [bind] in Hmain.
  unfold Utils.save_dataframe in Hmain.
  destruct (makedirs _); [|discriminate]. cbn [bind] in Hmain.
  destruct (to_csv _ _); [|discriminate]. cbn [bind] in Hmain.
  injection Hmain as _ <-.
  exists c4. split; [exact H4|]. unfold has_null. rewrite Hn4. exact Hnull3.
Qed.

End PipelineFacts.

(* ================================================================== *)
(** * The cleaning pipeline on sample tables *)

Ltac nodup_strs :=
  repeat (constructor; [simpl; intuition discriminate|]); constructor.


Example cleaned_sample_path :
  cleaned_path = '"/srv/oil_project/data/processed/cleaned_oil_field_production_data_20250731.csv".
Proof. vm_compute. reflexivity. Qed.

Example cleaned_sample_table :
  cleaned_table =
  [ ('"date", DateCol [Some 1%Z; Some 2%Z; Some 5%Z]);
    ('"field_name", ObjCol [Some '"North"; Some '"South"; Some '"South"]);
    ('"oil_production_bbl", NumCol [Some 100; Some (5310 # 4); Some 5000]);
    ('"pump_efficiency__", NumCol [None; None; None]) ].
Proof. vm_compute. reflexivity. Qed.

(** The sample run instantiates C1: the oil column had a null and has none left. *)
Lemma cleaned_numeric_column_has_no_null_witness :
  exists c,
    nth_error cleaned_table 2
    = Some (Utils.clean_name Samples.lower_ascii_only '"Oil_Production_BBL", c)
    /\ has_null c = false.
Proof.
  apply (cleaned_numeric_column_has_no_null
           Samples.lower_ascii_only Samples.read_raw '"20250731" Samples.makedirs_ok
           Samples.to_csv_ok Samples.to_datetime Qfloor
           '"/srv/oil_project" Samples.raw_table cleaned_table cleaned_path 2
           '"Oil_Production_BBL" [Some 100; None; Some 120; Some 90; Some 5000] (5310 # 4)).
  - vm_compute. reflexivity.
  - vm_compute. reflexivity.
  - reflexivity.
  - vm_compute. reflexivity.
Defined.

(** The claim C1 as written fails: a numeric column of the raw table
    that is null throughout is written out null throughout. *)
Lemma cleaned_output_keeps_all_null_column :
  In ('"Pump_Efficiency_%", NumCol [None; None; None; None; None]) Samples.raw_table
  /\ Samples.cleaned = Ok (cleaned_path, cleaned_table)
  /\ get_col '"pump_efficiency__" cleaned_table = Some (NumCol [None; None; None])
  /\ has_null (NumCol [None; None; None]) = true.
Proof.
  split; [simpl; tauto|]. split; [vm_compute; reflexivity|].
  split; [vm_compute; reflexivity | reflexivity].
Qed.


(** On the sample the missing-value handling returns, and the efficiency
    column comes back null on the four rows kept. *)
Example handle_missing_values_sample :
  numeric_labels_pure Samples.raw_table = true
  /\ exists out,
       Cleaning.handle_missing_values Samples.raw_table = Ok out
       /\ get_cols '"Pump_Efficiency_%" out = [NumCol [None; None; None; None]].
Proof.
  split; [vm_compute; reflexivity|]. eexists. split; vm_compute; reflexivity.
Qed.



Lemma mean_fill_preserves_mean_witness :
  exists v' m',
    Cleaning.fill_col (NumCol [Some 100; None; Some 120; Some 90; Some 5000]) = NumCol v'
    /\ mean v' = Some m'
    /\ m' == 5310 # 4.
Proof.
  apply (mean_fill_preserves_mean [Some 100; None; Some 120; Some 90; Some 5000] (5310 # 4)).
  vm_compute. reflexivity.
Defined.





(* ================================================================== *)
(** * Facts about scripts/modeling.py *)

Section ModelingFacts.

Variable read_csv : str -> result DataFrame.
Variable base_dir : str.
Variable get_dummies : DataFrame -> DataFrame.
Variable Model : Type.
Variable train_test_split
  : DataFrame -> column -> result ((DataFrame * DataFrame) * (column * column)).
Variable fit : DataFrame -> column -> result Model.
Variable predict : Model -> DataFrame -> result column.
Variable feature_importances : Model -> list Q.
Variable mean_squared_error : column -> column -> result Q.
Variable r2_score : column -> column -> result Q.
Variable save_figure : Modeling.figure -> str -> result str.
Variable save_report : list Modeling.figure -> str -> result unit.

(** C7.  On a loaded table without the column oil_production_bbl,
    [preprocess_for_modeling] raises ValueError, and so does the
    Modeler's [main], with an empty log of library calls: no train/test
    split and no fit has been made. *)
Theorem modeling_without_target_raises (input_path : option str) (df : DataFrame) :
  read_csv (Modeling.default_input_path base_dir input_path) = Ok df ->
  has_col '"oil_production_bbl" df = false ->
  Modeling.preprocess_for_modeling get_dummies df
  = Raise (Exc ValueError '"oil_production_bbl")
  /\ Modeling.main read_csv base_dir get_dummies Model train_test_split fit predict
       feature_importances mean_squared_error r2_score save_figure save_report input_path
     = ([], Raise (Exc ValueError '"oil_production_bbl")).
Proof.
  intros Hread Hcol.
  assert (Hpre : Modeling.preprocess_for_modeling get_dummies df
                 = Raise (Exc ValueError '"oil_production_bbl")).
  { unfold Modeling.preprocess_for_modeling, Modeling.target_name. rewrite Hcol. reflexivity. }
  split; [exact Hpre|].
  unfold Modeling.main, Utils.load_data. rewrite Hread.
  unfold Modeling.pure_step. cbn [Modeling.bindM]. rewrite Hpre. reflexivity.
Qed.

End ModelingFacts.

(* ================================================================== *)
(** * Facts about scripts/dashboard.py *)

Section DashboardFacts.

Variable corr_matrix : DataFrame -> list (list (option Q)).
Variable pearson : list (option Q) -> list (option Q) -> option Q.

Lemma take_map_Forall {A} (p : A -> bool) (P : A -> Prop) (v : list A) :
  (forall x, p x = true -> P x) -> Forall P (take (map p v) v).
Proof.
  intros H. induction v as [|x v IH]; simpl; [constructor|].
  destruct (p x) eqn:E; [constructor; auto | exact IH].
Qed.

Lemma get_obj_Ok (n : str) (df : DataFrame) (v : list (option str)) :
  Dashboard.get_obj n df = Ok v <-> get_col n df = Some (ObjCol v).
Proof.
  unfold Dashboard.get_obj. destruct (get_col n df) as [[?|?|?]|]; split; intros H;
    try discriminate; injection H as ->; reflexivity.
Qed.

Lemma get_date_Ok (n : str) (df : DataFrame) (v : list (option Z)) :
  Dashboard.get_date n df = Ok v <-> get_col n df = Some (DateCol v).
Proof.
  unfold Dashboard.get_date. destruct (get_col n df) as [[?|?|?]|]; split; intros H;
    try discriminate; injection H as ->; reflexivity.
Qed.

Lemma eq_mask_sound (field : option str) (v : list (option str)) :
  Forall (field_matches field) (take (Dashboard.eq_mask v field) v).
Proof.
  apply take_map_Forall. intros [s|] H; [|discriminate]. destruct field as [f|]; [|discriminate].
  apply str_eqb_eq in H; subst. exists f; split; reflexivity.
Qed.

Lemma between_mask_sound (s e : Z) (d : list (option Z)) :
  Forall (date_within s e) (take (Dashboard.between_mask d s e) d).
Proof.
  apply take_map_Forall. intros [t|] H; [|discriminate].
  apply andb_true_iff in H. destruct H as [H1 H2]. apply Z.leb_le in H1, H2.
  exists t; split; [reflexivity | lia].
Qed.

(** The filter of [update_dashboard] keeps only rows of the table whose
    date lies in the range and, unless the field is 'all', whose
    field_name is the selected field. *)
Lemma filter_table_sound (df out : DataFrame) (field : option str) (s e : Z) :
  Dashboard.filter_table df field s e = Ok out ->
  (exists dates, get_col '"date" out = Some (DateCol dates)
                 /\ Forall (date_within s e) dates)
  /\ (field <> Some '"all" ->
      exists names, get_col '"field_name" out = Some (ObjCol names)
                    /\ Forall (field_matches field) names).
Proof.
  unfold Dashboard.filter_table. intros H.
  set (by_field := names <- Dashboard.get_obj '"field_name" df ;;
                   Ok (df_take (Dashboard.eq_mask names field) df)) in H.
  assert (Hby : forall df1, by_field = Ok df1 ->
            exists names, get_col '"field_name" df1 = Some (ObjCol names)
                          /\ Forall (field_matches field) names).
  { unfold by_field. intros df1 H1.
    destruct (Dashboard.get_obj '"field_name" df) as [names|] eqn:En; [|discriminate].
    cbn [bind] in H1. injection H1 as <-. apply get_obj_Ok in En.
    rewrite get_col_df_take, En. eexists; split; [reflexivity | apply eq_mask_sound]. }
  match type of H with bind ?m _ = _ => destruct m as [df1|] eqn:E1; [|discriminate] end.
  cbn [bind] in H.
  destruct (Dashboard.get_date '"date" df1) as [dates|] eqn:Ed; [|discriminate].
  cbn [bind] in H. injection H as <-. apply get_date_Ok in Ed. split.
  - rewrite get_col_df_take, Ed. eexists; split; [reflexivity | apply between_mask_sound].
  - intros Hf.
    assert (E1' : by_field = Ok df1).
    { destruct field as [f|]; [|exact E1].
      destruct (str_eqb f '"all") eqn:Ef; [|exact E1].
      apply str_eqb_eq in Ef; subst f. congruence. }
    destruct (Hby df1 E1') as (names & Hn & Hall).
    rewrite get_col_df_take, Hn. eexists; split; [reflexivity | apply take_Forall, Hall].
Qed.

(** [create_insights] asks for the top-producing field: on a table
    without a row it raises. *)
Lemma create_insights_raises_on_empty (filtered : DataFrame) :
  get_col '"field_name" filtered = Some (ObjCol []) ->
  Py.is_ok (Dashboard.create_insights pearson filtered) = false.
Proof.
  intros Hf. unfold Dashboard.create_insights.
  destruct (Dashboard.get_num '"oil_production_bbl" filtered) as [oil|]; [|reflexivity].
  cbn [bind]. destruct (Dashboard.active_well_count filtered); [|reflexivity].
  cbn [bind]. apply get_obj_Ok in Hf. rewrite Hf. reflexivity.
Qed.

(** Whenever the filter leaves no row, the callback raises. *)
Lemma update_dashboard_raises_on_empty
  (df filtered : DataFrame) (field : option str) (s e : Z) :
  Dashboard.filter_table df field s e = Ok filtered ->
  get_col '"field_name" filtered = Some (ObjCol []) ->
  Py.is_ok (Dashboard.update_dashboard corr_matrix pearson df field s e) = false.
Proof.
  intros Hfilter Hempty. unfold Dashboard.update_dashboard. rewrite Hfilter. cbn [bind].
  pose proof (create_insights_raises_on_empty _ Hempty) as Hins.
  repeat match goal with
  | |- Py.is_ok (bind ?m _) = false => destruct m; cbn [bind]; [|reflexivity]
  end.
  discriminate Hins.
Qed.

End DashboardFacts.

(** ** The dashboard on a sample table *)

Example dashboard_startup :
  Dashboard.startup (fun _ => Ok dashboard_csv) Samples.to_datetime '"/srv/oil_project" None
  = Ok (Some dashboard_table).
Proof. vm_compute. reflexivity. Qed.

(** Field North on day 1: one row, and every output is produced. *)
Example dashboard_north_day1 :
  Py.is_ok (Dashboard.update_dashboard no_corr_matrix no_pearson dashboard_table
              (Some '"North") 1 1) = true
  /\ Dashboard.create_kpis (df_take [true; false] dashboard_table)
     = Ok (Dashboard.Kpis (100 + 0) (Some ((100 + 0) / 1)) 1).
Proof. split; vm_compute; reflexivity. Qed.

(** C3 at a failing input.  Field North has its only row on day 1;
    with the range set to day 2 the filter leaves no row, the charts and
    the KPIs are built from the empty table, and [create_insights]
    raises ValueError from [idxmax], so the callback raises. *)
Theorem dashboard_empty_selection_raises :
  Dashboard.filter_table dashboard_table (Some '"North") 2 2
  = Ok (df_take [false; false] dashboard_table)
  /\ nrows (df_take [false; false] dashboard_table) = 0%nat
  /\ Dashboard.create_kpis (df_take [false; false] dashboard_table)
     = Ok (Dashboard.Kpis 0 None 0)
  /\ Dashboard.create_insights no_pearson (df_take [false; false] dashboard_table)
     = Raise (Exc ValueError '"attempt to get argmax of an empty sequence")
  /\ Dashboard.update_dashboard no_corr_matrix no_pearson dashboard_table (Some '"North") 2 2
     = Raise (Exc ValueError '"attempt to get argmax of an empty sequence").
Proof.
  split; [vm_compute; reflexivity|]. split; [vm_compute; reflexivity|].
  split; [vm_compute; reflexivity|]. split; vm_compute; reflexivity.
Qed.

(* ================================================================== *)
(** * Facts about main.py *)

Section OrchestratorFacts.

Import Orchestrator.

Variable dirs : FS -> str -> list str.
Variable clean_data : FS -> FS * result unit.
Variable perform_eda : str -> FS -> FS * result unit.
Variable train_model : str -> FS -> FS * result unit.
Variable run_dashboard : str -> FS -> FS * result unit.
Variable base_dir : str.

Let main := Orchestrator.main dirs clean_data perform_eda train_model run_dashboard base_dir.

Lemma selected_eq (steps : list str) :
  selected steps =
  (if str_in '"clean" steps then ['"clean"] else [])
  ++ (if str_in '"eda" steps then ['"eda"] else [])
  ++ (if str_in '"model" steps then ['"model"] else [])
  ++ (if str_in '"dashboard" steps then ['"dashboard"] else []).
Proof.
  unfold selected. cbn [filter].
  destruct (str_in '"clean" steps), (str_in '"eda" steps), (str_in '"model" steps),
    (str_in '"dashboard" steps); reflexivity.
Qed.

Lemma stops_at_failure_split (t : list event) :
  stops_at_failure t ->
  forall pre step e post, t = pre ++ Run step (Raise e) :: post -> post = [PrintError step e].
Proof.
  intros Hs pre. revert t Hs.
  induction pre as [|ev pre IH]; intros t Hs step e post ->; simpl in Hs.
  - exact Hs.
  - destruct ev as [s [u|e0]| | |]; try (eapply IH; [exact Hs | reflexivity]).
    destruct pre as [|ev' pre]; [discriminate Hs|].
    injection Hs as _ Hs. destruct pre; discriminate Hs.
Qed.

Ltac run_main :=
  repeat match goal with
  | |- context [clean_data ?f] => destruct (clean_data f) as [? [[]|?]]
  | |- context [get_latest_cleaned_file ?g ?f ?b] =>
      destruct (get_latest_cleaned_file g f b) as [[|? ?]|]
  | |- context [perform_eda ?p ?f] => destruct (perform_eda p f) as [? [[]|?]]
  | |- context [train_model ?p ?f] => destruct (train_model p f) as [? [[]|?]]
  | |- context [run_dashboard ?p ?f] => destruct (run_dashboard p f) as [? [[]|?]]
  end.

(** The log of [main], whatever the steps do. *)
Lemma main_trace_shape (steps : list str) (fs : FS) :
  let t := trace_of (main steps fs) in
  (exists rest, selected steps = ran t ++ rest)
  /\ stops_at_failure t
  /\ (In PrintDone t -> ran t = selected steps)
  /\ (ran t = selected steps \/ In PrintSkip t \/ exists step e, In (Run step (Raise e)) t).
Proof.
  unfold main, Orchestrator.main, seq, when, try_step, emit, return_, ret, trace_of.
  cbn [existsb]. rewrite selected_eq.
  generalize (str_in '"clean" steps), (str_in '"eda" steps), (str_in '"model" steps),
    (str_in '"dashboard" steps).
  intros bc be bm bd.
  destruct bc, be, bm, bd; cbn [orb]; run_main; cbn;
    (split; [eexists; reflexivity|]);
    (split; [try exact I; reflexivity|]);
    (split; [try reflexivity; intros H; exfalso; intuition discriminate|]);
    first [ left; reflexivity
          | right; left; simpl; tauto
          | right; right; do 2 eexists; simpl; eauto 6 ].
Qed.

(** [main] reads [args.steps] only through membership tests. *)
Lemma main_order_independent (steps steps' : list str) (fs : FS) :
  (forall step, str_in step steps' = str_in step steps) ->
  main steps' fs = main steps fs.
Proof.
  intros H. unfold main, Orchestrator.main. cbn [existsb]. rewrite !H. reflexivity.
Qed.

Lemma str_in_permutation (steps steps' : list str) (step : str) :
  Permutation steps steps' -> str_in step steps' = str_in step steps.
Proof.
  intros Hp. destruct (str_in step steps) eqn:E.
  - apply str_in_In. apply str_in_In in E. eapply Permutation_in; eassumption.
  - destruct (str_in step steps') eqn:E'; [|reflexivity].
    apply str_in_In in E'. apply Permutation_sym in Hp.
    apply (Permutation_in _ Hp), str_in_In in E'. congruence.
Qed.

(** C8.  Whatever list of step names is given and in whatever order,
    [main] runs the selected steps in the order clean, eda, model,
    dashboard.  It first runs clean, if selected.  If clean raised, the
    exception is printed and the run ends.  Otherwise, when none of
    eda, model, dashboard is selected the run is complete; when one is,
    [get_latest_cleaned_file] is asked for the cleaned file: without one
    the skip message is printed and none of the three is called, with
    one the selected ones are run in order on that file.  Running in
    order stops at the first step that raises, whose exception is
    printed; the completion message is printed when every selected step
    returned.  Reordering the arguments changes nothing. *)
Theorem main_runs_selected_steps_in_fixed_order (steps : list str) (fs : FS) :
  let chosen := filter (fun s : str * (FS -> FS * result unit) => str_in (fst s) steps) in
  let first := chosen [('"clean", clean_data)] in
  let later := fun latest_file : str =>
    chosen [ ('"eda", perform_eda latest_file); ('"model", train_model latest_file);
             ('"dashboard", run_dashboard latest_file) ] in
  let downstream :=
    str_in '"eda" steps || str_in '"model" steps || str_in '"dashboard" steps in
  (forall latest_file, map fst (first ++ later latest_file) = selected steps)
  /\ (let '(fs1, t1, ok1) := run_in_order first fs in
      trace_of (main steps fs)
      = if negb ok1 then t1
        else if negb downstream then t1 ++ [PrintDone]
        else match get_latest_cleaned_file dirs fs1 base_dir with
             | Some (c :: p) =>
                 let '(_, t2, ok2) := run_in_order (later (c :: p)) fs1 in
                 t1 ++ t2 ++ (if ok2 then [PrintDone] else [])
             | _ => t1 ++ [PrintSkip]
             end)
  /\ (forall steps', Permutation steps steps' -> main steps' fs = main steps fs).
Proof.
  cbv zeta. split; [|split].
  - intros latest_file. rewrite selected_eq. cbn [filter fst app].
    destruct (str_in '"clean" steps), (str_in '"eda" steps), (str_in '"model" steps),
      (str_in '"dashboard" steps); reflexivity.
  - unfold main, Orchestrator.main, seq, when, try_step, emit, return_, ret, trace_of.
    cbn [existsb filter fst].
    generalize (str_in '"clean" steps), (str_in '"eda" steps), (str_in '"model" steps),
      (str_in '"dashboard" steps).
    intros bc be bm bd.
    destruct bc, be, bm, bd; cbn [orb negb run_in_order]; run_main; cbn; reflexivity.
  - intros steps' Hp. apply main_order_independent. intros step.
    apply str_in_permutation, Hp.
Qed.

End OrchestratorFacts.

(* ================================================================== *)
(** * The orchestrator, the modeler and the name cleaner on samples *)

Example glob_two_files (dirs : Orchestrator.FS -> str -> list str) :
  Orchestrator.glob dirs (two_files 100 200) processed_dir
                    '"cleaned_oil_field_production_data_" '".csv"
  = [january_path; july_path].
Proof. vm_compute. reflexivity. Qed.

(** Written in January and in July and never touched again: the July
    file is the latest. *)
Example latest_when_mtimes_follow_names (dirs : Orchestrator.FS -> str -> list str) :
  Orchestrator.get_latest_cleaned_file dirs (two_files 100 200) project_dir = Some july_path.
Proof. vm_compute. reflexivity. Qed.

(** Both files carrying the same time, as after a fresh copy of the
    directory: the first one listed is returned. *)
Example latest_when_mtimes_equal (dirs : Orchestrator.FS -> str -> list str) :
  Orchestrator.get_latest_cleaned_file dirs (two_files 100 100) project_dir = Some january_path.
Proof. vm_compute. reflexivity. Qed.

(** With the two files, [get_latest_cleaned_file] answers by the
    modification times alone. *)
Lemma latest_of_two_files (dirs : Orchestrator.FS -> str -> list str)
  (mtime_january mtime_july : Q) :
  Orchestrator.get_latest_cleaned_file dirs (two_files mtime_january mtime_july) project_dir
  = Some (if Qlt_le_dec mtime_january mtime_july then july_path else january_path).
Proof.
  unfold Orchestrator.get_latest_cleaned_file.
  change (Orchestrator.glob dirs (two_files mtime_january mtime_july)
            (Utils.path_join (Utils.path_join project_dir '"data") '"processed")
            '"cleaned_oil_field_production_data_" '".csv")
    with [january_path; july_path].
  change (Orchestrator.py_max [january_path; july_path]
            (Orchestrator.getmtime (two_files mtime_january mtime_july)))
    with (if Qlt_le_dec mtime_january mtime_july then Ok july_path
          else @Ok str january_path).
  destruct (Qlt_le_dec mtime_january mtime_july); reflexivity.
Qed.

(** C2 at a failing input.  The directory holds exactly the two files,
    and the 20250101 file was rewritten after the 20250731 file: the
    function returns the 20250101 file. *)
Theorem latest_cleaned_file_is_by_mtime (dirs : Orchestrator.FS -> str -> list str) :
  Orchestrator.glob dirs (two_files 200 100) processed_dir
                    '"cleaned_oil_field_production_data_" '".csv"
  = [january_path; july_path]
  /\ Orchestrator.get_latest_cleaned_file dirs (two_files 200 100) project_dir
     = Some january_path
  /\ january_path <> july_path.
Proof.
  split; [vm_compute; reflexivity|]. split; [vm_compute; reflexivity|].
  intros H. apply str_eqb_eq in H. vm_compute in H. discriminate H.
Qed.

Example orchestrator_stops_at_model :
  Orchestrator.trace_of
    (Orchestrator.main no_pattern_dirs clean_ok step_ok model_fails step_ok project_dir
       ['"dashboard"; '"model"; '"clean"] [])
  = [ Orchestrator.Run '"clean" (Ok tt);
      Orchestrator.Run '"model" (Raise (Exc ValueError '"oil_production_bbl"));
      Orchestrator.PrintError '"model" (Exc ValueError '"oil_production_bbl") ].
Proof. vm_compute. reflexivity. Qed.

Example orchestrator_runs_all :
  Orchestrator.trace_of
    (Orchestrator.main no_pattern_dirs clean_ok step_ok step_ok step_ok project_dir
       ['"dashboard"; '"eda"; '"model"; '"clean"] [])
  = [ Orchestrator.Run '"clean" (Ok tt); Orchestrator.Run '"eda" (Ok tt);
      Orchestrator.Run '"model" (Ok tt); Orchestrator.Run '"dashboard" (Ok tt);
      Orchestrator.PrintDone ].
Proof. vm_compute. reflexivity. Qed.

Example orchestrator_without_cleaned_file :
  Orchestrator.trace_of
    (Orchestrator.main no_pattern_dirs clean_ok step_ok step_ok step_ok project_dir ['"eda"; '"model"] [])
  = [ Orchestrator.PrintSkip ].
Proof. vm_compute. reflexivity. Qed.

Lemma modeling_without_target_raises_witness :
  Modeling.preprocess_for_modeling (fun df => df) no_target_table
  = Raise (Exc ValueError '"oil_production_bbl")
  /\ Modeling.main (fun _ => Ok no_target_table) project_dir (fun df => df) unit
       identity_split (fun _ _ => Ok tt) (fun _ _ => Ok (NumCol [])) (fun _ => [])
       (fun _ _ => Ok 0) (fun _ _ => Ok 0) (fun _ name => Ok name) (fun _ _ => Ok tt)
       (Some july_path)
     = ([], Raise (Exc ValueError '"oil_production_bbl")).
Proof.
  apply (modeling_without_target_raises (fun _ => Ok no_target_table) project_dir
           (fun df => df) unit identity_split (fun _ _ => Ok tt) (fun _ _ => Ok (NumCol []))
           (fun _ => []) (fun _ _ => Ok 0) (fun _ _ => Ok 0) (fun _ name => Ok name)
           (fun _ _ => Ok tt) (Some july_path) no_target_table).
  - reflexivity.
  - vm_compute. reflexivity.
Defined.

(** With the target column present the modeler goes on to split and fit. *)
Example modeling_with_target_log :
  fst (Modeling.main (fun _ => Ok dashboard_csv) project_dir (fun df => df) unit
         identity_split (fun _ _ => Ok tt) (fun _ _ => Ok (NumCol [])) (fun _ => [])
         (fun _ _ => Ok 0) (fun _ _ => Ok 0) (fun _ name => Ok name) (fun _ _ => Ok tt)
         (Some july_path))
  = [ Modeling.TrainTestSplit; Modeling.Fit; Modeling.Predict;
      Modeling.MeanSquaredError; Modeling.R2Score;
      Modeling.SaveFigure '"predictions_vs_actual";
      Modeling.SaveFigure '"feature_importance";
      Modeling.SaveReport '"modeling_report" ].
Proof. vm_compute. reflexivity. Qed.

Lemma lower_ascii_only_no_upper (s : str) :
  Forall (fun c => Utils.is_ascii_upper c = false) (Samples.lower_ascii_only s).
Proof.
  unfold Samples.lower_ascii_only. induction s as [|c s IH]; simpl; constructor; [|exact IH].
  unfold Utils.ascii_lower. destruct (Utils.is_ascii_upper c) eqn:E; [|exact E].
  unfold Utils.is_ascii_upper in *. apply andb_true_iff in E. destruct E as [E1 E2].
  apply N.leb_le in E1, E2. apply andb_false_iff. right. apply N.leb_gt. lia.
Qed.

Example clean_column_names_sample :
  columns (Utils.clean_column_names Samples.lower_ascii_only Samples.raw_table)
  = ['"date"; '"field_name"; '"oil_production_bbl"; '"pump_efficiency__"].
Proof. vm_compute. reflexivity. Qed.

Lemma clean_column_names_idempotent_witness :
  columns (Utils.clean_column_names Samples.lower_ascii_only
             (Utils.clean_column_names Samples.lower_ascii_only Samples.raw_table))
  = columns (Utils.clean_column_names Samples.lower_ascii_only Samples.raw_table).
Proof.
  apply (clean_column_names_idempotent Samples.lower_ascii_only).
  - intros s _. reflexivity.
  - apply lower_ascii_only_no_upper.
Defined.

(** The claim C8 as written fails.  With eda and model selected and no
    cleaned file in data/processed, no step raises and yet neither
    selected step is called: [main] prints the skip message and
    returns. *)
Lemma selected_steps_skipped_without_cleaned_file :
  let steps := ['"eda"; '"model"] in
  let t := Orchestrator.trace_of
             (Orchestrator.main no_pattern_dirs clean_ok step_ok step_ok step_ok
                project_dir steps []) in
  Orchestrator.selected steps = ['"eda"; '"model"]
  /\ Orchestrator.get_latest_cleaned_file no_pattern_dirs [] project_dir = None
  /\ t = [Orchestrator.PrintSkip]
  /\ Orchestrator.ran t = []
  /\ Orchestrator.ran t <> Orchestrator.selected steps.
Proof.
  cbv zeta. split; [vm_compute; reflexivity|]. split; [vm_compute; reflexivity|].
  split; [vm_compute; reflexivity|]. split; [vm_compute; reflexivity|].
  vm_compute. discriminate.
Qed.

(** A run where cleaning works and the modeler raises, read through C8. *)
Example main_runs_selected_steps_sample :
  let steps := ['"dashboard"; '"model"; '"clean"] in
  Orchestrator.selected steps = ['"clean"; '"model"; '"dashboard"]
  /\ Orchestrator.trace_of
       (Orchestrator.main no_pattern_dirs clean_ok step_ok model_fails step_ok
          project_dir steps [])
     = [ Orchestrator.Run '"clean" (Ok tt);
         Orchestrator.Run '"model" (Raise (Exc ValueError '"oil_production_bbl"));
         Orchestrator.PrintError '"model" (Exc ValueError '"oil_production_bbl") ].
Proof. split; vm_compute; reflexivity. Qed.

(* ================================================================== *)
(** * More about main.py: the file lookup *)

Section LookupFacts.

Import Orchestrator.

Variable dirs : FS -> str -> list str.







(** *** The directory part of the pattern *)

Lemma has_magic_app (a b : str) : has_magic (a ++ b) = has_magic a || has_magic b.
Proof. unfold has_magic. apply existsb_app. Qed.

Lemma path_join_cases (a b : str) :
  Utils.path_join a b = b
  \/ (a <> [] /\ (Utils.path_join a b = a ++ b \/ Utils.path_join a b = a ++ 47%N :: b)).
Proof.
  unfold Utils.path_join.
  assert (G : match rev a with
              | [] => b
              | 47%N :: _ => a ++ b
              | _ => a ++ 47%N :: b
              end = b
              \/ (a <> [] /\ (match rev a with
                              | [] => b
                              | 47%N :: _ => a ++ b
                              | _ => a ++ 47%N :: b
                              end = a ++ b
                              \/ match rev a with
                                 | [] => b
                                 | 47%N :: _ => a ++ b
                                 | _ => a ++ 47%N :: b
                                 end = a ++ 47%N :: b))).
  { destruct (rev a) as [|x l] eqn:E; [left; reflexivity|]. right.
    assert (Ha : a <> []) by (intros ->; discriminate).
    split; [exact Ha|].
    destruct x; try (right; reflexivity).
    repeat (destruct p; try (right; reflexivity)). left. reflexivity. }
  destruct b as [|c b]; [exact G|].
  destruct c; try exact G. repeat (destruct p; try exact G). left. reflexivity.
Qed.

Lemma has_magic_path_join (a b : str) :
  has_magic b = false -> a <> [] -> has_magic (Utils.path_join a b) = has_magic a
                                    \/ Utils.path_join a b = b.
Proof.
  intros Hb Ha. destruct (path_join_cases a b) as [H|[_ [H|H]]]; [right; exact H | |];
    left; rewrite H, has_magic_app; cbn [has_magic existsb] in *.
  - fold (has_magic b). rewrite Hb. apply orb_false_r.
  - fold (has_magic b). rewrite Hb. apply orb_false_r.
Qed.









End LookupFacts.

(* ================================================================== *)
(** * The Cleaner's output and the orchestrator's lookup *)

Section HandOver.

Import Orchestrator.

Variable dirs : FS -> str -> list str.
Variable str_lower : str -> str.
Variable read_csv : str -> result DataFrame.
Variable date_suffix : str.
Variable makedirs : str -> result unit.
Variable to_csv : DataFrame -> str -> result unit.
Variable to_datetime : column -> list (option Z).
Variable round_ns : Q -> Z.
Variable base_dir : str.

Let data_dir : str := Utils.path_join (Utils.path_join base_dir '"data") '"processed".


End HandOver.

Section AfterClean.

Import Orchestrator.

Variable dirs : FS -> str -> list str.
Variable clean_data : FS -> FS * result unit.
Variable perform_eda : str -> FS -> FS * result unit.
Variable train_model : str -> FS -> FS * result unit.
Variable run_dashboard : str -> FS -> FS * result unit.
Variable base_dir : str.

Let data_dir : str := Utils.path_join (Utils.path_join base_dir '"data") '"processed".


End AfterClean.


(** The file written by the sample run is found again. *)
Example cleaned_sample_is_found :
  Orchestrator.get_latest_cleaned_file no_pattern_dirs
    [Orchestrator.File processed_dir july_file (Some 300)] project_dir
  = Some cleaned_path.
Proof. vm_compute. reflexivity. Qed.


(* ================================================================== *)
(** * More about scripts/cleaning.py: missing values *)

Section MissingValueFacts.

(** Two tables with the same distinct labels and the same column under
    each label are the same table. *)
Lemma frame_ext (d1 d2 : DataFrame) :
  columns d1 = columns d2 -> NoDup (columns d1) ->
  (forall n, get_col n d1 = get_col n d2) -> d1 = d2.
Proof.
  revert d2. induction d1 as [|[k c] d1 IH]; intros [|[k' c'] d2] Hc Hnd Hg;
    simpl in Hc; try discriminate; [reflexivity|].
  injection Hc as <- Hc. inversion Hnd as [|? ? Hk Hnd']; subst.
  pose proof (Hg k) as Hk0. simpl in Hk0. rewrite str_eqb_refl in Hk0. injection Hk0 as <-.
  f_equal. apply IH; [exact Hc | exact Hnd' |].
  intros n. specialize (Hg n). simpl in Hg.
  destruct (str_eqb k n) eqn:E; [|exact Hg].
  apply str_eqb_eq in E; subst n.
  rewrite (get_col_None k d1), (get_col_None k d2); [reflexivity | |].
  - destruct (has_col k d2) eqn:E; [|reflexivity].
    apply str_in_In in E. rewrite <- Hc in E. contradiction.
  - destruct (has_col k d1) eqn:E; [|reflexivity].
    apply str_in_In in E. contradiction.
Qed.

Lemma columns_fill_step (df : DataFrame) (m : str) :
  columns (fill_one df m) = columns df.
Proof.
  unfold fill_one. destruct (get_col m df) as [c|] eqn:E; [|reflexivity].
  apply columns_set_col. eapply get_col_has; exact E.
Qed.

Lemma columns_fill_loop (ns : list str) (df : DataFrame) :
  columns (fold_left fill_one ns df) = columns df.
Proof.
  revert df. induction ns as [|m ns IH]; intros df; simpl; [reflexivity|].
  rewrite IH. apply columns_fill_step.
Qed.

(** With distinct labels every [df[col]] of the fill loop is a Series. *)
Lemma fill_step_distinct (df : DataFrame) (col : str) :
  NoDup (columns df) -> has_col col df = true ->
  Cleaning.fill_step (Ok df) col = Ok (fill_one df col).
Proof.
  intros Hnd Hc. unfold Cleaning.fill_step, fill_one. cbn [bind].
  rewrite (get_cols_NoDup col df Hnd).
  destruct (get_col_Some _ _ Hc) as [c ->]. reflexivity.
Qed.

Lemma fill_loop_distinct (ns : list str) :
  forall df : DataFrame,
  NoDup (columns df) -> (forall n, In n ns -> has_col n df = true) ->
  fold_left Cleaning.fill_step ns (Ok df) = Ok (fold_left fill_one ns df).
Proof.
  induction ns as [|n ns IH]; intros df Hnd Hin; cbn [fold_left]; [reflexivity|].
  rewrite (fill_step_distinct df n Hnd (Hin n (or_introl eq_refl))). apply IH.
  - rewrite columns_fill_step. exact Hnd.
  - intros m Hm. unfold has_col. rewrite columns_fill_step. apply Hin. right. exact Hm.
Qed.

Lemma get_col_fill_step_other (n m : str) (df : DataFrame) :
  str_eqb m n = false -> get_col n (fill_one df m) = get_col n df.
Proof.
  intros E. unfold fill_one. destruct (get_col m df); [|reflexivity].
  rewrite get_col_set_col, E. reflexivity.
Qed.

Lemma get_col_fill_step_same (n : str) (df : DataFrame) (c : column) :
  get_col n df = Some c -> get_col n (fill_one df n) = Some (Cleaning.fill_col c).
Proof.
  intros H. unfold fill_one. rewrite H, get_col_set_col, str_eqb_refl. reflexivity.
Qed.

(** The fill loop on distinct labels, read at one label. *)
Lemma get_col_fill_loop (ns : list str) (n : str) :
  forall (df : DataFrame) (c : column),
  get_col n df = Some c ->
  get_col n (fold_left fill_one ns df)
  = Some (if str_in n ns then Cleaning.fill_col c else c).
Proof.
  induction ns as [|m ns IH]; intros df c H; simpl; [exact H|].
  rewrite (str_eqb_sym n m). destruct (str_eqb m n) eqn:E; simpl.
  - apply str_eqb_eq in E; subst m.
    rewrite (IH _ _ (get_col_fill_step_same _ _ _ H)), fill_col_idempotent.
    destruct (str_in n ns); reflexivity.
  - apply IH. rewrite get_col_fill_step_other; assumption.
Qed.

Lemma get_col_fill_loop_None (ns : list str) (n : str) (df : DataFrame) :
  get_col n df = None -> get_col n (fold_left fill_one ns df) = None.
Proof.
  intros H.
  assert (Hh : has_col n (fold_left fill_one ns df) = false).
  { unfold has_col. rewrite columns_fill_loop.
    destruct (str_in n (columns df)) eqn:E; [|reflexivity].
    destruct (get_col_Some n df E) as [c Hc]. congruence. }
  apply get_col_None, Hh.
Qed.

Lemma get_col_map_snd (f : column -> column) (n : str) (df : DataFrame) :
  get_col n (map (fun kc => (fst kc, f (snd kc))) df) = option_map f (get_col n df).
Proof.
  induction df as [|[k c] df IH]; simpl; [reflexivity|].
  destruct (str_eqb k n); [reflexivity | exact IH].
Qed.

Lemma columns_map_snd (f : column -> column) (df : DataFrame) :
  columns (map (fun kc => (fst kc, f (snd kc))) df) = columns df.
Proof. unfold columns. rewrite map_map. reflexivity. Qed.

(** With distinct labels the fill loop is a pass over the columns. *)
Lemma fill_loop_map (df : DataFrame) :
  NoDup (columns df) ->
  fold_left fill_one (select_dtypes_include_number df) df
  = map (fun kc => (fst kc, Cleaning.fill_col (snd kc))) df.
Proof.
  intros Hnd. apply frame_ext.
  - rewrite columns_fill_loop, columns_map_snd. reflexivity.
  - rewrite columns_fill_loop. exact Hnd.
  - intros n. rewrite get_col_map_snd.
    destruct (get_col n df) as [c|] eqn:E.
    + rewrite (get_col_fill_loop _ _ _ _ E). simpl. f_equal.
      destruct (str_in n (select_dtypes_include_number df)) eqn:Ein; [reflexivity|].
      destruct c as [v| |]; try reflexivity.
      assert (Hin : str_in n (select_dtypes_include_number df) = true).
      { apply str_in_In. eapply select_include_In; [apply get_col_In_inv, E | reflexivity]. }
      congruence.
    + apply get_col_fill_loop_None, E.
Qed.

Lemma handle_missing_values_shape (df : DataFrame) :
  NoDup (columns df) ->
  let filled := map (fun kc => (fst kc, Cleaning.fill_col (snd kc))) df in
  Cleaning.handle_missing_values df = Ok (df_take (kept_rows filled) filled).
Proof.
  intros Hnd filled. unfold Cleaning.handle_missing_values.
  rewrite (fill_loop_distinct _ df Hnd) by (intros n Hn; apply select_include_has, Hn).
  rewrite (fill_loop_map df Hnd). reflexivity.
Qed.

Lemma columns_df_take (mask : list bool) (df : DataFrame) :
  columns (df_take mask df) = columns df.
Proof. unfold df_take. apply columns_map_snd. Qed.

(** X4.  On a table with distinct labels [handle_missing_values]
    returns, and keeps the labels, their order and which columns are
    numbers; it replaces each number column by the column filled with
    its own mean and then cuts every column by one and the same row
    mask, so rows stay aligned. *)
Theorem handle_missing_values_fills_then_cuts (df : DataFrame) :
  NoDup (columns df) ->
  let filled := map (fun kc => (fst kc, Cleaning.fill_col (snd kc))) df in
  let out :=
    map (fun kc => (fst kc, col_take (kept_rows filled) (Cleaning.fill_col (snd kc)))) df in
  Cleaning.handle_missing_values df = Ok out
  /\ columns out = columns df
  /\ map (fun kc => is_number (snd kc)) out = map (fun kc => is_number (snd kc)) df.
Proof.
  intros Hnd filled out. rewrite (handle_missing_values_shape df Hnd). fold filled.
  assert (E : df_take (kept_rows filled) filled = out).
  { unfold df_take, filled, out. rewrite map_map. reflexivity. }
  split; [rewrite E; reflexivity | split].
  - rewrite <- E, columns_df_take. apply columns_map_snd.
  - unfold out. rewrite map_map. apply map_ext. intros [k c]; simpl. destruct c; reflexivity.
Qed.

Lemma col_isnull_take (mask : list bool) (c : column) :
  col_isnull (col_take mask c) = take mask (col_isnull c).
Proof.
  assert (G : forall A (v : list (option A)), isnull (take mask v) = take mask (isnull v)).
  { intros A v. revert v. induction mask as [|b mask IH]; intros [|o v]; simpl;
      try reflexivity; destruct b; simpl; try rewrite IH; reflexivity. }
  destruct c; simpl; apply G.
Qed.

Lemma length_take_same {A B} (mask : list bool) (v : list A) (w : list B) :
  length v = length w -> length (take mask v) = length (take mask w).
Proof.
  revert v w. induction mask as [|b mask IH]; intros [|x v] [|y w] H; simpl in *;
    try discriminate; try reflexivity; destruct b; simpl; auto.
Qed.

Lemma col_len_fill (c : column) : col_len (Cleaning.fill_col c) = col_len c.
Proof.
  destruct c as [v| |]; try reflexivity. unfold col_len; simpl.
  destruct (mean v); simpl; [|reflexivity]. unfold isnull. rewrite !length_map. reflexivity.
Qed.

Lemma aligned_fill (df : DataFrame) :
  aligned df -> aligned (map (fun kc => (fst kc, Cleaning.fill_col (snd kc))) df).
Proof.
  intros Ha kc Hin. apply in_map_iff in Hin. destruct Hin as ([k c] & <- & Hin).
  pose proof (Ha _ Hin) as H. cbn [snd fst] in *. rewrite col_len_fill, H.
  destruct df as [|[k0 c0] df]; [destruct Hin|]. cbn [map nrows fst snd].
  rewrite col_len_fill. reflexivity.
Qed.

Lemma aligned_take (mask : list bool) (df : DataFrame) :
  aligned df -> aligned (df_take mask df).
Proof.
  intros Ha kc Hin. unfold df_take in *. apply in_map_iff in Hin.
  destruct Hin as ([k c] & <- & Hin). simpl.
  destruct df as [|[k0 c0] df]; [destruct Hin|]. simpl.
  unfold col_len. rewrite !col_isnull_take. apply length_take_same.
  pose proof (Ha _ Hin) as H1. pose proof (Ha (k0, c0) (or_introl eq_refl)) as H0.
  unfold col_len in *. simpl in *. congruence.
Qed.

Lemma take_all_true {A} (f : nat -> bool) (n : nat) :
  forall (a : nat) (v : list A),
  (forall i, f i = true) -> (length v <= n)%nat -> take (map f (seq a n)) v = v.
Proof.
  induction n as [|n IH]; intros a v Hf Hlen.
  - destruct v; [reflexivity | simpl in Hlen; lia].
  - destruct v as [|x v]; simpl; [destruct (f a); reflexivity|].
    rewrite Hf, IH; [reflexivity | exact Hf | simpl in Hlen; lia].
Qed.

Lemma no_null_nth {A} (v : list (option A)) (i : nat) :
  existsb (fun b => b) (isnull v) = false -> nth i (isnull v) false = false.
Proof.
  revert i. induction v as [|[x|] v IH]; intros [|i] H; simpl in *;
    try reflexivity; try discriminate. apply IH, H.
Qed.

Lemma has_null_nth (c : column) (i : nat) :
  has_null c = false -> nth i (col_isnull c) false = false.
Proof. unfold has_null. destruct c; simpl; apply no_null_nth. Qed.

(** Filling, cutting and filling again is filling and cutting. *)
Lemma fill_take_fill (mask : list bool) (c : column) :
  Cleaning.fill_col (col_take mask (Cleaning.fill_col c))
  = col_take mask (Cleaning.fill_col c).
Proof.
  destruct c as [v| |]; try reflexivity. simpl.
  destruct (mean v) as [x|] eqn:E.
  - f_equal. apply fillna_full.
    apply (col_take_no_null mask (NumCol (fillna v (Some x)))), (fillna_no_null v x).
  - cbn [fillna]. f_equal. apply fillna_all_null_mean, take_Forall, isnull_all_null.
    unfold mean in E. destruct (non_null v); [reflexivity | discriminate].
Qed.

Lemma select_exclude_inv (n : str) (df : DataFrame) :
  In n (select_dtypes_exclude_number df) -> exists c, In (n, c) df /\ is_number c = false.
Proof.
  unfold select_dtypes_exclude_number, columns. rewrite in_map_iff.
  intros ([k c] & <- & H). apply filter_In in H. destruct H as [Hin Hc].
  exists c. split; [exact Hin | apply negb_true_iff, Hc].
Qed.

(** In the result of [handle_missing_values] no column other than a
    numeric one holds a null. *)
Lemma handle_missing_values_text_complete (df out : DataFrame) (n : str) (c : column) :
  Cleaning.handle_missing_values df = Ok out ->
  In (n, c) out -> is_number c = false ->
  has_null c = false.
Proof.
  unfold Cleaning.handle_missing_values. intros Hout Hin Hc.
  destruct (fold_left Cleaning.fill_step _ (Ok df)) as [filled|e]; [|discriminate].
  cbn [bind] in Hout. injection Hout as <-.
  unfold Cleaning.dropna, df_take in Hin. apply in_map_iff in Hin.
  destruct Hin as ([k c1] & Heq & Hin1). cbn [fst snd] in Heq. injection Heq as -> <-.
  assert (Hc1 : is_number c1 = false) by (destruct c1; simpl in *; congruence).
  apply (dropna_complete _ _ n); [exact Hin1|].
  eapply select_exclude_In; eassumption.
Qed.

(** X5.  [handle_missing_values] is idempotent on a table with distinct
    labels and aligned columns: a second call fills nothing and drops no
    row. *)
Theorem handle_missing_values_idempotent (df : DataFrame) :
  NoDup (columns df) -> aligned df ->
  exists out,
    Cleaning.handle_missing_values df = Ok out
    /\ Cleaning.handle_missing_values out = Ok out.
Proof.
  intros Hnd Hal.
  pose proof (handle_missing_values_shape df Hnd) as Hs. cbv zeta in Hs.
  set (filled := map (fun kc => (fst kc, Cleaning.fill_col (snd kc))) df) in *.
  set (out := df_take (kept_rows filled) filled) in *.
  exists out. split; [exact Hs|].
  assert (Hndo : NoDup (columns out)).
  { unfold out. rewrite columns_df_take. unfold filled. rewrite columns_map_snd. exact Hnd. }
  assert (Halo : aligned out) by (apply aligned_take, aligned_fill, Hal).
  assert (Hfix : map (fun kc => (fst kc, Cleaning.fill_col (snd kc))) out = out).
  { rewrite <- (map_id out) at 2. apply map_ext_in. intros [k c] Hin. simpl. f_equal.
    unfold out, df_take, filled in Hin. rewrite map_map in Hin.
    apply in_map_iff in Hin. destruct Hin as ([k0 c0] & Heq & _). simpl in Heq.
    injection Heq as _ <-. apply fill_take_fill. }
  rewrite (handle_missing_values_shape out Hndo). cbv zeta. rewrite Hfix. f_equal.
  unfold df_take. transitivity (map (fun kc : str * column => kc) out); [|apply map_id].
  apply map_ext_in. intros [k c] Hin. simpl. f_equal.
  assert (Hmask : forall i,
            Cleaning.row_complete out (select_dtypes_exclude_number out) i = true).
  { intros i. unfold Cleaning.row_complete. apply forallb_forall. intros [k' c'] Hin'.
    cbn [fst snd]. destruct (str_in k' (select_dtypes_exclude_number out)) eqn:Es;
      [|reflexivity].
    cbn [negb orb]. apply negb_true_iff, has_null_nth.
    apply str_in_In in Es. destruct (select_exclude_inv _ _ Es) as (c'' & Hin'' & Hc'').
    assert (c'' = c') as ->.
    { pose proof (get_col_In _ _ _ Hndo Hin') as G1.
      pose proof (get_col_In _ _ _ Hndo Hin'') as G2. congruence. }
    apply (handle_missing_values_text_complete df out k' c' Hs Hin' Hc''). }
  pose proof (Halo _ Hin) as Hlen. simpl in Hlen. unfold kept_rows.
  unfold col_len in Hlen.
  destruct c as [v|v|v]; simpl in *; f_equal; apply take_all_true; try exact Hmask;
    unfold isnull in Hlen; rewrite length_map in Hlen; lia.
Qed.

(** X6.  [handle_missing_values] on a table with distinct labels
    returns a table in which no text or date column holds a null: every
    row with a null in such a column has been dropped. *)
Theorem handle_missing_values_drops_incomplete_rows (df : DataFrame) :
  NoDup (columns df) ->
  exists out,
    Cleaning.handle_missing_values df = Ok out
    /\ forall n c, In (n, c) out -> is_number c = false -> has_null c = false.
Proof.
  intros Hnd. eexists. split; [apply (handle_missing_values_shape df Hnd)|].
  intros n c. apply (handle_missing_values_text_complete df).
  apply (handle_missing_values_shape df Hnd).
Qed.

End MissingValueFacts.

(* ================================================================== *)
(** * More about scripts/cleaning.py: outliers *)

Section OutlierFacts.

Variable round_ns : Q -> Z.

(** X7.  When [handle_outliers] with the IQR method returns, the table
    has the same labels in the same order, and column by column: the
    nulls are in the same places, a number column is still a number
    column, text still text and dates still dates, and a column whose
    label is not listed is exactly as before. *)
Theorem handle_outliers_touches_listed_values_only
  (df out : DataFrame) (cols : list str) :
  Cleaning.handle_outliers round_ns df cols '"IQR" = Ok out ->
  columns out = columns df
  /\ forall i k c, nth_error df i = Some (k, c) ->
       exists c', nth_error out i = Some (k, c')
                  /\ col_isnull c' = col_isnull c
                  /\ col_kind c' = col_kind c
                  /\ (~ In k cols -> c' = c).
Proof.
  intros H. split; [apply (handle_outliers_columns round_ns cols df out H)|].
  intros i k c Hi. apply (handle_outliers_nth round_ns cols df out i k c H Hi).
Qed.







(** X11.  With a method other than "IQR" and "zscore", [handle_outliers]
    returns the table unchanged, whatever the listed labels are. *)
Theorem handle_outliers_unknown_method (df : DataFrame) (cols : list str) (method : str) :
  method <> '"IQR" -> method <> '"zscore" ->
  Cleaning.handle_outliers round_ns df cols method = Ok df.
Proof.
  intros H1 H2. apply str_eqb_neq in H1, H2. unfold Cleaning.handle_outliers.
  induction cols as [|col cols IH]; [reflexivity|].
  cbn [fold_left]. unfold Cleaning.outlier_step at 2. cbn [bind]. rewrite H1, H2. exact IH.
Qed.

End OutlierFacts.

Section CleanerErrors.

Variable str_lower : str -> str.
Variable read_csv : str -> result DataFrame.
Variable date_suffix : str.
Variable makedirs : str -> result unit.
Variable to_csv : DataFrame -> str -> result unit.
Variable to_datetime : column -> list (option Z).
Variable round_ns : Q -> Z.
Variable base_dir : str.






End CleanerErrors.

Section ZscoreFacts.

Lemma length_zscore_lt3 (v : list (option Q)) : length (Cleaning.zscore_lt3 v) = length v.
Proof.
  unfold Cleaning.zscore_lt3.
  destruct (existsb (fun b => b) (isnull v)) eqn:E; rewrite length_map; [reflexivity|].
  apply non_null_isnull, E.
Qed.

Lemma where_kept_or_other (v : list (option Q)) (other : option Q) :
  forall cond, length cond = length v ->
  Forall2 (fun x y => y = x \/ y = other) v (Cleaning.where_ v cond other).
Proof.
  induction v as [|x v IH]; intros [|c cond] H; simpl in *; try discriminate; constructor.
  - destruct c; [left | right]; reflexivity.
  - apply IH. congruence.
Qed.

Lemma where_all_false (v : list (option Q)) (other : option Q) :
  Cleaning.where_ v (map (fun _ => false) v) other = map (fun _ => other) v.
Proof. induction v as [|x v IH]; simpl; [reflexivity | rewrite IH; reflexivity]. Qed.

(** X10.  With the z-score method a listed label carried by one
    column, a number column, comes back with every cell either kept or
    replaced by the column mean, and a column holding a null comes back
    with every cell replaced by the mean (the scores are then all
    NaN). *)
Theorem zscore_step_keeps_or_replaces (df : DataFrame) (col : str) (v : list (option Q)) :
  get_cols col df = [NumCol v] ->
  exists w,
    Cleaning.zscore_step df col = Ok (set_col col (NumCol w) df)
    /\ Forall2 (fun x y => y = x \/ y = mean v) v w
    /\ (existsb (fun b => b) (isnull v) = true -> w = map (fun _ => mean v) v).
Proof.
  intros Hc. unfold Cleaning.zscore_step. rewrite Hc.
  eexists; split; [reflexivity | split].
  - apply where_kept_or_other, length_zscore_lt3.
  - intros Hn. unfold Cleaning.zscore_lt3. rewrite Hn. apply where_all_false.
Qed.

End ZscoreFacts.

(* ================================================================== *)
(** * More about scripts/modeling.py *)

Section PreprocessFacts.

Variable get_dummies : DataFrame -> DataFrame.

Lemma str_in_app (x : str) (l1 l2 : list str) :
  str_in x (l1 ++ l2) = str_in x l1 || str_in x l2.
Proof. unfold str_in. apply existsb_app. Qed.

Lemma str_in_filter (p : str -> bool) (x : str) (l : list str) :
  str_in x (filter p l) = str_in x l && p x.
Proof.
  destruct (str_in x (filter p l)) eqn:E; symmetry.
  - apply str_in_In, filter_In in E. destruct E as [Hin Hp].
    apply str_in_In in Hin. rewrite Hin, Hp. reflexivity.
  - destruct (str_in x l) eqn:El; [|reflexivity]. destruct (p x) eqn:Ep; [|reflexivity].
    apply str_in_In in El. assert (H : In x (filter p l)) by (apply filter_In; auto).
    apply str_in_In in H. congruence.
Qed.

Lemma columns_set_col_new (n : str) (c : column) (df : DataFrame) :
  has_col n df = false -> columns (set_col n c df) = columns df ++ [n].
Proof.
  intros H. unfold set_col, columns. rewrite H, map_app. reflexivity.
Qed.

(** [df[names]] succeeds when every name is a label of the table. *)
Lemma select_columns_Ok (names : list str) (df : DataFrame) :
  (forall n, In n names -> has_col n df = true) ->
  exists sel,
    Modeling.select_columns names df = Ok sel
    /\ columns sel = names
    /\ (forall n, In n names -> get_col n sel = get_col n df).
Proof.
  induction names as [|m names IH]; intros H.
  - exists []. repeat split. intros n [].
  - destruct IH as (rest & Hrest & Hcols & Hget); [intros n Hn; apply H; right; exact Hn|].
    destruct (get_col_Some m df (H m (or_introl eq_refl))) as [c Hc].
    exists ((m, c) :: rest). simpl. rewrite Hrest. cbn [bind]. rewrite Hc.
    split; [reflexivity | split; [simpl; f_equal; exact Hcols|]].
    intros n Hn. simpl. destruct (str_eqb m n) eqn:E.
    + apply str_eqb_eq in E; subst n. symmetry; exact Hc.
    + destruct Hn as [->|Hn]; [rewrite str_eqb_refl in E; discriminate | apply Hget, Hn].
Qed.

(** X12.  When the target column is present and, if the water column
    is present, both it and the target are numeric,
    [preprocess_for_modeling] returns: the table it builds (before the
    one-hot encoding, applied exactly when field_name is present) has
    the predictors present in the input, in the fixed order, then the
    target, then oil_to_water_ratio when the water column is present;
    the selected columns are those of the input. *)
Theorem preprocess_for_modeling_shape (df : DataFrame) :
  has_col '"oil_production_bbl" df = true ->
  (has_col '"water_production_bbl" df = true ->
   exists oil water,
     get_col '"oil_production_bbl" df = Some (NumCol oil)
     /\ get_col '"water_production_bbl" df = Some (NumCol water)) ->
  exists pre,
    Modeling.preprocess_for_modeling get_dummies df
    = Ok (if has_col '"field_name" df then get_dummies pre else pre, '"oil_production_bbl")
    /\ columns pre
       = filter (fun col => has_col col df) Modeling.features_list
         ++ ['"oil_production_bbl"]
         ++ (if has_col '"water_production_bbl" df then ['"oil_to_water_ratio"] else [])
    /\ (forall n, In n (Modeling.features_list ++ ['"oil_production_bbl"]) ->
        has_col n df = true -> get_col n pre = get_col n df).
Proof.
  intros Htarget Hwater.
  set (p := fun col => has_col col df).
  set (names := filter p Modeling.features_list ++ ['"oil_production_bbl"]).
  assert (Hnames : forall n, In n names -> has_col n df = true).
  { intros n Hn. apply in_app_or in Hn. destruct Hn as [Hn|[<-|[]]]; [|exact Htarget].
    apply filter_In in Hn. apply Hn. }
  destruct (select_columns_Ok names df Hnames) as (sel & Hsel & Hcols & Hget).
  assert (Hin_names : forall n, In n (Modeling.features_list ++ ['"oil_production_bbl"]) ->
                        has_col n df = true -> In n names).
  { intros n Hn Hh. unfold names. apply in_or_app. apply in_app_or in Hn.
    destruct Hn as [Hn|Hn]; [left; apply filter_In; split; assumption | right; exact Hn]. }
  assert (Hfield : str_in '"field_name" (filter p Modeling.features_list)
                   = has_col '"field_name" df).
  { rewrite str_in_filter. reflexivity. }
  assert (Hw : has_col '"water_production_bbl" sel = has_col '"water_production_bbl" df).
  { unfold has_col at 1. rewrite Hcols. unfold names. rewrite str_in_app, str_in_filter.
    unfold p. destruct (has_col '"water_production_bbl" df); reflexivity. }
  assert (Hr : has_col '"oil_to_water_ratio" sel = false).
  { unfold has_col. rewrite Hcols. unfold names. rewrite str_in_app, str_in_filter.
    reflexivity. }
  unfold Modeling.preprocess_for_modeling, Modeling.target_name.
  rewrite Htarget. cbn [negb]. fold p. fold names. rewrite Hsel. cbn [bind].
  rewrite Hw, Hfield.
  destruct (has_col '"water_production_bbl" df) eqn:Ew.
  - destruct (Hwater eq_refl) as (oil & water & Ho & Hwa).
    rewrite Hget, Ho by (apply Hin_names; [apply in_or_app; right; left; reflexivity
                                          | exact Htarget]).
    rewrite Hget, Hwa by (apply Hin_names; [apply in_or_app; left; simpl; tauto | exact Ew]).
    cbn [bind]. eexists. split; [reflexivity | split].
    + rewrite (columns_set_col_new _ _ _ Hr), Hcols. unfold names.
      rewrite <- app_assoc. reflexivity.
    + intros n Hn Hh. rewrite get_col_set_col.
      destruct (str_eqb '"oil_to_water_ratio" n) eqn:E; [|apply Hget, Hin_names; assumption].
      apply str_eqb_eq in E; subst n. exfalso.
      apply (in_map (fun x => x)) in Hn. clear -Hn.
      apply str_in_In in Hn. vm_compute in Hn. discriminate Hn.
  - cbn [bind]. exists sel. split; [reflexivity | split].
    + rewrite Hcols. unfold names. rewrite app_nil_r. reflexivity.
    + intros n Hn Hh. apply Hget, Hin_names; assumption.
Qed.

End PreprocessFacts.

Section ModelingLogFacts.

Variable read_csv : str -> result DataFrame.
Variable base_dir : str.
Variable get_dummies : DataFrame -> DataFrame.
Variable Model : Type.
Variable train_test_split
  : DataFrame -> column -> result ((DataFrame * DataFrame) * (column * column)).
Variable fit : DataFrame -> column -> result Model.
Variable predict : Model -> DataFrame -> result column.
Variable feature_importances : Model -> list Q.
Variable mean_squared_error : column -> column -> result Q.
Variable r2_score : column -> column -> result Q.
Variable save_figure : Modeling.figure -> str -> result str.
Variable save_report : list Modeling.figure -> str -> result unit.

(** X13.  Whatever the input and whatever fails, the Modeler's [main]
    makes its calls into scikit-learn, plotly and reportlab in one
    order: split, fit, predict, the two metrics, the two figures, the
    report.  Its log is an initial part of that list, and it is the
    whole list when [main] returns. *)
Theorem modeling_main_call_order (input_path : option str) :
  let run := Modeling.main read_csv base_dir get_dummies Model train_test_split fit predict
               feature_importances mean_squared_error r2_score save_figure save_report
               input_path in
  let all_calls := [ Modeling.TrainTestSplit; Modeling.Fit; Modeling.Predict;
                     Modeling.MeanSquaredError; Modeling.R2Score;
                     Modeling.SaveFigure '"predictions_vs_actual";
                     Modeling.SaveFigure '"feature_importance";
                     Modeling.SaveReport '"modeling_report" ] in
  (exists rest, all_calls = fst run ++ rest)
  /\ (Py.is_ok (snd run) = true -> fst run = all_calls).
Proof.
  unfold Modeling.main, Modeling.train_model, Modeling.pure_step, Modeling.call, Modeling.ret,
    Modeling.bindM.
  destruct (Utils.load_data read_csv _) as [df|];
    [|split; [eexists; reflexivity | discriminate]].
  destruct (Modeling.preprocess_for_modeling get_dummies df) as [[df_model target]|];
    [|split; [eexists; reflexivity | discriminate]].
  destruct (Modeling.drop_column target df_model) as [X|];
    [|split; [eexists; reflexivity | discriminate]].
  destruct (get_col target df_model) as [y|];
    [|split; [eexists; reflexivity | discriminate]].
  destruct (train_test_split X y) as [[[X_train X_test] [y_train y_test]]|];
    [|split; [eexists; reflexivity | discriminate]].
  destruct (fit X_train y_train) as [model|];
    [|split; [eexists; reflexivity | discriminate]].
  destruct (predict model X_test) as [y_pred|];
    [|split; [eexists; reflexivity | discriminate]].
  destruct (mean_squared_error y_test y_pred) as [mse|];
    [|split; [eexists; reflexivity | discriminate]].
  destruct (r2_score y_test y_pred) as [r2|];
    [|split; [eexists; reflexivity | discriminate]].
  cbn [app fst snd].
  destruct (save_figure _ '"predictions_vs_actual");
    [|split; [eexists; reflexivity | discriminate]].
  destruct (save_figure _ '"feature_importance");
    [|split; [eexists; reflexivity | discriminate]].
  destruct (save_report _ '"modeling_report");
    split; try (eexists; reflexivity); try reflexivity; discriminate.
Qed.

End ModelingLogFacts.

(* ================================================================== *)
(** * More about scripts/dashboard.py *)

Section FilterFacts.

Lemma take_nil {A} (mask : list bool) : take mask (@nil A) = [].
Proof. destruct mask as [|[|] mask]; reflexivity. Qed.

(** Two successive selections, the second computed on the result of
    the first, are one selection by the conjunction of the tests. *)
Lemma take_take {A B C} (p : A -> bool) (q : B -> bool) :
  forall (ns : list A) (ds : list B) (v : list C),
  length ns = length ds ->
  take (map q (take (map p ns) ds)) (take (map p ns) v)
  = take (map (fun nd => p (fst nd) && q (snd nd)) (combine ns ds)) v.
Proof.
  induction ns as [|n ns IH]; intros [|d ds] v H; simpl in H; try discriminate.
  - reflexivity.
  - injection H as H. destruct v as [|x v].
    + rewrite !take_nil. reflexivity.
    + simpl. destruct (p n); simpl.
      * destruct (q d); simpl; rewrite IH by exact H; reflexivity.
      * apply IH, H.
Qed.

Lemma col_take_take (m1 m2 m : list bool) (c : column) :
  (forall A (v : list A), take m2 (take m1 v) = take m v) ->
  col_take m2 (col_take m1 c) = col_take m c.
Proof. intros H. destruct c; simpl; rewrite H; reflexivity. Qed.

Lemma map_snd_combine {A B C} (g : B -> C) (l1 : list A) (l2 : list B) :
  length l1 = length l2 -> map (fun ab => g (snd ab)) (combine l1 l2) = map g l2.
Proof.
  revert l2. induction l1 as [|a l1 IH]; intros [|b l2] H; simpl in *; try discriminate;
    [reflexivity|]. f_equal. apply IH. congruence.
Qed.

(** X14.  On a table whose field_name column is text and whose date
    column holds dates, of the same length, the filter of
    [update_dashboard] returns the table cut to exactly the rows whose
    date lies in the range and, unless the field is 'all', whose
    field_name is the selected field: no other row is kept, none of
    these is lost, and every column is cut by the same mask. *)
Theorem filter_table_keeps_exactly
  (df : DataFrame) (names : list (option str)) (dates : list (option Z))
  (field : option str) (s e : Z) :
  get_col '"field_name" df = Some (ObjCol names) ->
  get_col '"date" df = Some (DateCol dates) ->
  length names = length dates ->
  Dashboard.filter_table df field s e
  = Ok (df_take (map (row_selected field s e) (combine names dates)) df).
Proof.
  intros Hn Hd Hlen. unfold Dashboard.filter_table.
  assert (Hobj : Dashboard.get_obj '"field_name" df = Ok names) by (apply get_obj_Ok, Hn).
  assert (Hall : str_eqb '"all" '"all" = true) by reflexivity.
  assert (Hsplit : forall f,
            (names0 <- Dashboard.get_obj '"field_name" df ;;
             Ok (df_take (Dashboard.eq_mask names0 f) df))
            = Ok (df_take (map (fun o => match o, f with
                                         | Some a, Some b => str_eqb a b
                                         | _, _ => false
                                         end) names) df)).
  { intros f. rewrite Hobj. reflexivity. }
  assert (Hcut : forall (p : option str -> bool),
            (date <- Dashboard.get_date '"date" (df_take (map p names) df) ;;
             Ok (df_take (Dashboard.between_mask date s e) (df_take (map p names) df)))
            = Ok (df_take (map (fun nd => p (fst nd) && date_ok s e (snd nd))
                               (combine names dates)) df)).
  { intros p.
    assert (Hg : Dashboard.get_date '"date" (df_take (map p names) df)
                 = Ok (take (map p names) dates)).
    { apply get_date_Ok. rewrite get_col_df_take, Hd. reflexivity. }
    rewrite Hg. cbn [bind]. f_equal. unfold df_take. rewrite map_map. apply map_ext.
    intros [k c]. simpl. f_equal. apply col_take_take. intros A v.
    unfold Dashboard.between_mask. apply (take_take p (date_ok s e)), Hlen. }
  destruct field as [f|].
  - destruct (str_eqb f '"all") eqn:Ef.
    + cbn [bind]. assert (Hg : Dashboard.get_date '"date" df = Ok dates)
        by (apply get_date_Ok, Hd).
      rewrite Hg. cbn [bind]. f_equal. f_equal. unfold Dashboard.between_mask.
      unfold row_selected, field_ok. rewrite Ef. cbn [andb].
      symmetry. apply (map_snd_combine (date_ok s e)), Hlen.
    + rewrite Hsplit. cbn [bind]. rewrite Hcut. f_equal. f_equal. apply map_ext.
      intros [o d]. unfold row_selected, field_ok. rewrite Ef. reflexivity.
  - rewrite Hsplit. cbn [bind]. rewrite Hcut. f_equal. f_equal. apply map_ext.
    intros [o d]. unfold row_selected, field_ok. simpl. destruct o; reflexivity.
Qed.

End FilterFacts.

Section InsightFacts.

Variable corr_matrix : DataFrame -> list (list (option Q)).
Variable pearson : list (option Q) -> list (option Q) -> option Q.

Lemma fold_max_spec (rest : list (str * Q)) :
  forall first : str * Q,
  let best := fold_left (fun best kv => if Qlt_le_dec (snd best) (snd kv) then kv else best)
                        rest first in
  In best (first :: rest)
  /\ snd first <= snd best
  /\ Forall (fun kv => snd kv <= snd best) rest.
Proof.
  induction rest as [|kv rest IH]; intros first; simpl.
  - split; [left; reflexivity | split; [apply Qle_refl | constructor]].
  - destruct (Qlt_le_dec (snd first) (snd kv)) as [Hlt|Hle].
    + destruct (IH kv) as (Hin & Hge & Hall). cbv zeta in *.
      split; [right; exact Hin | split; [lra | constructor; assumption]].
    + destruct (IH first) as (Hin & Hge & Hall). cbv zeta in *.
      split; [destruct Hin as [Hin|Hin]; [left; exact Hin | right; right; exact Hin]|].
      split; [exact Hge | constructor; [lra | exact Hall]].
Qed.

(** [idxmax] answers a label of the series whose value no other exceeds. *)
Lemma idxmax_spec (s : list (str * Q)) (k : str) :
  Dashboard.idxmax s = Ok k ->
  exists v, In (k, v) s /\ Forall (fun kv => snd kv <= v) s.
Proof.
  destruct s as [|first rest]; [discriminate|]. simpl. intros H. injection H as <-.
  destruct (fold_max_spec rest first) as (Hin & Hge & Hall). cbv zeta in *.
  set (best := fold_left _ rest first) in *.
  exists (snd best). split; [destruct best; exact Hin | constructor; assumption].
Qed.

Lemma In_insert_sorted (x k : str) (ks : list str) :
  In x (Dashboard.insert_sorted k ks) <-> x = k \/ In x ks.
Proof.
  induction ks as [|k' ks IH]; simpl; [intuition congruence|].
  destruct (Dashboard.str_leb k k'); simpl; [intuition congruence|].
  rewrite IH. intuition congruence.
Qed.

Lemma In_sort_keys (x : str) (ks : list str) : In x (Dashboard.sort_keys ks) <-> In x ks.
Proof.
  unfold Dashboard.sort_keys. induction ks as [|k ks IH]; simpl; [tauto|].
  rewrite In_insert_sorted, IH. intuition congruence.
Qed.

Lemma In_unique_str (x : str) (l : list str) : In x (Dashboard.unique str_eqb l) <-> In x l.
Proof.
  induction l as [|y l IH]; simpl; [tauto|]. rewrite filter_In, IH.
  destruct (str_eqb y x) eqn:E.
  - apply str_eqb_eq in E. subst. intuition.
  - apply str_eqb_neq in E. intuition.
Qed.

Lemma In_non_null {A} (x : A) (v : list (option A)) : In x (non_null v) <-> In (Some x) v.
Proof.
  induction v as [|[y|] v IH]; simpl; [tauto| |].
  - rewrite IH. intuition congruence.
  - rewrite IH. intuition discriminate.
Qed.

Lemma In_groupby_sum (keys : list (option str)) (vals : list (option Q)) (k : str) (v : Q) :
  In (k, v) (Dashboard.groupby_sum keys vals)
  <-> In (Some k) keys /\ v = Dashboard.group_sum keys vals k.
Proof.
  unfold Dashboard.groupby_sum. rewrite in_map_iff. split.
  - intros (k' & Heq & Hin). injection Heq as -> <-.
    apply In_sort_keys, In_unique_str, In_non_null in Hin. split; [exact Hin | reflexivity].
  - intros [Hin ->]. exists k. split; [reflexivity|].
    apply In_sort_keys, In_unique_str, In_non_null, Hin.
Qed.

(** X15.  When [create_insights] returns, the top-producing field it
    reports is a field of the selection, and no field of the selection
    has a larger summed oil production. *)
Theorem create_insights_top_field (df_filtered : DataFrame) (ins : Dashboard.insights) :
  Dashboard.create_insights pearson df_filtered = Ok ins ->
  exists fields oil,
    get_col '"field_name" df_filtered = Some (ObjCol fields)
    /\ get_col '"oil_production_bbl" df_filtered = Some (NumCol oil)
    /\ In (Some (Dashboard.insight_top_field ins)) fields
    /\ forall k, In (Some k) fields ->
         Dashboard.group_sum fields oil k
         <= Dashboard.group_sum fields oil (Dashboard.insight_top_field ins).
Proof.
  unfold Dashboard.create_insights. intros H.
  destruct (Dashboard.get_num '"oil_production_bbl" df_filtered) as [oil|] eqn:Eo;
    [|discriminate]. cbn [bind] in H.
  destruct (Dashboard.active_well_count df_filtered) as [active|]; [|discriminate].
  cbn [bind] in H.
  destruct (Dashboard.get_obj '"field_name" df_filtered) as [fields|] eqn:Ef;
    [|discriminate]. cbn [bind] in H.
  destruct (Dashboard.idxmax (Dashboard.groupby_sum fields oil)) as [top|] eqn:Et;
    [|discriminate]. cbn [bind] in H.
  destruct (Dashboard.get_num '"wellhead_pressure_psi" df_filtered) as [pressure|];
    [|discriminate]. cbn [bind] in H. injection H as <-. cbn [Dashboard.insight_top_field].
  exists fields, oil. split; [apply get_obj_Ok, Ef|]. split.
  { unfold Dashboard.get_num in Eo.
    destruct (get_col '"oil_production_bbl" df_filtered) as [[?|?|?]|]; try discriminate.
    injection Eo as ->. reflexivity. }
  destruct (idxmax_spec _ _ Et) as (v & Hin & Hall).
  apply In_groupby_sum in Hin. destruct Hin as [Hin ->]. split; [exact Hin|].
  intros k Hk. rewrite Forall_forall in Hall.
  apply (Hall (k, Dashboard.group_sum fields oil k)).
  apply In_groupby_sum. split; [exact Hk | reflexivity].
Qed.

Lemma select_columns_present (names : list str) (df sub : DataFrame) :
  Modeling.select_columns names df = Ok sub ->
  forall n, In n names -> has_col n df = true.
Proof.
  revert sub. induction names as [|m names IH]; intros sub H n Hn; [destruct Hn|].
  simpl in H. destruct (Modeling.select_columns names df) as [rest|] eqn:E; [|discriminate].
  cbn [bind] in H. destruct (get_col m df) as [c|] eqn:Ec; [|discriminate].
  destruct Hn as [<-|Hn]; [eapply get_col_has; exact Ec | eapply IH; [reflexivity | exact Hn]].
Qed.

Lemma has_col_df_take (mask : list bool) (n : str) (df : DataFrame) :
  has_col n (df_take mask df) = has_col n df.
Proof. unfold has_col. rewrite columns_df_take. reflexivity. Qed.

Lemma filter_table_columns (df out : DataFrame) (field : option str) (s e : Z) :
  Dashboard.filter_table df field s e = Ok out -> columns out = columns df.
Proof.
  unfold Dashboard.filter_table. intros H.
  match type of H with bind ?m _ = _ => destruct m as [df1|] eqn:E1; [|discriminate] end.
  cbn [bind] in H. destruct (Dashboard.get_date '"date" df1); [|discriminate].
  cbn [bind] in H. injection H as <-. rewrite columns_df_take.
  destruct field as [f|].
  - destruct (str_eqb f '"all"); [injection E1 as <-; reflexivity|].
    destruct (Dashboard.get_obj '"field_name" df); [|discriminate].
    cbn [bind] in E1. injection E1 as <-. apply columns_df_take.
  - destruct (Dashboard.get_obj '"field_name" df); [|discriminate].
    cbn [bind] in E1. injection E1 as <-. apply columns_df_take.
Qed.

(** X16.  The callback returns only on a table that holds all seven
    numeric labels of the heatmap together with field_name, date,
    status and well_id: if one of them is missing from the loaded
    table, every call of [update_dashboard] raises. *)
Theorem update_dashboard_needs_columns
  (df : DataFrame) (field : option str) (s e : Z) (out : Dashboard.outputs) :
  Dashboard.update_dashboard corr_matrix pearson df field s e = Ok out ->
  Forall (fun n => has_col n df = true)
         (Dashboard.numeric_cols ++ ['"field_name"; '"date"; '"status"; '"well_id"]).
Proof.
  unfold Dashboard.update_dashboard. intros H.
  destruct (Dashboard.filter_table df field s e) as [filtered|] eqn:Ef; [|discriminate].
  cbn [bind] in H. pose proof (filter_table_columns _ _ _ _ _ Ef) as Hcols.
  assert (Hhas : forall n, has_col n filtered = true -> has_col n df = true)
    by (intros n; unfold has_col; rewrite Hcols; trivial).
  destruct (Dashboard.create_histogram filtered _); [|discriminate]. cbn [bind] in H.
  destruct (Dashboard.create_scatter filtered _ _ _) eqn:Es; [|discriminate]. cbn [bind] in H.
  destruct (Dashboard.create_boxplot filtered _ _); [|discriminate]. cbn [bind] in H.
  destruct (Dashboard.create_heatmap corr_matrix filtered _) eqn:Eh; [|discriminate].
  cbn [bind] in H.
  destruct (Dashboard.create_timeseries filtered _ _) eqn:Et; [|discriminate].
  cbn [bind] in H.
  destruct (Dashboard.create_kpis filtered) eqn:Ek; [|discriminate]. clear H.
  apply Forall_app. split.
  - unfold Dashboard.create_heatmap in Eh.
    destruct (Modeling.select_columns Dashboard.numeric_cols filtered) as [sub|] eqn:Esub;
      [|discriminate].
    apply Forall_forall. intros n Hn. apply Hhas. eapply select_columns_present; eassumption.
  - assert (Hfield : has_col '"field_name" filtered = true).
    { unfold Dashboard.create_scatter, Dashboard.opt_px_col, Dashboard.px_col in Es.
      destruct (get_col '"wellhead_pressure_psi" filtered); [|discriminate].
      cbn [bind] in Es. destruct (get_col '"oil_production_bbl" filtered); [|discriminate].
      cbn [bind] in Es. destruct (get_col '"field_name" filtered) eqn:E; [|discriminate].
      eapply get_col_has; exact E. }
    assert (Hdate : has_col '"date" filtered = true).
    { unfold Dashboard.create_timeseries, Dashboard.px_col in Et.
      destruct (get_col '"date" filtered) eqn:E; [|discriminate].
      eapply get_col_has; exact E. }
    assert (Hsw : has_col '"status" filtered = true /\ has_col '"well_id" filtered = true).
    { unfold Dashboard.create_kpis in Ek.
      destruct (Dashboard.get_num '"oil_production_bbl" filtered); [|discriminate].
      cbn [bind] in Ek. unfold Dashboard.active_well_count in Ek.
      destruct (Dashboard.get_obj '"status" filtered) as [st|] eqn:E1; [|discriminate].
      cbn [bind] in Ek.
      destruct (Dashboard.get_any '"well_id" _) as [w|] eqn:E2; [|discriminate].
      split.
      - apply get_obj_Ok in E1. eapply get_col_has; exact E1.
      - unfold Dashboard.get_any in E2. rewrite get_col_df_take in E2.
        destruct (get_col '"well_id" filtered) eqn:E; [|discriminate].
        eapply get_col_has; exact E. }
    destruct Hsw as [Hs Hw]. repeat constructor; apply Hhas; assumption.
Qed.

End InsightFacts.

Section StartupFacts.

Variable read_csv : str -> result DataFrame.
Variable to_datetime : column -> list (option Z).
Variable base_dir : str.

(** X17.  [startup] lets no load error escape (it returns without a
    table), and a table it serves has a date column of parsed dates with
    at least one date, and a field_name column; on such a table the
    filter of the callback with field 'all' returns for every range. *)
Theorem startup_serves_filterable_table (input_path : option str) :
  let run := Dashboard.startup read_csv to_datetime base_dir input_path in
  (forall e, Utils.load_data read_csv (Modeling.default_input_path base_dir input_path)
             = Raise e -> run = Ok None)
  /\ (forall df, run = Ok (Some df) ->
        (exists dates, get_col '"date" df = Some (DateCol dates) /\ non_null dates <> [])
        /\ has_col '"field_name" df = true
        /\ forall s e, exists out, Dashboard.filter_table df (Some '"all") s e = Ok out).
Proof.
  unfold Dashboard.startup. cbv zeta.
  destruct (Utils.load_data read_csv (Modeling.default_input_path base_dir input_path))
    as [raw|e0]; split; try reflexivity; try discriminate.
  intros df H.
  destruct (Dashboard.get_any '"date" raw) as [date|]; [|discriminate]. cbn [bind] in H.
  destruct (Dashboard.get_any '"field_name" _) as [fields|] eqn:Ef; [|discriminate].
  cbn [bind] in H.
  destruct (non_null (to_datetime date)) as [|d ds] eqn:Ed; [discriminate|].
  injection H as <-.
  assert (Hd : get_col '"date" (set_col '"date" (DateCol (to_datetime date)) raw)
               = Some (DateCol (to_datetime date))).
  { rewrite get_col_set_col, str_eqb_refl. reflexivity. }
  split; [exists (to_datetime date); split; [exact Hd | rewrite Ed; discriminate]|].
  split.
  - unfold Dashboard.get_any in Ef.
    destruct (get_col '"field_name" _) eqn:E; [|discriminate]. eapply get_col_has; exact E.
  - intros s e. unfold Dashboard.filter_table.
    assert (Hall : str_eqb '"all" '"all" = true) by reflexivity. rewrite Hall. cbn [bind].
    assert (Hg : Dashboard.get_date '"date"
                   (set_col '"date" (DateCol (to_datetime date)) raw)
                 = Ok (to_datetime date)) by (apply get_date_Ok, Hd).
    rewrite Hg. cbn [bind]. eexists; reflexivity.
Qed.

End StartupFacts.

(* ================================================================== *)
(** * About scripts/eda.py *)

Section EdaFacts.

Variable read_csv : str -> result DataFrame.
Variable base_dir : str.
Variable corr_matrix : DataFrame -> list (list (option Q)).
Variable save_figure : Eda.saved -> str -> result str.
Variable first_trace : Dashboard.figure -> result Dashboard.figure.

Let run := Eda.main read_csv base_dir corr_matrix save_figure first_trace.

(** X18.  The Analyzer's [main] saves its figures in one order:
    histogram, scatter, boxplot, heatmap, then timeseries exactly when
    the table has a date column, then the combined dashboard.  Its log
    is an initial part of that list, cut where a chart or a save
    raises, and the whole list when [main] returns. *)
Theorem eda_main_figure_order (input_path : option str) (df : DataFrame) :
  Utils.load_data read_csv (Modeling.default_input_path base_dir input_path) = Ok df ->
  let expected :=
    [ Modeling.SaveFigure '"histogram"; Modeling.SaveFigure '"scatter";
      Modeling.SaveFigure '"boxplot"; Modeling.SaveFigure '"heatmap" ]
    ++ (if has_col '"date" df then [Modeling.SaveFigure '"timeseries"] else [])
    ++ [ Modeling.SaveFigure '"dashboard" ] in
  (exists rest, expected = fst (run input_path) ++ rest)
  /\ (Py.is_ok (snd (run input_path)) = true -> fst (run input_path) = expected).
Proof.
  intros Hload. unfold run, Eda.main, Eda.chart, Modeling.pure_step, Modeling.call,
    Modeling.ret, Modeling.bindM. rewrite Hload.
  destruct (has_col '"date" df);
    repeat match goal with
    | |- context [match ?x with Ok _ => _ | Raise _ => _ end] => destruct x
    end;
    cbn [fst snd app Py.is_ok];
    (split; [eexists; reflexivity | first [reflexivity | discriminate]]).
Qed.

(** X19.  On a loaded table without the column oil_production_bbl the
    Analyzer's [main] raises ValueError at the first chart, before any
    figure is saved. *)
Theorem eda_without_oil_column_raises (input_path : option str) (df : DataFrame) :
  Utils.load_data read_csv (Modeling.default_input_path base_dir input_path) = Ok df ->
  has_col '"oil_production_bbl" df = false ->
  run input_path = ([], Raise (Exc ValueError '"oil_production_bbl")).
Proof.
  intros Hload Hcol. unfold run, Eda.main, Eda.chart, Modeling.pure_step. rewrite Hload.
  cbn [Modeling.bindM]. unfold Dashboard.create_histogram, Dashboard.px_col.
  rewrite (get_col_None _ _ Hcol). reflexivity.
Qed.

End EdaFacts.

(* ================================================================== *)
(** * More about scripts/utils.py *)

Section NameFacts.

Variable str_lower : str -> str.

Hypothesis lower_no_upper :
  forall s, Forall (fun c => Utils.is_ascii_upper c = false) (str_lower s).

Lemma map_snd_combine_all {A B} (l1 : list A) (l2 : list B) :
  length l1 = length l2 -> map snd (combine l1 l2) = l2.
Proof.
  revert l2. induction l1 as [|a l1 IH]; intros [|b l2] H; simpl in *; try discriminate;
    [reflexivity|]. f_equal. apply IH. congruence.
Qed.

(** X20.  [clean_column_names] only renames: the columns, their data and
    their order are untouched, and every new label is made of lowercase
    ASCII letters, digits and underscores only. *)
Theorem clean_column_names_renames_only (df : DataFrame) :
  map snd (Utils.clean_column_names str_lower df) = map snd df
  /\ length (Utils.clean_column_names str_lower df) = length df
  /\ Forall (Forall (fun c => Utils.is_ascii_lower c || Utils.is_ascii_digit c
                              || N.eqb c 95 = true))
            (columns (Utils.clean_column_names str_lower df)).
Proof.
  assert (Hdata : map snd (Utils.clean_column_names str_lower df) = map snd df).
  { unfold Utils.clean_column_names, rename_columns. apply map_snd_combine_all.
    unfold columns. rewrite !length_map. reflexivity. }
  split; [exact Hdata | split].
  - rewrite <- (length_map snd), Hdata, length_map. reflexivity.
  - unfold Utils.clean_column_names. rewrite columns_rename
      by (unfold columns; rewrite !length_map; reflexivity).
    apply Forall_forall. intros name Hname. apply in_map_iff in Hname.
    destruct Hname as (raw & <- & _). unfold Utils.clean_name.
    assert (Hs : Forall (fun c => Utils.is_ascii_upper c = false)
                   (Utils.strip (str_lower raw))) by (apply strip_incl, lower_no_upper).
    induction Hs as [|c s Hc Hs IH]; simpl; constructor; [|exact IH].
    destruct (Utils.in_class c) eqn:Ein; [|reflexivity].
    unfold Utils.in_class in Ein. rewrite Hc in Ein.
    destruct (Utils.is_ascii_lower c), (Utils.is_ascii_digit c), (N.eqb c 95);
      simpl in *; congruence.
Qed.

End NameFacts.

(* ================================================================== *)
(** * The further properties on the sample tables *)

Lemma raw_table_aligned : aligned Samples.raw_table.
Proof. intros kc [<-|[<-|[<-|[<-|[]]]]]; reflexivity. Qed.

Lemma handle_missing_values_fills_then_cuts_witness :
  let df := Samples.raw_table in
  let filled := map (fun kc => (fst kc, Cleaning.fill_col (snd kc))) df in
  let out :=
    map (fun kc => (fst kc, col_take (kept_rows filled) (Cleaning.fill_col (snd kc)))) df in
  Cleaning.handle_missing_values df = Ok out
  /\ columns out = columns df
  /\ map (fun kc => is_number (snd kc)) out = map (fun kc => is_number (snd kc)) df.
Proof.
  apply (handle_missing_values_fills_then_cuts Samples.raw_table).
  vm_compute. nodup_strs.
Defined.

Lemma handle_missing_values_idempotent_witness :
  exists out,
    Cleaning.handle_missing_values Samples.raw_table = Ok out
    /\ Cleaning.handle_missing_values out = Ok out.
Proof.
  apply (handle_missing_values_idempotent Samples.raw_table).
  - vm_compute. nodup_strs.
  - exact raw_table_aligned.
Defined.

Lemma handle_missing_values_drops_incomplete_rows_witness :
  exists out,
    Cleaning.handle_missing_values Samples.raw_table = Ok out
    /\ forall n c, In (n, c) out -> is_number c = false -> has_null c = false.
Proof.
  apply (handle_missing_values_drops_incomplete_rows Samples.raw_table).
  vm_compute. nodup_strs.
Defined.

(** The sample has a null field name in its fourth row, which is dropped. *)
Example handle_missing_values_sample_rows :
  exists out,
    Cleaning.handle_missing_values Samples.raw_table = Ok out
    /\ get_cols '" Field Name " out
       = [ObjCol [Some '"North"; Some '"South"; Some '"North"; Some '"South"]].
Proof. eexists. split; vm_compute; reflexivity. Qed.

Lemma handle_outliers_touches_listed_values_only_witness :
  let df := skewed_table in
  let out := [('"oil_production_bbl", NumCol [Some 0; Some 0; Some 0; Some (8000 # 128)])] in
  let cols := ['"oil_production_bbl"] in
  columns out = columns df
  /\ forall i k c, nth_error df i = Some (k, c) ->
       exists c', nth_error out i = Some (k, c')
                  /\ col_isnull c' = col_isnull c
                  /\ col_kind c' = col_kind c
                  /\ (~ In k cols -> c' = c).
Proof.
  apply (handle_outliers_touches_listed_values_only Qfloor skewed_table
           [('"oil_production_bbl", NumCol [Some 0; Some 0; Some 0; Some (8000 # 128)])]
           ['"oil_production_bbl"]).
  vm_compute. reflexivity.
Defined.


(** Two headers that normalize to the label of a listed column: the
    IQR step gets a sub-frame and pandas raises ValueError. *)
Example cleaner_main_on_colliding_headers :
  Cleaning.main Samples.lower_ascii_only
    (fun _ => Ok [ ('"Oil_Production_BBL", NumCol [Some 1; Some 2]);
                   ('"oil_production_bbl", NumCol [Some 3; Some 4]) ])
    '"20250731" Samples.makedirs_ok Samples.to_csv_ok Samples.to_datetime Qfloor project_dir
  = Raise (Exc ValueError '"oil_production_bbl").
Proof. vm_compute. reflexivity. Qed.

Lemma zscore_step_keeps_or_replaces_witness :
  exists w,
    Cleaning.zscore_step gappy_table '"oil_production_bbl"
    = Ok (set_col '"oil_production_bbl" (NumCol w) gappy_table)
    /\ Forall2 (fun x y => y = x \/ y = mean [Some 10; None; Some 30])
               [Some 10; None; Some 30] w
    /\ (existsb (fun b => b) (isnull [Some 10; None; Some 30]) = true ->
        w = map (fun _ => mean [Some 10; None; Some 30]) [Some 10; None; Some 30]).
Proof.
  apply (zscore_step_keeps_or_replaces gappy_table '"oil_production_bbl"
           [Some 10; None; Some 30]).
  vm_compute. reflexivity.
Defined.

Lemma handle_outliers_unknown_method_witness :
  Cleaning.handle_outliers Qfloor skewed_table ['"oil_production_bbl"; '"no_such_column"]
    '"iqr"
  = Ok skewed_table.
Proof.
  apply (handle_outliers_unknown_method Qfloor skewed_table
           ['"oil_production_bbl"; '"no_such_column"] '"iqr").
  - intros H. apply str_eqb_eq in H. vm_compute in H. discriminate H.
  - intros H. apply str_eqb_eq in H. vm_compute in H. discriminate H.
Defined.

Lemma preprocess_for_modeling_shape_witness :
  exists pre,
    Modeling.preprocess_for_modeling (fun df => df) dashboard_csv
    = Ok (if has_col '"field_name" dashboard_csv then (fun df => df) pre else pre,
          '"oil_production_bbl")
    /\ columns pre
       = filter (fun col => has_col col dashboard_csv) Modeling.features_list
         ++ ['"oil_production_bbl"]
         ++ (if has_col '"water_production_bbl" dashboard_csv
             then ['"oil_to_water_ratio"] else [])
    /\ (forall n, In n (Modeling.features_list ++ ['"oil_production_bbl"]) ->
        has_col n dashboard_csv = true -> get_col n pre = get_col n dashboard_csv).
Proof.
  apply (preprocess_for_modeling_shape (fun df => df) dashboard_csv).
  - vm_compute. reflexivity.
  - intros _. exists [Some 100; Some 200], [Some 5; Some 6].
    split; vm_compute; reflexivity.
Defined.

Lemma filter_table_keeps_exactly_witness :
  Dashboard.filter_table dashboard_table (Some '"South") 1 2
  = Ok (df_take (map (row_selected (Some '"South") 1 2)
                     (combine [Some '"North"; Some '"South"] [Some 1%Z; Some 2%Z]))
                dashboard_table).
Proof.
  apply (filter_table_keeps_exactly dashboard_table
           [Some '"North"; Some '"South"] [Some 1%Z; Some 2%Z] (Some '"South") 1 2).
  - vm_compute. reflexivity.
  - vm_compute. reflexivity.
  - reflexivity.
Defined.

Lemma create_insights_top_field_witness :
  exists fields oil,
    get_col '"field_name" dashboard_table = Some (ObjCol fields)
    /\ get_col '"oil_production_bbl" dashboard_table = Some (NumCol oil)
    /\ In (Some (Dashboard.insight_top_field dashboard_insights)) fields
    /\ forall k, In (Some k) fields ->
         Dashboard.group_sum fields oil k
         <= Dashboard.group_sum fields oil (Dashboard.insight_top_field dashboard_insights).
Proof.
  apply (create_insights_top_field no_pearson dashboard_table dashboard_insights).
  vm_compute. reflexivity.
Defined.

Example dashboard_top_field_is_south :
  Dashboard.insight_top_field dashboard_insights = '"South".
Proof. vm_compute. reflexivity. Qed.

Lemma update_dashboard_needs_columns_witness :
  Forall (fun n => has_col n dashboard_table = true)
         (Dashboard.numeric_cols ++ ['"field_name"; '"date"; '"status"; '"well_id"]).
Proof.
  destruct dashboard_outputs as [out|e] eqn:E.
  - apply (update_dashboard_needs_columns no_corr_matrix no_pearson dashboard_table
             (Some '"all") 1 2 out). exact E.
  - vm_compute in E. discriminate E.
Defined.

Lemma eda_main_figure_order_witness :
  let run := Eda.main (fun _ => Ok dashboard_csv) project_dir no_corr_matrix save_ok
               whole_chart in
  let expected :=
    [ Modeling.SaveFigure '"histogram"; Modeling.SaveFigure '"scatter";
      Modeling.SaveFigure '"boxplot"; Modeling.SaveFigure '"heatmap" ]
    ++ (if has_col '"date" dashboard_csv then [Modeling.SaveFigure '"timeseries"] else [])
    ++ [ Modeling.SaveFigure '"dashboard" ] in
  (exists rest, expected = fst (run None) ++ rest)
  /\ (Py.is_ok (snd (run None)) = true -> fst (run None) = expected).
Proof.
  apply (eda_main_figure_order (fun _ => Ok dashboard_csv) project_dir no_corr_matrix
           save_ok whole_chart None dashboard_csv).
  reflexivity.
Defined.

Example eda_sample_log :
  fst (Eda.main (fun _ => Ok dashboard_csv) project_dir no_corr_matrix save_ok whole_chart None)
  = [ Modeling.SaveFigure '"histogram"; Modeling.SaveFigure '"scatter";
      Modeling.SaveFigure '"boxplot"; Modeling.SaveFigure '"heatmap";
      Modeling.SaveFigure '"timeseries"; Modeling.SaveFigure '"dashboard" ].
Proof. vm_compute. reflexivity. Qed.

Lemma eda_without_oil_column_raises_witness :
  Eda.main (fun _ => Ok no_target_table) project_dir no_corr_matrix save_ok whole_chart None
  = ([], Raise (Exc ValueError '"oil_production_bbl")).
Proof.
  apply (eda_without_oil_column_raises (fun _ => Ok no_target_table) project_dir
           no_corr_matrix save_ok whole_chart None no_target_table).
  - reflexivity.
  - vm_compute. reflexivity.
Defined.

Lemma clean_column_names_renames_only_witness :
  map snd (Utils.clean_column_names Samples.lower_ascii_only Samples.raw_table)
  = map snd Samples.raw_table
  /\ length (Utils.clean_column_names Samples.lower_ascii_only Samples.raw_table)
     = length Samples.raw_table
  /\ Forall (Forall (fun c => Utils.is_ascii_lower c || Utils.is_ascii_digit c
                              || N.eqb c 95 = true))
            (columns (Utils.clean_column_names Samples.lower_ascii_only Samples.raw_table)).
Proof.
  apply (clean_column_names_renames_only Samples.lower_ascii_only).
  apply lower_ascii_only_no_upper.
Defined.
